(** * GORM execution core: prepared-statement pool and session handles

    A shallow embedding of [prepare_stmt.go], of the handle part of
    [gorm.go] (Session, getInstance, WithContext, Debug, Set, Get,
    InstanceSet, InstanceGet, AddError, DB, Use) and of the two [Build]
    functions of [clause/select.go].  Go objects that are
    shared and mutated live in typed heaps (lists indexed by address);
    every method is a function of a state monad over these heaps that can
    also panic.  Calls that leave the package (the SQL driver, the lock,
    plugin initialisation) are recorded in a trace of events, and their
    results come from an oracle that may depend on the whole history. *)

From Stdlib Require Import ZArith Lia Ascii.
From stdpp Require Import base option list strings pretty gmap.

Set Warnings "-register-all".
Local Open Scope string_scope.
Local Open Scope list_scope.
Local Open Scope Z_scope.

(** ** Go values *)

Abbreviation ptr := nat (only parsing).

(** [error] values.  [ErrOpaque] is any error the package does not know;
    [ErrWrap msg e] is the result of [fmt.Errorf] with one [%w] operand:
    its text is [msg] and it unwraps to [e]. *)
Inductive error : Type :=
| ErrBadConn
| ErrInvalidTransaction
| ErrRegistered
| ErrInvalidDB
| ErrOpaque (msg : string)
| ErrWrap (msg : string) (wrapped : error).

#[global] Instance error_eq_dec : EqDecision error.
Proof. solve_decision. Defined.

(** [err.Error()].  The texts of the four sentinels are those of
    [database/sql/driver] and of the package's [errors.go]; nothing below
    depends on them. *)
Definition Error_text (e : error) : string :=
  match e with
  | ErrBadConn => "driver: bad connection"
  | ErrInvalidTransaction => "invalid transaction"
  | ErrRegistered => "registered"
  | ErrInvalidDB => "invalid db"
  | ErrOpaque msg => msg
  | ErrWrap msg _ => msg
  end.

(** [errors.Is(err, target)] for an [err] that may be nil. *)
Fixpoint errors_Is_chain (e target : error) : bool :=
  if decide (e = target) then true
  else match e with
       | ErrWrap _ inner => errors_Is_chain inner target
       | _ => false
       end.

Definition errors_Is (err : option error) (target : error) : bool :=
  match err with
  | Some e => errors_Is_chain e target
  | None => false
  end.

(** [fmt.Errorf("%v; %w", old, err)].  With a nil [%w] operand the verb
    prints as a bad verb and nothing is wrapped. *)
Definition Errorf_v_w (old : error) (err : option error) : error :=
  match err with
  | Some e => ErrWrap (Error_text old +:+ "; " +:+ Error_text e) e
  | None => ErrOpaque (Error_text old +:+ "; %!w(<nil>)")
  end.

(** Arguments of a query ([interface{}] values). *)
Inductive iface : Type :=
| INil
| IInt (n : Z)
| IString (s : string).

(** [context.Context]: only its identity matters here. *)
Definition Context := nat.

(** ** Connections *)

(** The driver-level connection a statement is bound to. *)
Inductive RawConn : Type :=
| RawDB (id : nat)
| RawTx (id : nat).

#[global] Instance RawConn_eq_dec : EqDecision RawConn.
Proof. solve_decision. Defined.

(** [*sql.Stmt]. *)
Record sql_Stmt := mk_sql_Stmt {
  stmt_query : string;
  stmt_conn : RawConn
}.

Record sql_Result := mk_sql_Result {
  LastInsertId : Z;
  RowsAffected_ : Z
}.

Definition sql_Rows := list (list iface).

(** [*sql.Row]: the error of the execution stays inside the row until the
    caller scans it.  [&sql.Row{}] is [empty_Row]. *)
Record sql_Row := mk_sql_Row {
  row_err : option error;
  row_rows : option sql_Rows
}.

Definition empty_Row : sql_Row := mk_sql_Row None None.

(** The dynamic values behind the interfaces [Tx] and [ConnPool].  An
    interface value is an [option]: [None] is the nil interface.
    [SqlTx None] is the nil [*sql.Tx] stored in a non-nil interface and
    [SqlDBnil] the nil [*sql.DB] stored in one.  [Tx] is an interface, so
    a value of any type with its methods can be bound: [StructTx id] is a
    value of a struct type with value receivers and exactly the method
    set of [Tx], which answers as the transaction [id] does.
    The fields of a [PreparedStmtDB] are never reassigned, so a
    [*PreparedStmtDB] is modelled by the struct it points to; what it
    shares with its copies are the addresses [Stmts] and [Mux].  The
    package creates a [*PreparedStmtDB] and a [*PreparedStmtTX] only with
    the address operator, while [database/sql] hands out nil for a
    [*sql.Tx] and the code tests both [*sql.Tx] and [*sql.DB] for nil:
    these two pointers can be nil here, those to the wrappers cannot. *)
Inductive TxObj : Type :=
| SqlTx (p : option nat)
| PreparedStmtTXp (Tx_ : option TxObj) (PreparedStmtDB_ : PreparedStmtDB)
| StructTx (id : nat)
with PreparedStmtDB : Type :=
| mkPreparedStmtDB (Stmts_ : option ptr) (Mux_ : ptr) (ConnPool_ : option ConnObj)
with ConnObj : Type :=
| SqlDB (id : nat)
| ConnTx (t : TxObj)
| ConnPreparedStmtDB (db : PreparedStmtDB)
| SqlDBnil.

Definition Tx := option TxObj.
Definition ConnPool := option ConnObj.

Definition Stmts (db : PreparedStmtDB) : option ptr :=
  match db with mkPreparedStmtDB s _ _ => s end.
Definition Mux (db : PreparedStmtDB) : ptr :=
  match db with mkPreparedStmtDB _ m _ => m end.
Definition PreparedStmtDB_ConnPool (db : PreparedStmtDB) : ConnPool :=
  match db with mkPreparedStmtDB _ _ c => c end.

(** [type PreparedStmtTX struct { Tx; PreparedStmtDB *PreparedStmtDB }] *)
Record PreparedStmtTX := mkPreparedStmtTX {
  PreparedStmtTX_Tx : Tx;
  PreparedStmtTX_PreparedStmtDB : PreparedStmtDB
}.

(** Converting a [Tx] interface value to a [ConnPool] interface value. *)
Definition Tx_as_ConnPool (t : Tx) : ConnPool :=
  match t with
  | Some o => Some (ConnTx o)
  | None => None
  end.

(** The type switch [case Tx]: [*sql.Tx], [*PreparedStmtTX] and the
    struct have the method set of [Tx]; [*sql.DB] and [*PreparedStmtDB]
    have no Commit. *)
Definition as_Tx (c : ConnPool) : option TxObj :=
  match c with
  | Some (ConnTx t) => Some t
  | _ => None
  end.

(** The transaction a [Tx] value finally talks to: embedded interfaces
    promote their methods to the wrapped value.  [None] where the call
    would dereference nil. *)
Fixpoint TxObj_target (t : TxObj) : option nat :=
  match t with
  | SqlTx p => p
  | PreparedStmtTXp (Some t') _ => TxObj_target t'
  | PreparedStmtTXp None _ => None
  | StructTx id => Some id
  end.

Definition Tx_target (t : Tx) : option nat :=
  match t with
  | Some o => TxObj_target o
  | None => None
  end.

(** The raw connection on which [conn.PrepareContext] ends up. *)
Fixpoint ConnObj_target (c : ConnObj) : option RawConn :=
  match c with
  | SqlDB id => Some (RawDB id)
  | ConnTx t => RawTx <$> TxObj_target t
  | ConnPreparedStmtDB (mkPreparedStmtDB _ _ (Some c')) => ConnObj_target c'
  | ConnPreparedStmtDB (mkPreparedStmtDB _ _ None) => None
  | SqlDBnil => None
  end.

Definition ConnPool_target (c : ConnPool) : option RawConn :=
  match c with
  | Some o => ConnObj_target o
  | None => None
  end.

(** ** Events and the driver *)

(** What leaves the package: lock operations on a [sync.RWMutex], calls
    into [database/sql], and plugin initialisation. *)
Inductive Event : Type :=
| EvRLock (m : ptr)
| EvRUnlock (m : ptr)
| EvLock (m : ptr)
| EvUnlock (m : ptr)
| EvPrepare (c : RawConn) (query : string)
| EvStmtContext (tx : nat) (s : sql_Stmt)
| EvExec (s : sql_Stmt) (args : list iface)
| EvQuery (s : sql_Stmt) (args : list iface)
| EvQueryRow (s : sql_Stmt) (args : list iface)
| EvCommit (tx : nat)
| EvRollback (tx : nat)
| EvInitialize (plugin : nat) (db : ptr).

(** The answers of [database/sql]; each may depend on everything that
    happened before. *)
Record Driver := mkDriver {
  drv_prepare : list Event -> RawConn -> string -> option error;
  drv_exec : list Event -> sql_Stmt -> list iface -> option sql_Result * option error;
  drv_query : list Event -> sql_Stmt -> list iface -> option sql_Rows * option error;
  drv_queryrow : list Event -> sql_Stmt -> list iface -> sql_Row;
  drv_commit : list Event -> nat -> option error;
  drv_rollback : list Event -> nat -> option error
}.

(** ** The statement store *)

(** [stmt_store.Stmt].  A [*Stmt] is modelled by the struct together with
    its address [Stmt_addr]: two statements are the same object exactly
    when they are equal. *)
Record Stmt := mkStmt {
  Stmt_addr : nat;
  Stmt_Stmt : option sql_Stmt;
  Transaction : bool;
  prepareErr : option error
}.

(** [stmt.Error()] *)
Definition Stmt_Error (stmt : Stmt) : option error := prepareErr stmt.

(** Modelled from the spec: the statement store of [internal/stmt_store],
    which is not among the sources.  The spec describes it as a bounded
    mapping from query template to compiled statement with LRU and
    time-to-live eviction.  [entries] is kept most recently used first;
    each entry carries the time of its insertion. *)
Record lruStore := mkLruStore {
  maxSize : positive;
  ttl : positive;
  entries : list (string * (Stmt * Z))
}.

Definition lru_remove (key : string) (es : list (string * (Stmt * Z)))
  : list (string * (Stmt * Z)) :=
  filter (fun e => e.1 <> key) es.

Definition lru_find (key : string) (es : list (string * (Stmt * Z)))
  : option (Stmt * Z) :=
  snd <$> List.find (fun e => bool_decide (e.1 = key)) es.

(** Modelled from the spec: an entry older than the time-to-live is
    unusable on lookup (a miss). *)
Definition lru_peek (now : Z) (key : string) (s : lruStore) : option Stmt :=
  match lru_find key (entries s) with
  | Some (stmt, born) => if now - born <=? Z.pos (ttl s) then Some stmt else None
  | None => None
  end.

(** Modelled from the spec: a lookup that hits makes the entry the most
    recently used one. *)
Definition lru_Get (now : Z) (key : string) (s : lruStore) : option Stmt * lruStore :=
  match lru_find key (entries s) with
  | Some (stmt, born) =>
      if now - born <=? Z.pos (ttl s)
      then (Some stmt,
            mkLruStore (maxSize s) (ttl s)
              ((key, (stmt, born)) :: lru_remove key (entries s)))
      else (None, s)
  | None => (None, s)
  end.

(** Modelled from the spec: insertion under a template replaces what the
    template mapped to and evicts the least recently used entry when the
    capacity is exceeded. *)
Definition lru_Set (now : Z) (key : string) (stmt : Stmt) (s : lruStore) : lruStore :=
  let es := (key, (stmt, now)) :: lru_remove key (entries s) in
  mkLruStore (maxSize s) (ttl s)
    (if Z.of_nat (length es) >? Z.pos (maxSize s) then removelast es else es).

(** Modelled from the spec: [evict(template)] removes an entry and is
    idempotent when the template is absent. *)
Definition lru_Delete (key : string) (s : lruStore) : lruStore :=
  mkLruStore (maxSize s) (ttl s) (lru_remove key (entries s)).

Definition lru_Keys (s : lruStore) : list string := (entries s).*1.

(** Modelled from the spec: [stmt_store.New(size, ttl)].  The defaults are
    those the comment on [Config.PrepareStmtMaxSize] gives: the largest
    int64 and one hour (in nanoseconds). *)
Definition stmt_store_New (size : Z) (ttl_ : Z) : lruStore :=
  mkLruStore
    (if size <=? 0 then 9223372036854775807%positive else Z.to_pos size)
    (if ttl_ <=? 0 then 3600000000000%positive else Z.to_pos ttl_)
    [].

(** ** Handles *)

(** [Dialector]: only what [AddError] asks of it.  [Translate] is [Some]
    when the dialector implements [ErrorTranslator]. *)
Record Dialector := mkDialector {
  Dialector_Name : string;
  Translate : option (error -> option error)
}.

(** What the sync.Map behind [Config.cacheStore] holds. *)
Inductive CacheValue : Type :=
| CachePreparedStmtDB (db : PreparedStmtDB)
| CacheOther (v : iface).

(** [Config], restricted to the fields that the functions below read or
    write.  [Plugins] (a map) and [cacheStore] (a [*sync.Map]) are
    references: copying a [Config] copies the address. *)
Record Config := mkConfig {
  SkipDefaultTransaction : bool;
  FullSaveAssociations : bool;
  Logger : option nat;
  NowFunc : option nat;
  DryRun : bool;
  PrepareStmt : bool;
  PrepareStmtMaxSize : Z;
  PrepareStmtTTL : Z;
  DisableNestedTransaction : bool;
  AllowGlobalUpdate : bool;
  QueryFields : bool;
  CreateBatchSize : Z;
  TranslateError : bool;
  PropagateUnscoped : bool;
  Config_ConnPool : ConnPool;
  Config_Dialector : option Dialector;
  Plugins : ptr;
  cacheStore : ptr
}.

(** [clause.Clause] is opaque here. *)
Record Clause := mkClause {
  Clause_Name : string;
  Clause_Expression : list iface
}.

(** [Statement], restricted to the fields that occur in [gorm.go]. *)
Record Statement := mkStatement {
  Statement_DB : option ptr;
  Statement_ConnPool : ConnPool;
  Statement_Context : option Context;
  Clauses : gmap string Clause;
  Vars : list iface;
  SkipHooks : bool;
  Unscoped : bool;
  Settings : gmap string iface
}.

(** [DB].  [Config] is the embedded [*Config]; [Statement] is nil while a
    fresh handle is being built. *)
Record DB := mkDB {
  DB_Config : ptr;
  DB_Error : option error;
  RowsAffected : Z;
  DB_Statement : option ptr;
  clone : Z
}.

(** [Session]: the flags of a derivation. *)
Record Session := mkSession {
  Session_DryRun : bool;
  Session_PrepareStmt : bool;
  Session_NewDB : bool;
  Session_Initialized : bool;
  Session_SkipHooks : bool;
  Session_SkipDefaultTransaction : bool;
  Session_DisableNestedTransaction : bool;
  Session_AllowGlobalUpdate : bool;
  Session_FullSaveAssociations : bool;
  Session_PropagateUnscoped : bool;
  Session_QueryFields : bool;
  Session_Context : option Context;
  Session_Logger : option nat;
  Session_NowFunc : option nat;
  Session_CreateBatchSize : Z
}.

(** ** Memory, state and the monad *)

(** The heaps.  An address is an index; allocation appends.
    [mutex_count] counts the [sync.RWMutex] objects (a lock has no
    content here, only an address), [stmt_count] the [stmt_store.Stmt]
    objects, and [clock] is the time that the store reads. *)
Record Memory := mkMemory {
  store_heap : list lruStore;
  mutex_count : nat;
  stmt_count : nat;
  clock : Z;
  config_heap : list Config;
  statement_heap : list Statement;
  db_heap : list DB;
  plugins_heap : list (gmap string nat);
  cache_heap : list (gmap string CacheValue)
}.

Record State := mkState {
  mem : Memory;
  trace : list Event
}.

(** A computation returns a value and a new state, or panics ([None]). *)
Definition M (A : Type) : Type := State -> option (A * State).

Definition ret {A} (a : A) : M A := fun s => Some (a, s).

Definition bind {A B} (m : M A) (k : A -> M B) : M B :=
  fun s => match m s with
           | Some (a, s') => k a s'
           | None => None
           end.

Definition panic {A} : M A := fun _ => None.

Declare Scope go_scope.
Delimit Scope go_scope with go.
Notation "x <- m ;; k" := (bind m (fun x => k))
  (at level 100, m at next level, right associativity) : go_scope.
Notation "m ;; k" := (bind m (fun _ => k))
  (at level 100, right associativity) : go_scope.
Local Open Scope go_scope.

Definition gets {A} (f : Memory -> A) : M A := fun s => Some (f (mem s), s).

Definition modify (f : Memory -> Memory) : M unit :=
  fun s => Some (tt, mkState (f (mem s)) (trace s)).

Definition history : M (list Event) := fun s => Some (trace s, s).

Definition emit (e : Event) : M unit :=
  fun s => Some (tt, mkState (mem s) (trace s ++ [e])).

(** Dereferencing: nil and dangling addresses panic. *)
Definition deref {A} (o : option A) : M A :=
  match o with
  | Some a => ret a
  | None => panic
  end.

Definition when (b : bool) (m : M unit) : M unit := if b then m else ret tt.

(** Setters for the heaps. *)
Definition set_store_heap (h : list lruStore) (m : Memory) : Memory :=
  mkMemory h (mutex_count m) (stmt_count m) (clock m) (config_heap m)
    (statement_heap m) (db_heap m) (plugins_heap m) (cache_heap m).
Definition set_mutex_count (n : nat) (m : Memory) : Memory :=
  mkMemory (store_heap m) n (stmt_count m) (clock m) (config_heap m)
    (statement_heap m) (db_heap m) (plugins_heap m) (cache_heap m).
Definition set_stmt_count (n : nat) (m : Memory) : Memory :=
  mkMemory (store_heap m) (mutex_count m) n (clock m) (config_heap m)
    (statement_heap m) (db_heap m) (plugins_heap m) (cache_heap m).
Definition set_config_heap (h : list Config) (m : Memory) : Memory :=
  mkMemory (store_heap m) (mutex_count m) (stmt_count m) (clock m) h
    (statement_heap m) (db_heap m) (plugins_heap m) (cache_heap m).
Definition set_statement_heap (h : list Statement) (m : Memory) : Memory :=
  mkMemory (store_heap m) (mutex_count m) (stmt_count m) (clock m) (config_heap m)
    h (db_heap m) (plugins_heap m) (cache_heap m).
Definition set_db_heap (h : list DB) (m : Memory) : Memory :=
  mkMemory (store_heap m) (mutex_count m) (stmt_count m) (clock m) (config_heap m)
    (statement_heap m) h (plugins_heap m) (cache_heap m).
Definition set_plugins_heap (h : list (gmap string nat)) (m : Memory) : Memory :=
  mkMemory (store_heap m) (mutex_count m) (stmt_count m) (clock m) (config_heap m)
    (statement_heap m) (db_heap m) h (cache_heap m).
Definition set_cache_heap (h : list (gmap string CacheValue)) (m : Memory) : Memory :=
  mkMemory (store_heap m) (mutex_count m) (stmt_count m) (clock m) (config_heap m)
    (statement_heap m) (db_heap m) (plugins_heap m) h.

(** ** prepare_stmt.go *)

(** [sync.RWMutex]: the lock operations are recorded; what other
    goroutines do while this one holds no lock is [others] below. *)
Definition RLock (m : ptr) : M unit := emit (EvRLock m).
Definition RUnlock (m : ptr) : M unit := emit (EvRUnlock m).
Definition Lock (m : ptr) : M unit := emit (EvLock m).
Definition Unlock (m : ptr) : M unit := emit (EvUnlock m).

(** The methods of the [stmt_store.Store] at address [st]. *)
Definition Store_Get (st : ptr) (key : string) : M (option Stmt) :=
  s <- (h <- gets store_heap ;; deref (h !! st)) ;;
  now <- gets clock ;;
  let r := lru_Get now key s in
  modify (fun m => set_store_heap (<[st := r.2]> (store_heap m)) m) ;;
  ret r.1.

Definition Store_Set (st : ptr) (key : string) (value : Stmt) : M unit :=
  s <- (h <- gets store_heap ;; deref (h !! st)) ;;
  now <- gets clock ;;
  modify (fun m => set_store_heap (<[st := lru_Set now key value s]> (store_heap m)) m).

Definition Store_Delete (st : ptr) (key : string) : M unit :=
  s <- (h <- gets store_heap ;; deref (h !! st)) ;;
  modify (fun m => set_store_heap (<[st := lru_Delete key s]> (store_heap m)) m).

Definition Store_Keys (st : ptr) : M (list string) :=
  s <- (h <- gets store_heap ;; deref (h !! st)) ;;
  ret (lru_Keys s).

Section PreparedStmt.

Context (drv : Driver).
(** What concurrent goroutines do to the memory between the moment
    [prepare] releases the read lock and the moment it holds the write
    lock.  The identity for a sequential run. *)
Context (others : Memory -> Memory).

(** [conn.PrepareContext(ctx, query)] on the connection that [conn]
    wraps; a nil connection panics. *)
Definition ConnPool_PrepareContext (conn : ConnPool) (ctx : Context) (query : string)
  : M (option sql_Stmt * option error) :=
  rc <- deref (ConnPool_target conn) ;;
  h <- history ;;
  emit (EvPrepare rc query) ;;
  match drv_prepare drv h rc query with
  | None => ret (Some (mk_sql_Stmt query rc), None)
  | Some e => ret (None, Some e)
  end.

(** Modelled from the spec: [Store.New] of [internal/stmt_store], which is
    not among the sources.  It compiles a new statement against the
    connection, tags it with [isTransaction], keeps the compile error in
    it, inserts it under the template and returns it.  The write lock that
    [prepare] holds when it calls [New] is handed over as [locker] and
    released here. *)
Definition Store_New (st : ptr) (ctx : Context) (key : string) (isTransaction : bool)
    (conn : ConnPool) (locker : ptr) : M (Stmt * option error) :=
  r <- ConnPool_PrepareContext conn ctx key ;;
  addr <- gets stmt_count ;;
  modify (set_stmt_count (S addr)) ;;
  let stmt := mkStmt addr r.1 isTransaction r.2 in
  Store_Set st key stmt ;;
  Unlock locker ;;
  ret (stmt, r.2).

(** The test of both lookups in [prepare]:
    [if db.Stmts != nil { if stmt, ok := db.Stmts.Get(query);
       ok && (!stmt.Transaction || isTransaction) { ... } }] *)
Definition lookup_usable (db : PreparedStmtDB) (isTransaction : bool) (query : string)
  : M (option Stmt) :=
  match Stmts db with
  | Some st =>
      r <- Store_Get st query ;;
      match r with
      | Some stmt =>
          if negb (Transaction stmt) || isTransaction then ret (Some stmt) else ret None
      | None => ret None
      end
  | None => ret None
  end.

Definition prepare (db : PreparedStmtDB) (ctx : Context) (conn : ConnPool)
    (isTransaction : bool) (query : string) : M (Stmt * option error) :=
  RLock (Mux db) ;;
  hit <- lookup_usable db isTransaction query ;;
  match hit with
  | Some stmt =>
      RUnlock (Mux db) ;;
      ret (stmt, Stmt_Error stmt)
  | None =>
      RUnlock (Mux db) ;;
      modify others ;;
      Lock (Mux db) ;;
      hit' <- lookup_usable db isTransaction query ;;
      match hit' with
      | Some stmt =>
          Unlock (Mux db) ;;
          ret (stmt, Stmt_Error stmt)
      | None =>
          st <- deref (Stmts db) ;;
          Store_New st ctx query isTransaction conn (Mux db)
      end
  end.

(** [Close]: deletes every key under the write lock. *)
Definition PreparedStmtDB_Close (db : PreparedStmtDB) : M unit :=
  Lock (Mux db) ;;
  st <- deref (Stmts db) ;;
  keys <- Store_Keys st ;;
  foldr (fun key k => Store_Delete st key ;; k) (ret tt) keys ;;
  Unlock (Mux db).

Definition PreparedStmtDB_Reset (db : PreparedStmtDB) : M unit :=
  PreparedStmtDB_Close db.

(** The methods of [*sql.Stmt] that [stmt_store.Stmt] embeds; a nil
    [*sql.Stmt] panics. *)
Definition sql_Stmt_ExecContext (s : option sql_Stmt) (ctx : Context) (args : list iface)
  : M (option sql_Result * option error) :=
  s' <- deref s ;;
  h <- history ;;
  emit (EvExec s' args) ;;
  ret (drv_exec drv h s' args).

Definition sql_Stmt_QueryContext (s : option sql_Stmt) (ctx : Context) (args : list iface)
  : M (option sql_Rows * option error) :=
  s' <- deref s ;;
  h <- history ;;
  emit (EvQuery s' args) ;;
  ret (drv_query drv h s' args).

Definition sql_Stmt_QueryRowContext (s : option sql_Stmt) (ctx : Context) (args : list iface)
  : M sql_Row :=
  s' <- deref s ;;
  h <- history ;;
  emit (EvQueryRow s' args) ;;
  ret (drv_queryrow drv h s' args).

(** [tx.StmtContext(ctx, stmt)]: the statement re-bound to the
    transaction. *)
Definition Tx_StmtContext (t : Tx) (ctx : Context) (s : option sql_Stmt) : M (option sql_Stmt) :=
  id <- deref (Tx_target t) ;;
  s' <- deref s ;;
  emit (EvStmtContext id s') ;;
  ret (Some (mk_sql_Stmt (stmt_query s') (RawTx id))).

Definition PreparedStmtDB_ExecContext (db : PreparedStmtDB) (ctx : Context)
    (query : string) (args : list iface) : M (option sql_Result * option error) :=
  p <- prepare db ctx (PreparedStmtDB_ConnPool db) false query ;;
  let stmt := p.1 in
  match p.2 with
  | None =>
      r <- sql_Stmt_ExecContext (Stmt_Stmt stmt) ctx args ;;
      when (errors_Is r.2 ErrBadConn)
        (st <- deref (Stmts db) ;; Store_Delete st query) ;;
      ret r
  | Some err => ret (None, Some err)
  end.

Definition PreparedStmtDB_QueryContext (db : PreparedStmtDB) (ctx : Context)
    (query : string) (args : list iface) : M (option sql_Rows * option error) :=
  p <- prepare db ctx (PreparedStmtDB_ConnPool db) false query ;;
  let stmt := p.1 in
  match p.2 with
  | None =>
      r <- sql_Stmt_QueryContext (Stmt_Stmt stmt) ctx args ;;
      when (errors_Is r.2 ErrBadConn)
        (st <- deref (Stmts db) ;; Store_Delete st query) ;;
      ret r
  | Some err => ret (None, Some err)
  end.

Definition PreparedStmtDB_QueryRowContext (db : PreparedStmtDB) (ctx : Context)
    (query : string) (args : list iface) : M sql_Row :=
  p <- prepare db ctx (PreparedStmtDB_ConnPool db) false query ;;
  let stmt := p.1 in
  match p.2 with
  | None => sql_Stmt_QueryRowContext (Stmt_Stmt stmt) ctx args
  | Some _ => ret empty_Row
  end.

(** [reflect.ValueOf(tx.Tx).IsNil()] for a non-nil interface.
    [reflect.Value.IsNil] answers for a pointer and panics for a value
    whose kind cannot be nil, such as a struct. *)
Definition TxObj_IsNil (t : TxObj) : M bool :=
  match t with
  | SqlTx None => ret true
  | SqlTx (Some _) => ret false
  | PreparedStmtTXp _ _ => ret false
  | StructTx _ => panic
  end.

(** [t.Commit()] and [t.Rollback()] by dynamic dispatch.  A
    [*PreparedStmtTX] runs its own method, which is
    [PreparedStmtTX_Commit] below. *)
Fixpoint TxObj_Commit (t : TxObj) : M (option error) :=
  match t with
  | SqlTx (Some id) =>
      h <- history ;;
      emit (EvCommit id) ;;
      ret (drv_commit drv h id)
  | SqlTx None => panic
  | PreparedStmtTXp (Some t') _ =>
      isnil <- TxObj_IsNil t' ;;
      if negb isnil then TxObj_Commit t'
      else ret (Some ErrInvalidTransaction)
  | PreparedStmtTXp None _ => ret (Some ErrInvalidTransaction)
  | StructTx id =>
      h <- history ;;
      emit (EvCommit id) ;;
      ret (drv_commit drv h id)
  end.

Fixpoint TxObj_Rollback (t : TxObj) : M (option error) :=
  match t with
  | SqlTx (Some id) =>
      h <- history ;;
      emit (EvRollback id) ;;
      ret (drv_rollback drv h id)
  | SqlTx None => panic
  | PreparedStmtTXp (Some t') _ =>
      isnil <- TxObj_IsNil t' ;;
      if negb isnil then TxObj_Rollback t'
      else ret (Some ErrInvalidTransaction)
  | PreparedStmtTXp None _ => ret (Some ErrInvalidTransaction)
  | StructTx id =>
      h <- history ;;
      emit (EvRollback id) ;;
      ret (drv_rollback drv h id)
  end.

Definition PreparedStmtTX_Commit (tx : PreparedStmtTX) : M (option error) :=
  match PreparedStmtTX_Tx tx with
  | Some t =>
      isnil <- TxObj_IsNil t ;;
      if negb isnil then TxObj_Commit t
      else ret (Some ErrInvalidTransaction)
  | None => ret (Some ErrInvalidTransaction)
  end.

Definition PreparedStmtTX_Rollback (tx : PreparedStmtTX) : M (option error) :=
  match PreparedStmtTX_Tx tx with
  | Some t =>
      isnil <- TxObj_IsNil t ;;
      if negb isnil then TxObj_Rollback t
      else ret (Some ErrInvalidTransaction)
  | None => ret (Some ErrInvalidTransaction)
  end.

Definition PreparedStmtTX_ExecContext (tx : PreparedStmtTX) (ctx : Context)
    (query : string) (args : list iface) : M (option sql_Result * option error) :=
  p <- prepare (PreparedStmtTX_PreparedStmtDB tx) ctx
         (Tx_as_ConnPool (PreparedStmtTX_Tx tx)) true query ;;
  let stmt := p.1 in
  match p.2 with
  | None =>
      bound <- Tx_StmtContext (PreparedStmtTX_Tx tx) ctx (Stmt_Stmt stmt) ;;
      r <- sql_Stmt_ExecContext bound ctx args ;;
      when (errors_Is r.2 ErrBadConn)
        (st <- deref (Stmts (PreparedStmtTX_PreparedStmtDB tx)) ;; Store_Delete st query) ;;
      ret r
  | Some err => ret (None, Some err)
  end.

Definition PreparedStmtTX_QueryContext (tx : PreparedStmtTX) (ctx : Context)
    (query : string) (args : list iface) : M (option sql_Rows * option error) :=
  p <- prepare (PreparedStmtTX_PreparedStmtDB tx) ctx
         (Tx_as_ConnPool (PreparedStmtTX_Tx tx)) true query ;;
  let stmt := p.1 in
  match p.2 with
  | None =>
      bound <- Tx_StmtContext (PreparedStmtTX_Tx tx) ctx (Stmt_Stmt stmt) ;;
      r <- sql_Stmt_QueryContext bound ctx args ;;
      when (errors_Is r.2 ErrBadConn)
        (st <- deref (Stmts (PreparedStmtTX_PreparedStmtDB tx)) ;; Store_Delete st query) ;;
      ret r
  | Some err => ret (None, Some err)
  end.

Definition PreparedStmtTX_QueryRowContext (tx : PreparedStmtTX) (ctx : Context)
    (query : string) (args : list iface) : M sql_Row :=
  p <- prepare (PreparedStmtTX_PreparedStmtDB tx) ctx
         (Tx_as_ConnPool (PreparedStmtTX_Tx tx)) true query ;;
  let stmt := p.1 in
  match p.2 with
  | None =>
      bound <- Tx_StmtContext (PreparedStmtTX_Tx tx) ctx (Stmt_Stmt stmt) ;;
      sql_Stmt_QueryRowContext bound ctx args
  | Some _ => ret empty_Row
  end.

End PreparedStmt.

(** [GetDBConn] of [*PreparedStmtDB].  The first type assertion does
    not test the pointer: a nil [*sql.DB] is returned as it is, with a
    nil error.  Of the other dynamic values of a [ConnPool] only
    [*PreparedStmtDB] and [*PreparedStmtTX] have a method [GetDBConn]
    (the interface [GetDBConnector]); a [*PreparedStmtTX] asks its pool.
    The result is the number of the [*sql.DB], or nil, and the error. *)
Fixpoint PreparedStmtDB_GetDBConn (db : PreparedStmtDB) : option nat * option error :=
  match db with
  | mkPreparedStmtDB _ _ (Some (SqlDB id)) => (Some id, None)
  | mkPreparedStmtDB _ _ (Some SqlDBnil) => (None, None)
  | mkPreparedStmtDB _ _ (Some (ConnPreparedStmtDB p)) => PreparedStmtDB_GetDBConn p
  | mkPreparedStmtDB _ _ (Some (ConnTx (PreparedStmtTXp _ p))) => PreparedStmtDB_GetDBConn p
  | mkPreparedStmtDB _ _ (Some (ConnTx (SqlTx _))) => (None, Some ErrInvalidDB)
  | mkPreparedStmtDB _ _ (Some (ConnTx (StructTx _))) => (None, Some ErrInvalidDB)
  | mkPreparedStmtDB _ _ None => (None, Some ErrInvalidDB)
  end.

Definition PreparedStmtTX_GetDBConn (tx : PreparedStmtTX) : option nat * option error :=
  PreparedStmtDB_GetDBConn (PreparedStmtTX_PreparedStmtDB tx).

(** [*sql.TxOptions]: only its identity matters. *)
Definition TxOptions := option nat.

Section Connectors.

(** [Ping] and [BeginTx] of the [*sql.DB] with a given number: calls into
    [database/sql], which may do anything to the state.  [BeginTx]
    returns the number of the new [*sql.Tx], or nil, and the error. *)
Context (sql_DB_Ping : nat -> M (option error)).
Context (sql_DB_BeginTx : nat -> Context -> TxOptions -> M (option nat * option error)).



(** [BeginTx].  [*sql.DB] is a [TxBeginner]; [*PreparedStmtDB] is a
    [ConnPoolBeginner]; [*sql.Tx], [*PreparedStmtTX] and the struct have
    no method [BeginTx].  The [*sql.Tx] that a [TxBeginner] returns goes
    into the wrapper as it is, nil or not.  On a nil [*sql.DB] the call
    [beginner.BeginTx] dereferences nil. *)
Fixpoint PreparedStmtDB_BeginTx (db : PreparedStmtDB) (ctx : Context) (opt : TxOptions)
  : M (ConnPool * option error) :=
  match db with
  | mkPreparedStmtDB _ _ (Some (SqlDB id)) =>
      r <- sql_DB_BeginTx id ctx opt ;;
      ret (Some (ConnTx (PreparedStmtTXp (Some (SqlTx r.1)) db)), r.2)
  | mkPreparedStmtDB _ _ (Some SqlDBnil) => panic
  | mkPreparedStmtDB _ _ (Some (ConnPreparedStmtDB beginner)) =>
      r <- PreparedStmtDB_BeginTx beginner ctx opt ;;
      match r.2 with
      | Some err => ret (None, Some err)
      | None =>
          match as_Tx r.1 with
          | Some tx => ret (Some (ConnTx (PreparedStmtTXp (Some tx) db)), None)
          | None => ret (None, Some ErrInvalidTransaction)
          end
      end
  | mkPreparedStmtDB _ _ (Some (ConnTx _)) => ret (None, Some ErrInvalidTransaction)
  | mkPreparedStmtDB _ _ None => ret (None, Some ErrInvalidTransaction)
  end.

End Connectors.

(** ** gorm.go *)

(** [const preparedStmtDBKey] *)
Definition preparedStmtDBKey : string := "preparedStmt".

(** Field assignments. *)
Definition set_SkipDefaultTransaction (v : bool) (c : Config) : Config :=
  mkConfig v (FullSaveAssociations c) (Logger c) (NowFunc c) (DryRun c) (PrepareStmt c)
    (PrepareStmtMaxSize c) (PrepareStmtTTL c) (DisableNestedTransaction c)
    (AllowGlobalUpdate c) (QueryFields c) (CreateBatchSize c) (TranslateError c)
    (PropagateUnscoped c) (Config_ConnPool c) (Config_Dialector c) (Plugins c) (cacheStore c).
Definition set_FullSaveAssociations (v : bool) (c : Config) : Config :=
  mkConfig (SkipDefaultTransaction c) v (Logger c) (NowFunc c) (DryRun c) (PrepareStmt c)
    (PrepareStmtMaxSize c) (PrepareStmtTTL c) (DisableNestedTransaction c)
    (AllowGlobalUpdate c) (QueryFields c) (CreateBatchSize c) (TranslateError c)
    (PropagateUnscoped c) (Config_ConnPool c) (Config_Dialector c) (Plugins c) (cacheStore c).
Definition set_Logger (v : option nat) (c : Config) : Config :=
  mkConfig (SkipDefaultTransaction c) (FullSaveAssociations c) v (NowFunc c) (DryRun c)
    (PrepareStmt c) (PrepareStmtMaxSize c) (PrepareStmtTTL c) (DisableNestedTransaction c)
    (AllowGlobalUpdate c) (QueryFields c) (CreateBatchSize c) (TranslateError c)
    (PropagateUnscoped c) (Config_ConnPool c) (Config_Dialector c) (Plugins c) (cacheStore c).
Definition set_NowFunc (v : option nat) (c : Config) : Config :=
  mkConfig (SkipDefaultTransaction c) (FullSaveAssociations c) (Logger c) v (DryRun c)
    (PrepareStmt c) (PrepareStmtMaxSize c) (PrepareStmtTTL c) (DisableNestedTransaction c)
    (AllowGlobalUpdate c) (QueryFields c) (CreateBatchSize c) (TranslateError c)
    (PropagateUnscoped c) (Config_ConnPool c) (Config_Dialector c) (Plugins c) (cacheStore c).
Definition set_DryRun (v : bool) (c : Config) : Config :=
  mkConfig (SkipDefaultTransaction c) (FullSaveAssociations c) (Logger c) (NowFunc c) v
    (PrepareStmt c) (PrepareStmtMaxSize c) (PrepareStmtTTL c) (DisableNestedTransaction c)
    (AllowGlobalUpdate c) (QueryFields c) (CreateBatchSize c) (TranslateError c)
    (PropagateUnscoped c) (Config_ConnPool c) (Config_Dialector c) (Plugins c) (cacheStore c).
Definition set_PrepareStmt (v : bool) (c : Config) : Config :=
  mkConfig (SkipDefaultTransaction c) (FullSaveAssociations c) (Logger c) (NowFunc c)
    (DryRun c) v (PrepareStmtMaxSize c) (PrepareStmtTTL c) (DisableNestedTransaction c)
    (AllowGlobalUpdate c) (QueryFields c) (CreateBatchSize c) (TranslateError c)
    (PropagateUnscoped c) (Config_ConnPool c) (Config_Dialector c) (Plugins c) (cacheStore c).
Definition set_DisableNestedTransaction (v : bool) (c : Config) : Config :=
  mkConfig (SkipDefaultTransaction c) (FullSaveAssociations c) (Logger c) (NowFunc c)
    (DryRun c) (PrepareStmt c) (PrepareStmtMaxSize c) (PrepareStmtTTL c) v
    (AllowGlobalUpdate c) (QueryFields c) (CreateBatchSize c) (TranslateError c)
    (PropagateUnscoped c) (Config_ConnPool c) (Config_Dialector c) (Plugins c) (cacheStore c).
Definition set_AllowGlobalUpdate (v : bool) (c : Config) : Config :=
  mkConfig (SkipDefaultTransaction c) (FullSaveAssociations c) (Logger c) (NowFunc c)
    (DryRun c) (PrepareStmt c) (PrepareStmtMaxSize c) (PrepareStmtTTL c)
    (DisableNestedTransaction c) v (QueryFields c) (CreateBatchSize c) (TranslateError c)
    (PropagateUnscoped c) (Config_ConnPool c) (Config_Dialector c) (Plugins c) (cacheStore c).
Definition set_QueryFields (v : bool) (c : Config) : Config :=
  mkConfig (SkipDefaultTransaction c) (FullSaveAssociations c) (Logger c) (NowFunc c)
    (DryRun c) (PrepareStmt c) (PrepareStmtMaxSize c) (PrepareStmtTTL c)
    (DisableNestedTransaction c) (AllowGlobalUpdate c) v (CreateBatchSize c)
    (TranslateError c) (PropagateUnscoped c) (Config_ConnPool c) (Config_Dialector c)
    (Plugins c) (cacheStore c).
Definition set_CreateBatchSize (v : Z) (c : Config) : Config :=
  mkConfig (SkipDefaultTransaction c) (FullSaveAssociations c) (Logger c) (NowFunc c)
    (DryRun c) (PrepareStmt c) (PrepareStmtMaxSize c) (PrepareStmtTTL c)
    (DisableNestedTransaction c) (AllowGlobalUpdate c) (QueryFields c) v
    (TranslateError c) (PropagateUnscoped c) (Config_ConnPool c) (Config_Dialector c)
    (Plugins c) (cacheStore c).
Definition set_PropagateUnscoped (v : bool) (c : Config) : Config :=
  mkConfig (SkipDefaultTransaction c) (FullSaveAssociations c) (Logger c) (NowFunc c)
    (DryRun c) (PrepareStmt c) (PrepareStmtMaxSize c) (PrepareStmtTTL c)
    (DisableNestedTransaction c) (AllowGlobalUpdate c) (QueryFields c) (CreateBatchSize c)
    (TranslateError c) v (Config_ConnPool c) (Config_Dialector c) (Plugins c) (cacheStore c).
Definition set_Config_ConnPool (v : ConnPool) (c : Config) : Config :=
  mkConfig (SkipDefaultTransaction c) (FullSaveAssociations c) (Logger c) (NowFunc c)
    (DryRun c) (PrepareStmt c) (PrepareStmtMaxSize c) (PrepareStmtTTL c)
    (DisableNestedTransaction c) (AllowGlobalUpdate c) (QueryFields c) (CreateBatchSize c)
    (TranslateError c) (PropagateUnscoped c) v (Config_Dialector c) (Plugins c) (cacheStore c).

Definition set_Statement_DB (v : option ptr) (s : Statement) : Statement :=
  mkStatement v (Statement_ConnPool s) (Statement_Context s) (Clauses s) (Vars s)
    (SkipHooks s) (Unscoped s) (Settings s).
Definition set_Statement_ConnPool (v : ConnPool) (s : Statement) : Statement :=
  mkStatement (Statement_DB s) v (Statement_Context s) (Clauses s) (Vars s)
    (SkipHooks s) (Unscoped s) (Settings s).
Definition set_Statement_Context (v : option Context) (s : Statement) : Statement :=
  mkStatement (Statement_DB s) (Statement_ConnPool s) v (Clauses s) (Vars s)
    (SkipHooks s) (Unscoped s) (Settings s).
Definition set_SkipHooks (v : bool) (s : Statement) : Statement :=
  mkStatement (Statement_DB s) (Statement_ConnPool s) (Statement_Context s) (Clauses s)
    (Vars s) v (Unscoped s) (Settings s).
Definition set_Unscoped (v : bool) (s : Statement) : Statement :=
  mkStatement (Statement_DB s) (Statement_ConnPool s) (Statement_Context s) (Clauses s)
    (Vars s) (SkipHooks s) v (Settings s).
Definition set_Settings (v : gmap string iface) (s : Statement) : Statement :=
  mkStatement (Statement_DB s) (Statement_ConnPool s) (Statement_Context s) (Clauses s)
    (Vars s) (SkipHooks s) (Unscoped s) v.

Definition set_DB_Error (v : option error) (d : DB) : DB :=
  mkDB (DB_Config d) v (RowsAffected d) (DB_Statement d) (clone d).
Definition set_DB_Statement (v : option ptr) (d : DB) : DB :=
  mkDB (DB_Config d) (DB_Error d) (RowsAffected d) v (clone d).
Definition set_clone (v : Z) (d : DB) : DB :=
  mkDB (DB_Config d) (DB_Error d) (RowsAffected d) (DB_Statement d) v.

(** Reading, writing and allocating in each heap. *)
Definition load_db (p : ptr) : M DB := h <- gets db_heap ;; deref (h !! p).
Definition update_db (p : ptr) (f : DB -> DB) : M unit :=
  d <- load_db p ;;
  modify (fun m => set_db_heap (<[p := f d]> (db_heap m)) m).
Definition alloc_db (d : DB) : M ptr :=
  h <- gets db_heap ;;
  modify (set_db_heap (h ++ [d])) ;;
  ret (length h).

Definition load_config (p : ptr) : M Config := h <- gets config_heap ;; deref (h !! p).
Definition update_config (p : ptr) (f : Config -> Config) : M unit :=
  c <- load_config p ;;
  modify (fun m => set_config_heap (<[p := f c]> (config_heap m)) m).
Definition alloc_config (c : Config) : M ptr :=
  h <- gets config_heap ;;
  modify (set_config_heap (h ++ [c])) ;;
  ret (length h).

Definition load_statement (p : ptr) : M Statement :=
  h <- gets statement_heap ;; deref (h !! p).
Definition update_statement (p : ptr) (f : Statement -> Statement) : M unit :=
  s <- load_statement p ;;
  modify (fun m => set_statement_heap (<[p := f s]> (statement_heap m)) m).
Definition alloc_statement (s : Statement) : M ptr :=
  h <- gets statement_heap ;;
  modify (set_statement_heap (h ++ [s])) ;;
  ret (length h).

Definition load_plugins (p : ptr) : M (gmap string nat) :=
  h <- gets plugins_heap ;; deref (h !! p).
Definition load_cache (p : ptr) : M (gmap string CacheValue) :=
  h <- gets cache_heap ;; deref (h !! p).

(** [db.Config] and [db.Statement] read through the handle. *)
Definition DB_config (db : ptr) : M Config :=
  d <- load_db db ;; load_config (DB_Config d).
Definition DB_statement_ptr (db : ptr) : M ptr :=
  d <- load_db db ;; deref (DB_Statement d).
Definition DB_statement (db : ptr) : M Statement :=
  sp <- DB_statement_ptr db ;; load_statement sp.

(** [NewPreparedStmtDB]: a fresh store and a fresh lock around the pool. *)
Definition NewPreparedStmtDB (connPool : ConnPool) (maxSize : Z) (ttl_ : Z)
  : M PreparedStmtDB :=
  stores <- gets store_heap ;;
  modify (set_store_heap (stores ++ [stmt_store_New maxSize ttl_])) ;;
  mu <- gets mutex_count ;;
  modify (set_mutex_count (S mu)) ;;
  ret (mkPreparedStmtDB (Some (length stores)) mu connPool).

(** Modelled from the spec: [Statement.clone] of [statement.go], which is
    not among the sources: a full structural copy of the request object
    at a new address.  The callers rebind its back-reference. *)
Definition Statement_clone (sp : ptr) : M ptr :=
  s <- load_statement sp ;;
  alloc_statement s.

Definition DB_getInstance (db : ptr) : M ptr :=
  d <- load_db db ;;
  if 0 <? clone d then
    tx <- alloc_db (mkDB (DB_Config d) (DB_Error d) 0 None 0) ;;
    (if clone d =? 1 then
       old <- (sp <- deref (DB_Statement d) ;; load_statement sp) ;;
       fresh <- alloc_statement
                  (mkStatement (Some tx) (Statement_ConnPool old) (Statement_Context old)
                     ∅ [] (SkipHooks old) false ∅) ;;
       update_db tx (set_DB_Statement (Some fresh)) ;;
       c <- load_config (DB_Config d) ;;
       when (PropagateUnscoped c)
         (old' <- (sp <- deref (DB_Statement d) ;; load_statement sp) ;;
          update_statement fresh (set_Unscoped (Unscoped old')))
     else
       sp <- deref (DB_Statement d) ;;
       copy <- Statement_clone sp ;;
       update_db tx (set_DB_Statement (Some copy)) ;;
       update_statement copy (set_Statement_DB (Some tx))) ;;
    ret tx
  else ret db.

Definition DB_Session (db : ptr) (config : Session) : M ptr :=
  c0 <- DB_config db ;;
  txConfig <- alloc_config c0 ;;
  d <- load_db db ;;
  tx <- alloc_db (mkDB txConfig (DB_Error d) 0 (DB_Statement d) 1) ;;
  when (0 <? Session_CreateBatchSize config)
    (update_config txConfig (set_CreateBatchSize (Session_CreateBatchSize config))) ;;
  when (Session_SkipDefaultTransaction config)
    (update_config txConfig (set_SkipDefaultTransaction true)) ;;
  when (Session_AllowGlobalUpdate config)
    (update_config txConfig (set_AllowGlobalUpdate true)) ;;
  when (Session_FullSaveAssociations config)
    (update_config txConfig (set_FullSaveAssociations true)) ;;
  when (Session_PropagateUnscoped config)
    (update_config txConfig (set_PropagateUnscoped true)) ;;
  when (bool_decide (is_Some (Session_Context config))
        || Session_PrepareStmt config || Session_SkipHooks config)
    (sp <- DB_statement_ptr tx ;;
     copy <- Statement_clone sp ;;
     update_db tx (set_DB_Statement (Some copy)) ;;
     sp' <- DB_statement_ptr tx ;;
     update_statement sp' (set_Statement_DB (Some tx))) ;;
  when (bool_decide (is_Some (Session_Context config)))
    (sp <- DB_statement_ptr tx ;;
     update_statement sp (set_Statement_Context (Session_Context config))) ;;
  when (Session_PrepareStmt config)
    (dc <- DB_config db ;;
     cache <- load_cache (cacheStore dc) ;;
     preparedStmt <-
       match cache !! preparedStmtDBKey with
       | Some (CachePreparedStmtDB p) => ret p
       | Some (CacheOther _) => panic
       | None =>
           dc' <- DB_config db ;;
           p <- NewPreparedStmtDB (Config_ConnPool dc') (PrepareStmtMaxSize dc')
                  (PrepareStmtTTL dc') ;;
           dc'' <- DB_config db ;;
           cache' <- load_cache (cacheStore dc'') ;;
           modify (fun m => set_cache_heap
                      (<[cacheStore dc'' := <[preparedStmtDBKey := CachePreparedStmtDB p]> cache']>
                         (cache_heap m)) m) ;;
           ret p
       end ;;
     sp <- DB_statement_ptr tx ;;
     s <- load_statement sp ;;
     match as_Tx (Statement_ConnPool s) with
     | Some t =>
         update_statement sp
           (set_Statement_ConnPool (Some (ConnTx (PreparedStmtTXp (Some t) preparedStmt))))
     | None =>
         dc' <- DB_config db ;;
         update_statement sp
           (set_Statement_ConnPool
              (Some (ConnPreparedStmtDB
                       (mkPreparedStmtDB (Stmts preparedStmt) (Mux preparedStmt)
                          (Config_ConnPool dc')))))
     end ;;
     s' <- DB_statement tx ;;
     update_config txConfig (set_Config_ConnPool (Statement_ConnPool s')) ;;
     update_config txConfig (set_PrepareStmt true)) ;;
  when (Session_SkipHooks config)
    (sp <- DB_statement_ptr tx ;;
     update_statement sp (set_SkipHooks true)) ;;
  when (Session_DisableNestedTransaction config)
    (update_config txConfig (set_DisableNestedTransaction true)) ;;
  when (negb (Session_NewDB config)) (update_db tx (set_clone 2)) ;;
  when (Session_DryRun config) (update_config txConfig (set_DryRun true)) ;;
  when (Session_QueryFields config) (update_config txConfig (set_QueryFields true)) ;;
  when (bool_decide (is_Some (Session_Logger config)))
    (update_config txConfig (set_Logger (Session_Logger config))) ;;
  when (bool_decide (is_Some (Session_NowFunc config)))
    (update_config txConfig (set_NowFunc (Session_NowFunc config))) ;;
  if Session_Initialized config then DB_getInstance tx else ret tx.

(** [WithContext]: [context.Context] is an interface, so the argument
    can be nil; it goes into the session as it is. *)
Definition DB_WithContext (db : ptr) (ctx : option Context) : M ptr :=
  DB_Session db
    (mkSession false false false false false false false false false false false
       ctx None None 0).

(** [Set]: stores in the settings of the instance's statement. *)
Definition DB_Set (db : ptr) (key : string) (value : iface) : M ptr :=
  tx <- DB_getInstance db ;;
  sp <- DB_statement_ptr tx ;;
  update_statement sp (fun s => set_Settings (<[key := value]> (Settings s)) s) ;;
  ret tx.

(** [Get] *)
Definition DB_Get (db : ptr) (key : string) : M (option iface) :=
  s <- DB_statement db ;;
  ret (Settings s !! key).

Definition DB_AddError (db : ptr) (err : option error) : M (option error) :=
  match err with
  | Some e =>
      c <- DB_config db ;;
      let err' :=
        if TranslateError c then
          match Config_Dialector c with
          | Some dialector =>
              match Translate dialector with
              | Some translate => translate e
              | None => Some e
              end
          | None => Some e
          end
        else Some e in
      d <- load_db db ;;
      match DB_Error d with
      | None => update_db db (set_DB_Error err')
      | Some old => update_db db (set_DB_Error (Some (Errorf_v_w old err')))
      end
  | None => ret tt
  end ;;
  d <- load_db db ;;
  ret (DB_Error d).

(** A [Plugin]: its identity, its name and what [Initialize(db)] does to
    the memory and returns. *)
Record Plugin := mkPlugin {
  Plugin_id : nat;
  Plugin_Name : string;
  Plugin_Initialize : ptr -> Memory -> option error * Memory
}.

Definition call_Initialize (plugin : Plugin) (db : ptr) : M (option error) :=
  emit (EvInitialize (Plugin_id plugin) db) ;;
  fun s =>
    let r := Plugin_Initialize plugin db (mem s) in
    Some (r.1, mkState r.2 (trace s)).

Definition DB_Use (db : ptr) (plugin : Plugin) : M (option error) :=
  let name := Plugin_Name plugin in
  registry <- (c <- DB_config db ;; load_plugins (Plugins c)) ;;
  match registry !! name with
  | Some _ => ret (Some ErrRegistered)
  | None =>
      r <- call_Initialize plugin db ;;
      match r with
      | Some err => ret (Some err)
      | None =>
          c <- DB_config db ;;
          registry' <- load_plugins (Plugins c) ;;
          modify (fun m => set_plugins_heap
                     (<[Plugins c := <[name := Plugin_id plugin]> registry']>
                        (plugins_heap m)) m) ;;
          ret None
      end
  end.

Section Instance.

(** [fmt.Sprintf("%p", p)] for the address of a statement. *)
Context (Sprintf_p : ptr -> string).



End Instance.

Section Debug.

(** [l.LogMode(logger.Info)]: the logger that the logger [l] returns,
    which may be nil. *)
Context (LogMode_Info : nat -> option nat).

(** [Debug]; a nil [Logger] panics. *)
Definition DB_Debug (db : ptr) : M ptr :=
  tx <- DB_getInstance db ;;
  c <- DB_config db ;;
  l <- deref (Logger c) ;;
  DB_Session tx
    (mkSession false false false false false false false false false false false
       None (LogMode_Info l) None 0).

End Debug.

Section Database.

(** The field [db] of a [*sql.Tx], which [DB] reads by reflection. *)
Context (sql_Tx_db : nat -> nat).

(** [DB]: the [*sql.DB] of a handle, from the connection of its statement
    or, when there is none, from that of its configuration.  A connector
    that answers nil with a nil error, and a nil [*sql.DB], fall through
    to the last line. *)
Definition DB_DB (db : ptr) : M (option nat * option error) :=
  d <- load_db db ;;
  c <- load_config (DB_Config d) ;;
  connPool <-
    match DB_Statement d with
    | Some sp =>
        s <- load_statement sp ;;
        ret (match Statement_ConnPool s with
             | Some o => Some o
             | None => Config_ConnPool c
             end)
    | None => ret (Config_ConnPool c)
    end ;;
  match connPool with
  | Some (ConnTx (SqlTx (Some tx))) => ret (Some (sql_Tx_db tx), None)
  | Some (ConnTx (SqlTx None)) => ret (None, Some ErrInvalidDB)
  | Some (ConnTx (StructTx _)) => ret (None, Some ErrInvalidDB)
  | Some (ConnTx (PreparedStmtTXp t p)) =>
      let r := PreparedStmtTX_GetDBConn (mkPreparedStmtTX t p) in
      if bool_decide (is_Some r.1) || bool_decide (is_Some r.2) then ret r
      else ret (None, Some ErrInvalidDB)
  | Some (ConnPreparedStmtDB p) =>
      let r := PreparedStmtDB_GetDBConn p in
      if bool_decide (is_Some r.1) || bool_decide (is_Some r.2) then ret r
      else ret (None, Some ErrInvalidDB)
  | Some (SqlDB id) => ret (Some id, None)
  | Some SqlDBnil => ret (None, Some ErrInvalidDB)
  | None => ret (None, Some ErrInvalidDB)
  end.

End Database.

(** ** clause/select.go *)

Section Select.

(** [clause.Column], [clause.Expression] and the [Builder] that [Build]
    writes to are declared in files that are not among the sources.  A
    builder is any state with the writing methods that the two [Build]
    functions call; what these methods return is dropped by the callers. *)
Context {Column Expression Builder : Type}.
Context (WriteString : string -> Builder -> Builder).
Context (WriteByte : ascii -> Builder -> Builder).
Context (WriteQuoted : Column -> Builder -> Builder).
Context (Expression_Build : Expression -> Builder -> Builder).

Record Select := mkSelect {
  Distinct : bool;
  Columns : list Column;
  Select_Expression : option Expression
}.

Definition Select_Name (s : Select) : string := "SELECT".

(** [for idx, column := range s.Columns { ... }], from index [idx] on. *)
Fixpoint Select_Build_columns (idx : nat) (columns : list Column) (builder : Builder)
  : Builder :=
  match columns with
  | [] => builder
  | column :: rest =>
      Select_Build_columns (S idx) rest
        (WriteQuoted column
           (if (0 <? idx)%nat then WriteByte ","%char builder else builder))
  end.

Definition Select_Build (s : Select) (builder : Builder) : Builder :=
  if (0 <? length (Columns s))%nat then
    Select_Build_columns 0 (Columns s)
      (if Distinct s then WriteString "DISTINCT " builder else builder)
  else WriteByte "*"%char builder.

(** [type CommaExpression struct { Exprs []Expression }] *)
Record CommaExpression := mkCommaExpression { Exprs : list Expression }.

(** [for idx, expr := range comma.Exprs { ... }], from index [idx] on. *)
Fixpoint CommaExpression_Build_from (idx : nat) (exprs : list Expression)
    (builder : Builder) : Builder :=
  match exprs with
  | [] => builder
  | expr :: rest =>
      CommaExpression_Build_from (S idx) rest
        (Expression_Build expr
           (if (0 <? idx)%nat then WriteString ", " builder else builder))
  end.

Definition CommaExpression_Build (comma : CommaExpression) (builder : Builder) : Builder :=
  CommaExpression_Build_from 0 (Exprs comma) builder.

End Select.

(** ** Reading the cache without touching it *)

(** The statement that the store of [db] holds for [query] at the current
    time, if any. *)
Definition cached (db : PreparedStmtDB) (query : string) (m : Memory) : option Stmt :=
  match Stmts db with
  | Some st =>
      match store_heap m !! st with
      | Some s => lru_peek (clock m) query s
      | None => None
      end
  | None => None
  end.

(** The condition of [prepare] on a cached statement. *)
Definition usable (isTransaction : bool) (stmt : Stmt) : bool :=
  negb (Transaction stmt) || isTransaction.

Definition cached_usable (db : PreparedStmtDB) (isTransaction : bool) (query : string)
    (m : Memory) : option Stmt :=
  match cached db query m with
  | Some stmt => if usable isTransaction stmt then Some stmt else None
  | None => None
  end.

(** The memory after one lookup of [query]: the entry, when it is there
    and alive, has become the most recently used one. *)
Definition looked_up (db : PreparedStmtDB) (query : string) (m : Memory) : Memory :=
  match Stmts db with
  | Some st =>
      match store_heap m !! st with
      | Some s => set_store_heap (<[st := (lru_Get (clock m) query s).2]> (store_heap m)) m
      | None => m
      end
  | None => m
  end.

(** The events of a list that are compilations. *)
Definition is_EvPrepare (e : Event) : bool :=
  match e with
  | EvPrepare _ _ => true
  | _ => false
  end.


(** The memory after [db.Stmts.Delete(query)]. *)
Definition evicted (db : PreparedStmtDB) (query : string) (m : Memory) : Memory :=
  match Stmts db with
  | Some st =>
      match store_heap m !! st with
      | Some s => set_store_heap (<[st := lru_Delete query s]> (store_heap m)) m
      | None => m
      end
  | None => m
  end.

(** What a call of [prepare] may have compiled: nothing, or one statement
    for [q] on the connection behind [conn], tagged with [isTx]. *)
Definition compiled_at_most (conn : ConnPool) (isTx : bool) (q : string) (stmt : Stmt)
    (evs : list Event) : Prop :=
  filter is_EvPrepare evs = []
  \/ exists rc, ConnPool_target conn = Some rc
       /\ filter is_EvPrepare evs = [EvPrepare rc q]
       /\ Transaction stmt = isTx.


(** A statement without compile error carries its [*sql.Stmt]. *)
Definition Stmt_compiled (stmt : Stmt) : Prop :=
  prepareErr stmt = None -> is_Some (Stmt_Stmt stmt).

(** The conditions under which [prepare] does not panic: the store of the
    pool exists, also after the other goroutines ran; the connection is
    not nil; and what is cached is well formed. *)
Definition prepare_ready (others : Memory -> Memory) (db : PreparedStmtDB)
    (conn : ConnPool) (q : string) (m : Memory) : Prop :=
  exists st,
    Stmts db = Some st
    /\ is_Some (store_heap m !! st)
    /\ is_Some (store_heap (others (looked_up db q m)) !! st)
    /\ is_Some (ConnPool_target conn)
    /\ (forall stmt, cached db q m = Some stmt -> Stmt_compiled stmt)
    /\ (forall stmt, cached db q (others (looked_up db q m)) = Some stmt ->
          Stmt_compiled stmt).

(** ** What the session functions build *)

(** The statement that [getInstance] builds for a handle derived from a
    root. *)
Definition fresh_statement (tx : ptr) (c : Config) (old : Statement) : Statement :=
  mkStatement (Some tx) (Statement_ConnPool old) (Statement_Context old) ∅ []
    (SkipHooks old) (if PropagateUnscoped c then Unscoped old else false) ∅.

(** [if b { x = f(x) }] *)
Definition cond {A} (b : bool) (f : A -> A) (x : A) : A := if b then f x else x.

(** Whether a derivation asks for a statement of its own. *)
Definition isolating (config : Session) : bool :=
  bool_decide (is_Some (Session_Context config))
  || Session_PrepareStmt config || Session_SkipHooks config.

(** The prepared pool that a derivation in prepare mode works with: the
    one cached under [preparedStmtDBKey], or a new one around the pool of
    the configuration. *)
Definition Session_pool (c0 : Config) (cache : gmap string CacheValue) (m : Memory)
  : PreparedStmtDB :=
  match cache !! preparedStmtDBKey with
  | Some (CachePreparedStmtDB p) => p
  | _ => mkPreparedStmtDB (Some (length (store_heap m))) (mutex_count m) (Config_ConnPool c0)
  end.

(** The connection that a derivation in prepare mode gives to its
    statement. *)
Definition Session_ConnPool (pool : PreparedStmtDB) (c0 : Config) (current : ConnPool)
  : ConnPool :=
  match as_Tx current with
  | Some t => Some (ConnTx (PreparedStmtTXp (Some t) pool))
  | None =>
      Some (ConnPreparedStmtDB
              (mkPreparedStmtDB (Stmts pool) (Mux pool) (Config_ConnPool c0)))
  end.

(** The statement of an isolating derivation. *)
Definition Session_statement (config : Session) (tx : ptr) (connPool : ConnPool)
    (old : Statement) : Statement :=
  cond (Session_SkipHooks config) (set_SkipHooks true)
    (cond (Session_PrepareStmt config) (set_Statement_ConnPool connPool)
       (cond (bool_decide (is_Some (Session_Context config)))
          (set_Statement_Context (Session_Context config))
          (set_Statement_DB (Some tx) old))).

(** The configuration of the derived handle. *)
Definition Session_config (config : Session) (connPool : ConnPool) (c0 : Config) : Config :=
  cond (bool_decide (is_Some (Session_NowFunc config))) (set_NowFunc (Session_NowFunc config))
  (cond (bool_decide (is_Some (Session_Logger config))) (set_Logger (Session_Logger config))
  (cond (Session_QueryFields config) (set_QueryFields true)
  (cond (Session_DryRun config) (set_DryRun true)
  (cond (Session_DisableNestedTransaction config) (set_DisableNestedTransaction true)
  (cond (Session_PrepareStmt config)
     (fun c => set_PrepareStmt true (set_Config_ConnPool connPool c))
  (cond (Session_PropagateUnscoped config) (set_PropagateUnscoped true)
  (cond (Session_FullSaveAssociations config) (set_FullSaveAssociations true)
  (cond (Session_AllowGlobalUpdate config) (set_AllowGlobalUpdate true)
  (cond (Session_SkipDefaultTransaction config) (set_SkipDefaultTransaction true)
  (cond (0 <? Session_CreateBatchSize config)
     (set_CreateBatchSize (Session_CreateBatchSize config)) c0)))))))))).

(** The memory that [Session] leaves before its last step
    ([getInstance] when [Initialized] is set). *)
Definition Session_memory (config : Session) (db : ptr) (d : DB) (c0 : Config)
    (sp : ptr) (old : Statement) (cache : gmap string CacheValue) (m : Memory) : Memory :=
  let tx := length (db_heap m) in
  let pool := Session_pool c0 cache m in
  let connPool := Session_ConnPool pool c0 (Statement_ConnPool old) in
  let fresh_pool := Session_PrepareStmt config
                    && bool_decide (cache !! preparedStmtDBKey = None) in
  mkMemory
    (if fresh_pool
     then store_heap m ++ [stmt_store_New (PrepareStmtMaxSize c0) (PrepareStmtTTL c0)]
     else store_heap m)
    (if fresh_pool then S (mutex_count m) else mutex_count m)
    (stmt_count m)
    (clock m)
    (config_heap m ++ [Session_config config connPool c0])
    (if isolating config
     then statement_heap m ++ [Session_statement config tx connPool old]
     else statement_heap m)
    (db_heap m ++
       [mkDB (length (config_heap m)) (DB_Error d) 0
          (Some (if isolating config then length (statement_heap m) else sp))
          (if Session_NewDB config then 1 else 2)])
    (plugins_heap m)
    (if fresh_pool
     then <[cacheStore c0 := <[preparedStmtDBKey := CachePreparedStmtDB pool]> cache]>
            (cache_heap m)
     else cache_heap m).

(** A direct assignment to a field of the statement of a handle:
    [db.Statement.X = v]. *)
Definition DB_assign_statement (db : ptr) (f : Statement -> Statement) : M unit :=
  sp <- DB_statement_ptr db ;; update_statement sp f.

(** The error that [AddError] works with: the argument, or its
    translation when [TranslateError] is set and the dialector implements
    [ErrorTranslator]. *)
Definition translated (c : Config) (e : error) : option error :=
  if TranslateError c then
    match Config_Dialector c with
    | Some dialector =>
        match Translate dialector with
        | Some translate => translate e
        | None => Some e
        end
    | None => Some e
    end
  else Some e.

(** The memory in which the handle [db] holds the error [err]. *)
Definition with_Error (db : ptr) (d : DB) (err : option error) (m : Memory) : Memory :=
  set_db_heap (<[db := set_DB_Error err d]> (db_heap m)) m.

(** The store after [Delete] of each key of a list, in order. *)
Definition lru_delete_all (keys : list string) (s : lruStore) : lruStore :=
  foldl (fun s key => lru_Delete key s) s keys.

(** The memory after [Close]: the store of the pool has no entry left. *)
Definition closed (db : PreparedStmtDB) (m : Memory) : Memory :=
  match Stmts db with
  | Some st =>
      match store_heap m !! st with
      | Some s => set_store_heap (<[st := mkLruStore (maxSize s) (ttl s) []]> (store_heap m)) m
      | None => m
      end
  | None => m
  end.

(** The statement of the handle that [getInstance] returns for the handle
    [d]: the old one for an instance, a new one for a root, a copy
    otherwise. *)
Definition instance_statement (tx : ptr) (d : DB) (c : Config) (old : Statement) : Statement :=
  if clone d <=? 0 then old
  else if clone d =? 1 then fresh_statement tx c old
  else set_Statement_DB (Some tx) old.

(** A builder that is the text written so far; [quote] and [render] give
    the text of a column and of an expression. *)
Definition text_WriteString (s : string) (b : string) : string := b +:+ s.
Definition text_WriteByte (c : ascii) (b : string) : string := b +:+ String c EmptyString.
Definition text_WriteQuoted {Column} (quote : Column -> string) (column : Column)
    (b : string) : string := b +:+ quote column.
Definition text_Build {Expression} (render : Expression -> string) (e : Expression)
    (b : string) : string := b +:+ render e.

(** ** Concrete objects *)

(** A driver on which everything succeeds. *)
Definition demo_driver : Driver :=
  mkDriver (fun _ _ _ => None)
    (fun _ _ _ => (Some (mk_sql_Result 0 1), None))
    (fun _ _ _ => (Some [], None))
    (fun _ _ _ => mk_sql_Row None (Some []))
    (fun _ _ => None) (fun _ _ => None).

(** A driver whose connection is broken whenever a statement runs. *)
Definition broken_driver : Driver :=
  mkDriver (fun _ _ _ => None)
    (fun _ _ _ => (None, Some ErrBadConn))
    (fun _ _ _ => (None, Some ErrBadConn))
    (fun _ _ _ => mk_sql_Row (Some ErrBadConn) None)
    (fun _ _ => Some ErrBadConn) (fun _ _ => Some ErrBadConn).

(** The configuration, the statement and the handle of a root as [Open]
    leaves them, on the [*sql.DB] number 7. *)
Definition demo_config : Config :=
  mkConfig false false None None false false 0 0 false false false 0 false false
    (Some (SqlDB 7)) None 0%nat 0%nat.

Definition demo_statement : Statement :=
  mkStatement (Some 0%nat) (Some (SqlDB 7)) (Some 0%nat) ∅ [] false false ∅.

Definition demo_root : DB := mkDB 0%nat None 0 (Some 0%nat) 1.

(** One empty store of capacity 2 at address 0, one lock, the root at
    address 0 with an empty plugin registry and an empty cache. *)
Definition demo_memory : Memory :=
  mkMemory [mkLruStore 2 3600 []] 1 0 0 [demo_config] [demo_statement] [demo_root]
    [∅] [∅].

Definition demo_state : State := mkState demo_memory [].

(** The prepared pool around the [*sql.DB] number 7. *)
Definition demo_pool : PreparedStmtDB :=
  mkPreparedStmtDB (Some 0%nat) 0%nat (Some (SqlDB 7)).

(** The live transaction number 9 wrapped for the same store. *)
Definition demo_tx : PreparedStmtTX :=
  mkPreparedStmtTX (Some (SqlTx (Some 9%nat))) demo_pool.

(** The statement that the first compilation of ["SELECT 1"] on
    [demo_pool] creates, and the state it leaves. *)
Definition demo_stmt : Stmt :=
  mkStmt 0 (Some (mk_sql_Stmt "SELECT 1" (RawDB 7))) false None.

Definition demo_state_cached : State :=
  mkState
    (mkMemory [mkLruStore 2 3600 [("SELECT 1", (demo_stmt, 0))]] 1 1 0
       [demo_config] [demo_statement] [demo_root] [∅] [∅])
    [EvRLock 0; EvRUnlock 0; EvLock 0; EvPrepare (RawDB 7) "SELECT 1"; EvUnlock 0].

(** A derivation that only sets [Initialized], one that sets nothing and
    one that only asks for prepare mode. *)
Definition session_initialized : Session :=
  mkSession false false false true false false false false false false false
    None None None 0.

Definition session_plain : Session :=
  mkSession false false false false false false false false false false false
    None None None 0.

Definition session_prepare : Session :=
  mkSession false true false false false false false false false false false
    None None None 0.

(** A root whose dialector translates the driver's duplicate-key error. *)
Definition demo_dialector : Dialector :=
  mkDialector "mysql"
    (Some (fun e => if decide (e = ErrOpaque "Error 1062")
                    then Some (ErrOpaque "duplicated key not allowed")
                    else Some e)).

Definition translating_config : Config :=
  mkConfig false false None None false false 0 0 false false false 0 true false
    (Some (SqlDB 7)) (Some demo_dialector) 0%nat 0%nat.

Definition translating_state : State :=
  mkState
    (mkMemory [] 0 0 0 [translating_config] [demo_statement] [demo_root] [∅] [∅]) [].

(** A plugin whose initialisation succeeds and one whose initialisation
    fails; neither touches the memory. *)
Definition demo_plugin : Plugin :=
  mkPlugin 1 "dbresolver" (fun _ m => (None, m)).

Definition failing_plugin : Plugin :=
  mkPlugin 2 "tracing" (fun _ m => (Some (ErrOpaque "no exporter"), m)).


Definition demo_BeginTx : nat -> Context -> TxOptions -> M (option nat * option error) :=
  fun _ _ _ => ret (Some 9%nat, None).

Definition failing_BeginTx : nat -> Context -> TxOptions -> M (option nat * option error) :=
  fun _ _ _ => ret (None, Some ErrBadConn).

(** Every transaction belongs to the [*sql.DB] number 7. *)
Definition demo_Tx_db : nat -> nat := fun _ => 7%nat.


(** The logger number [l] in Info mode is the logger number [l + 1]. *)
Definition demo_LogMode : nat -> option nat := fun l => Some (S l).

(** A root with the logger number 3. *)
Definition logging_config : Config :=
  mkConfig false false (Some 3%nat) None false false 0 0 false false false 0 false false
    (Some (SqlDB 7)) None 0%nat 0%nat.

Definition logging_state : State :=
  mkState
    (mkMemory [] 0 0 0 [logging_config] [demo_statement] [demo_root] [∅] [∅]) [].

(** A prepared pool around a bare transaction and one around [demo_pool]. *)
Definition tx_pool : PreparedStmtDB :=
  mkPreparedStmtDB (Some 0%nat) 0%nat (Some (ConnTx (SqlTx (Some 9%nat)))).





(** A wrapper whose transaction is a value of a struct type, and a root
    whose statement has that value as its connection. *)
Definition struct_tx : PreparedStmtTX :=
  mkPreparedStmtTX (Some (StructTx 9)) demo_pool.

Definition struct_statement : Statement :=
  mkStatement (Some 0%nat) (Some (ConnTx (StructTx 9))) (Some 0%nat) ∅ [] false false ∅.

Definition struct_state : State :=
  mkState
    (mkMemory [mkLruStore 2 3600 []] 1 0 0 [demo_config] [struct_statement] [demo_root]
       [∅] [∅])
    [].

(** Columns are names, quoted with backticks. *)
Definition demo_quote : string -> string := fun c => "`" +:+ c +:+ "`".

Definition demo_select : Select (Column := string) (Expression := string) :=
  mkSelect true ["id"; "name"] None.

(** ** The claims that the code does not satisfy, as they are stated *)

(** C1 as stated: after a compilation outside a transaction, the request
    inside a transaction yields a different statement, the first one stays
    cached, and a later request outside returns the first one. *)
Definition non_tx_then_tx_distinct (drv : Driver) (others : Memory -> Memory)
    (db : PreparedStmtDB) (ctx : Context) (conn txconn : ConnPool) (q : string)
    (s : State) : Prop :=
  forall stmt err s1 stmt' err' s2,
    prepare drv others db ctx conn false q s = Some ((stmt, err), s1) ->
    prepare drv others db ctx txconn true q s1 = Some ((stmt', err'), s2) ->
    stmt' <> stmt
    /\ cached db q (mem s2) = Some stmt
    /\ exists s3, prepare drv others db ctx conn false q s2 = Some ((stmt, err), s3).

(** C3 as stated, for the query-row call: a broken connection during the
    execution evicts the template. *)
Definition query_row_evicts (drv : Driver) (others : Memory -> Memory)
    (db : PreparedStmtDB) (ctx : Context) (q : string) (args : list iface)
    (s : State) : Prop :=
  forall row s',
    PreparedStmtDB_QueryRowContext drv others db ctx q args s = Some (row, s') ->
    errors_Is (row_err row) ErrBadConn = true ->
    cached db q (mem s') = None.

(** C6 as stated: the derived handle carries marker 2, or 1 when [NewDB]
    is set, and without an isolating flag it shares the statement of its
    parent. *)
Definition Session_marker_and_sharing (db : ptr) (config : Session) (s : State) : Prop :=
  forall r s' d t,
    DB_Session db config s = Some (r, s') ->
    db_heap (mem s) !! db = Some d ->
    db_heap (mem s') !! r = Some t ->
    clone t = (if Session_NewDB config then 1 else 2)
    /\ (isolating config = false -> DB_Statement t = DB_Statement d).

(** C8 as stated, for a handle without a stored error: [AddError] stores
    its argument and returns it. *)
Definition AddError_stores_argument (db : ptr) (e : error) (s : State) : Prop :=
  forall d r s' d',
    db_heap (mem s) !! db = Some d ->
    DB_Error d = None ->
    DB_AddError db (Some e) s = Some (r, s') ->
    db_heap (mem s') !! db = Some d' ->
    r = Some e /\ DB_Error d' = Some e.

(** * Theorems *)

(** ** The LRU list *)

Lemma lru_find_remove_eq key es : lru_find key (lru_remove key es) = None.
Proof.
  unfold lru_find, lru_remove. induction es as [|e es IH]; [done|].
  rewrite filter_cons. destruct (decide (e.1 <> key)) as [Hne|Heq]; [|done].
  simpl. rewrite bool_decide_eq_false_2; done.
Qed.

Lemma lru_find_remove_ne key key' es :
  key <> key' -> lru_find key' (lru_remove key es) = lru_find key' es.
Proof.
  intros Hne. unfold lru_find, lru_remove. induction es as [|e es IH]; [done|].
  rewrite filter_cons. destruct (decide (e.1 <> key)) as [Hk|Hk]; simpl.
  - destruct (bool_decide (e.1 = key')); [done|exact IH].
  - apply dec_stable in Hk. rewrite bool_decide_eq_false_2; [exact IH|congruence].
Qed.

Lemma lru_find_cons_eq key v es : lru_find key ((key, v) :: es) = Some v.
Proof. unfold lru_find. simpl. rewrite bool_decide_eq_true_2; done. Qed.

Lemma lru_find_cons_ne key key' v es :
  key <> key' -> lru_find key' ((key, v) :: es) = lru_find key' es.
Proof. intros Hne. unfold lru_find. simpl. rewrite bool_decide_eq_false_2; done. Qed.

(** A lookup returns what [lru_peek] sees. *)
Lemma lru_Get_fst now key s : (lru_Get now key s).1 = lru_peek now key s.
Proof.
  unfold lru_Get, lru_peek. destruct (lru_find key (entries s)) as [[stmt born]|]; [|done].
  destruct (now - born <=? Z.pos (ttl s)); done.
Qed.

(** A lookup changes the order of the entries only. *)
Lemma lru_peek_Get now now' key key' s :
  lru_peek now' key' (lru_Get now key s).2 = lru_peek now' key' s.
Proof.
  unfold lru_Get, lru_peek.
  destruct (lru_find key (entries s)) as [[stmt born]|] eqn:Hf; [|done].
  destruct (now - born <=? Z.pos (ttl s)); [|done]. simpl.
  destruct (decide (key = key')) as [->|Hne].
  - by rewrite lru_find_cons_eq, Hf.
  - by rewrite lru_find_cons_ne, lru_find_remove_ne.
Qed.

Lemma removelast_cons_find key v es key' :
  es <> [] ->
  lru_find key' (removelast ((key, v) :: es)) =
  if decide (key = key') then Some v else lru_find key' (removelast es).
Proof.
  intros Hne. destruct es as [|e es]; [done|].
  change (removelast ((key, v) :: e :: es)) with ((key, v) :: removelast (e :: es)).
  destruct (decide (key = key')) as [->|Hk].
  - apply lru_find_cons_eq.
  - by apply lru_find_cons_ne.
Qed.

(** Right after an insertion the template maps to the new statement. *)
Lemma lru_find_evict key v es (b : bool) :
  (b = true -> es <> []) ->
  lru_find key (if b then removelast ((key, v) :: es) else (key, v) :: es) = Some v.
Proof.
  intros Hb. destruct b; [|apply lru_find_cons_eq].
  rewrite removelast_cons_find by auto. by rewrite decide_True.
Qed.

Lemma lru_peek_Set now key stmt s :
  lru_peek now key (lru_Set now key stmt s) = Some stmt.
Proof.
  unfold lru_peek, lru_Set. cbn [entries ttl].
  rewrite lru_find_evict.
  - replace (now - now) with 0 by lia. done.
  - intros Hc Hnil. rewrite Hnil in Hc. apply Z.gtb_lt in Hc. simpl in Hc. lia.
Qed.

Lemma lru_peek_Delete now key s : lru_peek now key (lru_Delete key s) = None.
Proof. unfold lru_peek, lru_Delete. simpl. by rewrite lru_find_remove_eq. Qed.

Lemma lru_peek_Delete_ne now key key' s :
  key <> key' -> lru_peek now key' (lru_Delete key s) = lru_peek now key' s.
Proof. intros Hne. unfold lru_peek, lru_Delete. simpl. by rewrite lru_find_remove_ne. Qed.

(** ** prepare *)

Section PreparedStmtFacts.

Context (drv : Driver) (others : Memory -> Memory).

Lemma lookup_usable_spec db isTx q s st S :
  Stmts db = Some st -> store_heap (mem s) !! st = Some S ->
  lookup_usable db isTx q s =
  Some (cached_usable db isTx q (mem s), mkState (looked_up db q (mem s)) (trace s)).
Proof.
  intros Hst HS. unfold lookup_usable, cached_usable, cached, looked_up, usable.
  rewrite Hst. unfold bind, Store_Get, gets, deref, modify, ret, bind. simpl.
  rewrite HS. simpl. rewrite lru_Get_fst.
  destruct (lru_peek _ _ _) as [stmt|]; [|done].
  destruct (negb _ || _); done.
Qed.

Lemma lookup_usable_dangling db isTx q s st :
  Stmts db = Some st -> store_heap (mem s) !! st = None ->
  lookup_usable db isTx q s = None.
Proof.
  intros Hst HS. unfold lookup_usable. rewrite Hst.
  unfold bind, Store_Get, gets, deref, bind. simpl. by rewrite HS.
Qed.

Lemma lookup_usable_nil db isTx q s :
  Stmts db = None -> lookup_usable db isTx q s = Some (None, s).
Proof. intros Hst. unfold lookup_usable. by rewrite Hst. Qed.

Lemma cached_looked_up db q q' m : cached db q' (looked_up db q m) = cached db q' m.
Proof.
  unfold cached, looked_up. destruct (Stmts db) as [st|]; [|done].
  destruct (store_heap m !! st) as [S|] eqn:HS; [|by rewrite HS].
  simpl. rewrite list_lookup_insert_eq by (by eapply lookup_lt_Some).
  apply lru_peek_Get.
Qed.

Lemma Store_New_spec st ctx key isTx conn locker s S rc :
  store_heap (mem s) !! st = Some S ->
  ConnPool_target conn = Some rc ->
  let err := drv_prepare drv (trace s) rc key in
  let stmt := mkStmt (stmt_count (mem s))
                (match err with None => Some (mk_sql_Stmt key rc) | Some _ => None end)
                isTx err in
  Store_New drv st ctx key isTx conn locker s =
  Some ((stmt, err),
        mkState (set_store_heap (<[st := lru_Set (clock (mem s)) key stmt S]> (store_heap (mem s)))
                   (set_stmt_count (Datatypes.S (stmt_count (mem s))) (mem s)))
                (trace s ++ [EvPrepare rc key; EvUnlock locker])).
Proof.
  intros HS Hrc. simpl.
  unfold Store_New, ConnPool_PrepareContext, Store_Set, Unlock.
  unfold bind, gets, deref, modify, ret, history, emit. rewrite Hrc. simpl.
  destruct (drv_prepare drv (trace s) rc key) as [e|]; simpl; rewrite HS; simpl.

  all: rewrite <- app_assoc; done.
Qed.

Lemma store_looked_up db q m st :
  Stmts db = Some st -> is_Some (store_heap m !! st) ->
  is_Some (store_heap (looked_up db q m) !! st).
Proof.
  intros Hst [S HS]. unfold looked_up. rewrite Hst, HS. simpl.
  rewrite list_lookup_insert_eq by (by eapply lookup_lt_Some). done.
Qed.


Lemma prepare_unfold db ctx conn isTx q s :
  let mu := Mux db in
  prepare drv others db ctx conn isTx q s =
  match lookup_usable db isTx q (mkState (mem s) (trace s ++ [EvRLock mu])) with
  | None => None
  | Some (Some stmt, s') =>
      Some ((stmt, Stmt_Error stmt), mkState (mem s') (trace s' ++ [EvRUnlock mu]))
  | Some (None, s') =>
      match lookup_usable db isTx q
              (mkState (others (mem s')) ((trace s' ++ [EvRUnlock mu]) ++ [EvLock mu])) with
      | None => None
      | Some (Some stmt, s'') =>
          Some ((stmt, Stmt_Error stmt), mkState (mem s'') (trace s'' ++ [EvUnlock mu]))
      | Some (None, s'') =>
          match Stmts db with
          | Some st => Store_New drv st ctx q isTx conn mu s''
          | None => None
          end
      end
  end.
Proof.
  intros mu. unfold prepare. fold mu.
  unfold bind at 1 2, RLock, emit.
  destruct (lookup_usable db isTx q _) as [[[stmt|] s']|]; [done| |done].
  unfold bind at 1 2 3 4, RUnlock, modify, Lock, emit. cbn [mem trace].
  destruct (lookup_usable db isTx q _) as [[[stmt|] s'']|]; [done| |done].
  unfold bind at 1, deref. destruct (Stmts db); done.
Qed.

(** The three ways through [prepare]. *)
Lemma prepare_cases db ctx conn isTx q s st :
  Stmts db = Some st ->
  is_Some (store_heap (mem s) !! st) ->
  let mu := Mux db in
  let m1 := looked_up db q (mem s) in
  let m2 := others m1 in
  (forall stmt, cached_usable db isTx q (mem s) = Some stmt ->
     prepare drv others db ctx conn isTx q s =
     Some ((stmt, Stmt_Error stmt), mkState m1 (trace s ++ [EvRLock mu; EvRUnlock mu])))
  /\ (cached_usable db isTx q (mem s) = None ->
      is_Some (store_heap m2 !! st) ->
      (forall stmt, cached_usable db isTx q m2 = Some stmt ->
         prepare drv others db ctx conn isTx q s =
         Some ((stmt, Stmt_Error stmt),
               mkState (looked_up db q m2)
                 (trace s ++ [EvRLock mu; EvRUnlock mu; EvLock mu; EvUnlock mu])))
      /\ (cached_usable db isTx q m2 = None ->
          forall rc, ConnPool_target conn = Some rc ->
          exists stmt s',
            prepare drv others db ctx conn isTx q s = Some ((stmt, Stmt_Error stmt), s')
            /\ Transaction stmt = isTx
            /\ Stmt_addr stmt = stmt_count m2
            /\ prepareErr stmt =
                 drv_prepare drv (trace s ++ [EvRLock mu; EvRUnlock mu; EvLock mu]) rc q
            /\ Stmt_Stmt stmt =
                 match prepareErr stmt with
                 | None => Some (mk_sql_Stmt q rc)
                 | Some _ => None
                 end
            /\ cached db q (mem s') = Some stmt
            /\ trace s' =
                 trace s ++ [EvRLock mu; EvRUnlock mu; EvLock mu; EvPrepare rc q; EvUnlock mu])).
Proof.
  intros Hst [S0 HS0] mu m1 m2. rewrite prepare_unfold. fold mu.
  erewrite lookup_usable_spec by (simpl; eauto). cbn [mem trace]. fold m1.
  split.
  - intros stmt ->. by rewrite <- app_assoc.
  - intros -> [S2 HS2]. fold m2.
    erewrite lookup_usable_spec by (simpl; eauto). cbn [mem trace].
    rewrite <- !app_assoc. simpl. split.
    + intros stmt ->. by rewrite <- ?app_assoc.
    + intros -> rc Hrc. rewrite Hst.
      destruct (store_looked_up db q m2 st Hst (ex_intro _ S2 HS2)) as [S3 HS3].
      erewrite Store_New_spec by (simpl; eauto). simpl.
      match goal with |- exists stmt s', Some ((?a, _), ?b) = _ /\ _ => exists a, b end.
      split; [reflexivity|]. simpl.
      repeat split.
      * unfold looked_up. rewrite Hst, HS2. done.
      * unfold cached. rewrite Hst. simpl.
        rewrite list_lookup_insert_eq by (by eapply lookup_lt_Some).
        unfold looked_up. rewrite Hst, HS2. simpl. apply lru_peek_Set.
      * by rewrite <- !app_assoc.
Qed.

(** C2.  [prepare] with template [query] and flag [isTransaction], on a
    pool whose store exists.  Under the read lock, a cached entry that is
    not transaction-scoped, or any cached entry when the caller is in a
    transaction, is returned with its cached compile error, and nothing
    is compiled.  Otherwise the read lock is released and the write lock
    taken; the same test runs on what the other goroutines left in
    memory, and an entry that passes it is returned.  Only when this
    second test fails too is a statement compiled on the connection,
    tagged with [isTransaction] and stored under the template. *)
Theorem prepare_double_checked db ctx conn isTx q s st :
  Stmts db = Some st ->
  is_Some (store_heap (mem s) !! st) ->
  let mu := Mux db in
  let m1 := looked_up db q (mem s) in
  let m2 := others m1 in
  (forall stmt, cached_usable db isTx q (mem s) = Some stmt ->
     prepare drv others db ctx conn isTx q s =
     Some ((stmt, Stmt_Error stmt), mkState m1 (trace s ++ [EvRLock mu; EvRUnlock mu])))
  /\ (cached_usable db isTx q (mem s) = None ->
      is_Some (store_heap m2 !! st) ->
      (forall stmt, cached_usable db isTx q m2 = Some stmt ->
         prepare drv others db ctx conn isTx q s =
         Some ((stmt, Stmt_Error stmt),
               mkState (looked_up db q m2)
                 (trace s ++ [EvRLock mu; EvRUnlock mu; EvLock mu; EvUnlock mu])))
      /\ (cached_usable db isTx q m2 = None ->
          forall rc, ConnPool_target conn = Some rc ->
          exists stmt s',
            prepare drv others db ctx conn isTx q s = Some ((stmt, Stmt_Error stmt), s')
            /\ Transaction stmt = isTx
            /\ Stmt_addr stmt = stmt_count m2
            /\ prepareErr stmt =
                 drv_prepare drv (trace s ++ [EvRLock mu; EvRUnlock mu; EvLock mu]) rc q
            /\ Stmt_Stmt stmt =
                 match prepareErr stmt with
                 | None => Some (mk_sql_Stmt q rc)
                 | Some _ => None
                 end
            /\ cached db q (mem s') = Some stmt
            /\ trace s' =
                 trace s ++ [EvRLock mu; EvRUnlock mu; EvLock mu; EvPrepare rc q; EvUnlock mu])).
Proof. exact (prepare_cases db ctx conn isTx q s st). Qed.

Lemma cached_usable_Some db isTx q m stmt :
  cached_usable db isTx q m = Some stmt ->
  cached db q m = Some stmt /\ usable isTx stmt = true.
Proof.
  unfold cached_usable. destruct (cached db q m) as [x|]; [|done].
  destruct (usable isTx x) eqn:Hu; [|done]. intros [= <-]. done.
Qed.

Lemma prepare_inv db ctx conn isTx q s stmt err s1 :
  prepare drv others db ctx conn isTx q s = Some ((stmt, err), s1) ->
  exists st evs,
    Stmts db = Some st
    /\ is_Some (store_heap (mem s1) !! st)
    /\ err = Stmt_Error stmt
    /\ cached db q (mem s1) = Some stmt
    /\ usable isTx stmt = true
    /\ trace s1 = trace s ++ evs
    /\ ((filter is_EvPrepare evs = []
         /\ (cached_usable db isTx q (mem s) = Some stmt
             \/ cached_usable db isTx q (others (looked_up db q (mem s))) = Some stmt))
        \/ (exists rc, ConnPool_target conn = Some rc
             /\ Transaction stmt = isTx
             /\ filter is_EvPrepare evs = [EvPrepare rc q])).
Proof.
  intros Hrun.
  destruct (Stmts db) as [st|] eqn:Hst; cycle 1.
  { exfalso. revert Hrun. rewrite prepare_unfold.
    rewrite lookup_usable_nil by done. cbn [mem trace].
    rewrite lookup_usable_nil by done. by rewrite Hst. }
  destruct (store_heap (mem s) !! st) as [S0|] eqn:HS0; cycle 1.
  { exfalso. revert Hrun. rewrite prepare_unfold.
    by rewrite (lookup_usable_dangling _ _ _ _ st). }
  destruct (prepare_cases db ctx conn isTx q s st Hst (ex_intro _ S0 HS0))
    as [Hfast Hslow].
  destruct (cached_usable db isTx q (mem s)) as [x|] eqn:Hc1.
  { rewrite (Hfast x eq_refl) in Hrun. injection Hrun as <- <- <-.
    destruct (cached_usable_Some _ _ _ _ _ Hc1) as [Hc Hu].
    exists st, [EvRLock (Mux db); EvRUnlock (Mux db)]. simpl.
    rewrite cached_looked_up.
    split_and!; try done; [by apply store_looked_up|]. left. auto. }
  set (m2 := others (looked_up db q (mem s))) in *.
  destruct (store_heap m2 !! st) as [S2|] eqn:HS2; cycle 1.
  { exfalso. revert Hrun. rewrite prepare_unfold.
    erewrite lookup_usable_spec by (simpl; eauto). cbn [mem trace]. rewrite Hc1.
    by rewrite (lookup_usable_dangling _ _ _ _ st). }
  destruct (Hslow eq_refl ltac:(done)) as [Hhit Hmiss].
  destruct (cached_usable db isTx q m2) as [x|] eqn:Hc2.
  { rewrite (Hhit x eq_refl) in Hrun. injection Hrun as <- <- <-.
    destruct (cached_usable_Some _ _ _ _ _ Hc2) as [Hc Hu].
    exists st, [EvRLock (Mux db); EvRUnlock (Mux db); EvLock (Mux db); EvUnlock (Mux db)].
    simpl. rewrite cached_looked_up.
    split_and!; try done; [apply store_looked_up; eauto|]. left. auto. }
  destruct (ConnPool_target conn) as [rc|] eqn:Hrc; cycle 1.
  { exfalso. revert Hrun. rewrite prepare_unfold.
    erewrite lookup_usable_spec by (simpl; eauto). cbn [mem trace]. rewrite Hc1.
    erewrite lookup_usable_spec by (simpl; eauto). cbn [mem trace]. fold m2.
    rewrite Hc2, Hst.
    unfold Store_New, ConnPool_PrepareContext.
    unfold bind at 1 2, deref. by rewrite Hrc. }
  destruct (Hmiss eq_refl rc eq_refl) as (x & s' & Hrun' & Htx & Haddr & Herr & Hh & Hc & Htr).
  rewrite Hrun' in Hrun. injection Hrun as <- <- <-.
  exists st, [EvRLock (Mux db); EvRUnlock (Mux db); EvLock (Mux db); EvPrepare rc q; EvUnlock (Mux db)].
  split_and!; try done.
  - revert Hc. unfold cached. rewrite Hst. destruct (store_heap (mem s') !! st); done.
  - unfold usable. rewrite Htx. by destruct isTx.
  - right. exists rc. done.
Qed.
Lemma usable_false stmt : usable false stmt = true -> Transaction stmt = false.
Proof. unfold usable. destruct (Transaction stmt); done. Qed.

Lemma usable_true stmt : usable true stmt = true.
Proof. unfold usable. by rewrite orb_true_r. Qed.

Lemma prepare_hit db ctx conn isTx q s stmt :
  cached db q (mem s) = Some stmt -> usable isTx stmt = true ->
  prepare drv others db ctx conn isTx q s =
  Some ((stmt, Stmt_Error stmt),
        mkState (looked_up db q (mem s)) (trace s ++ [EvRLock (Mux db); EvRUnlock (Mux db)])).
Proof.
  intros Hc Hu.
  assert (exists st, Stmts db = Some st /\ is_Some (store_heap (mem s) !! st)) as (st & Hst & HS).
  { revert Hc. unfold cached. destruct (Stmts db) as [st|]; [|done].
    destruct (store_heap (mem s) !! st) eqn:E; [|done]. eauto. }
  apply (prepare_cases db ctx conn isTx q s st Hst HS).
  unfold cached_usable. by rewrite Hc, Hu.
Qed.

(** C1 (amended).  After a request for a template outside a transaction
    has returned a statement, that statement is not transaction-scoped
    and is the cached entry; a request for the same template inside a
    transaction returns this very statement with its cached error and
    compiles nothing; the entry stays in the store; and a later request
    outside the transaction returns the same statement again. *)
Theorem prepare_in_transaction_reuses db ctx conn q s stmt err s1 :
  prepare drv others db ctx conn false q s = Some ((stmt, err), s1) ->
  let mu := Mux db in
  let s2 := mkState (looked_up db q (mem s1)) (trace s1 ++ [EvRLock mu; EvRUnlock mu]) in
  let s3 := mkState (looked_up db q (mem s2)) (trace s2 ++ [EvRLock mu; EvRUnlock mu]) in
  Transaction stmt = false
  /\ cached db q (mem s1) = Some stmt
  /\ (forall ctx' conn',
        prepare drv others db ctx' conn' true q s1 = Some ((stmt, Stmt_Error stmt), s2))
  /\ filter is_EvPrepare (trace s2) = filter is_EvPrepare (trace s1)
  /\ cached db q (mem s2) = Some stmt
  /\ (forall ctx' conn',
        prepare drv others db ctx' conn' false q s2 = Some ((stmt, Stmt_Error stmt), s3)).
Proof.
  intros Hrun mu s2 s3.
  destruct (prepare_inv _ _ _ _ _ _ _ _ _ Hrun)
    as (st & evs & Hst & HS & -> & Hc & Hu & Htr & _).
  assert (Hc2 : cached db q (mem s2) = Some stmt) by (simpl; by rewrite cached_looked_up).
  split_and!.
  - by apply usable_false.
  - done.
  - intros ctx' conn'. apply prepare_hit; [done|apply usable_true].
  - simpl. rewrite filter_app. simpl. by rewrite app_nil_r.
  - done.
  - intros ctx' conn'. by apply prepare_hit.
Qed.

Lemma cached_evicted db q m : cached db q (evicted db q m) = None.
Proof.
  unfold cached, evicted. destruct (Stmts db) as [st|]; [|done].
  destruct (store_heap m !! st) as [S|] eqn:HS; [|by rewrite HS].
  simpl. rewrite list_lookup_insert_eq by (by eapply lookup_lt_Some).
  apply lru_peek_Delete.
Qed.

Lemma cached_evicted_ne db q q' m : q <> q' -> cached db q' (evicted db q m) = cached db q' m.
Proof.
  intros Hne. unfold cached, evicted. destruct (Stmts db) as [st|]; [|done].
  destruct (store_heap m !! st) as [S|] eqn:HS; [|by rewrite HS].
  simpl. rewrite list_lookup_insert_eq by (by eapply lookup_lt_Some).
  by apply lru_peek_Delete_ne.
Qed.

Lemma Delete_spec db st q s :
  Stmts db = Some st -> is_Some (store_heap (mem s) !! st) ->
  (st' <- deref (Stmts db) ;; Store_Delete st' q)%go s =
  Some (tt, mkState (evicted db q (mem s)) (trace s)).
Proof.
  intros Hst [S HS]. unfold evicted. rewrite Hst, HS.
  unfold bind, deref, ret, Store_Delete, gets, modify, bind. simpl. by rewrite HS.
Qed.

Lemma bind_Some {A B} (m : M A) (k : A -> M B) s r :
  bind m k s = Some r -> exists a s1, m s = Some (a, s1) /\ k a s1 = Some r.
Proof. unfold bind. destruct (m s) as [[a s1]|]; [eauto|done]. Qed.

Lemma sql_Stmt_ExecContext_spec o ctx args s r s' :
  sql_Stmt_ExecContext drv o ctx args s = Some (r, s') ->
  exists raw, o = Some raw /\ r = drv_exec drv (trace s) raw args
    /\ s' = mkState (mem s) (trace s ++ [EvExec raw args]).
Proof. destruct o as [raw|]; [|done]. intros [= <- <-]. eauto. Qed.

Lemma sql_Stmt_QueryContext_spec o ctx args s r s' :
  sql_Stmt_QueryContext drv o ctx args s = Some (r, s') ->
  exists raw, o = Some raw /\ r = drv_query drv (trace s) raw args
    /\ s' = mkState (mem s) (trace s ++ [EvQuery raw args]).
Proof. destruct o as [raw|]; [|done]. intros [= <- <-]. eauto. Qed.

Lemma sql_Stmt_QueryRowContext_spec o ctx args s r s' :
  sql_Stmt_QueryRowContext drv o ctx args s = Some (r, s') ->
  exists raw, o = Some raw /\ r = drv_queryrow drv (trace s) raw args
    /\ s' = mkState (mem s) (trace s ++ [EvQueryRow raw args]).
Proof. destruct o as [raw|]; [|done]. intros [= <- <-]. eauto. Qed.

(** The eviction step shared by the four methods. *)
Lemma evict_when_bad_conn db st q (err : option error) s s' :
  Stmts db = Some st -> is_Some (store_heap (mem s) !! st) ->
  when (errors_Is err ErrBadConn) (st' <- deref (Stmts db) ;; Store_Delete st' q)%go s
    = Some (tt, s') ->
  trace s' = trace s
  /\ (errors_Is err ErrBadConn = true -> mem s' = evicted db q (mem s))
  /\ (errors_Is err ErrBadConn = false -> mem s' = mem s).
Proof.
  intros Hst HS. unfold when. destruct (errors_Is err ErrBadConn).
  - rewrite (Delete_spec db st) by done. intros [= <-]. done.
  - intros [= <-]. done.
Qed.

(** What [ExecContext] and [QueryContext] of the pool do after [prepare]. *)
Lemma prepare_total db ctx conn isTx q s :
  prepare_ready others db conn q (mem s) ->
  exists stmt s1,
    prepare drv others db ctx conn isTx q s = Some ((stmt, Stmt_Error stmt), s1)
    /\ Stmt_compiled stmt.
Proof.
  intros (st & Hst & HS & HS2 & [rc Hrc] & Hok1 & Hok2).
  destruct (prepare_cases db ctx conn isTx q s st Hst HS) as [Hfast Hslow].
  destruct (cached_usable db isTx q (mem s)) as [x|] eqn:Hc1.
  { exists x. eexists. split; [by apply Hfast|].
    apply Hok1. by apply (cached_usable_Some db isTx). }
  destruct (Hslow eq_refl HS2) as [Hhit Hmiss].
  destruct (cached_usable db isTx q (others (looked_up db q (mem s)))) as [x|] eqn:Hc2.
  { exists x. eexists. split; [by apply Hhit|].
    apply Hok2. by apply (cached_usable_Some db isTx). }
  destruct (Hmiss eq_refl rc Hrc) as (stmt & s' & Hrun & _ & _ & _ & Hh & _).
  exists stmt, s'. split; [done|]. intros Hnone. rewrite Hh, Hnone. by eexists.
Qed.

Lemma pool_exec_query_total db ctx q args s :
  prepare_ready others db (PreparedStmtDB_ConnPool db) q (mem s) ->
  (exists r s', PreparedStmtDB_ExecContext drv others db ctx q args s = Some (r, s'))
  /\ (exists r s', PreparedStmtDB_QueryContext drv others db ctx q args s = Some (r, s')).
Proof.
  intros Hready.
  destruct (prepare_total db ctx (PreparedStmtDB_ConnPool db) false q s Hready)
    as (stmt & s1 & Hp & Hok).
  destruct (prepare_inv _ _ _ _ _ _ _ _ _ Hp) as (st & _ & Hst & HS & _).
  split.
  - unfold PreparedStmtDB_ExecContext. unfold bind at 1. rewrite Hp. cbn [fst snd].
    unfold Stmt_Error. destruct (prepareErr stmt) as [e|] eqn:He; [by eexists _, _|].
    destruct (Hok He) as [raw Hraw]. rewrite Hraw.
    unfold sql_Stmt_ExecContext, bind, deref, ret, history, emit, when. cbn [mem trace].
    destruct (errors_Is _ ErrBadConn); [|by eexists _, _].
    rewrite Hst. cbn. unfold Store_Delete, bind, gets, deref, modify, ret. cbn [mem trace].
    destruct HS as [S HS]. rewrite HS. by eexists _, _.
  - unfold PreparedStmtDB_QueryContext. unfold bind at 1. rewrite Hp. cbn [fst snd].
    unfold Stmt_Error. destruct (prepareErr stmt) as [e|] eqn:He; [by eexists _, _|].
    destruct (Hok He) as [raw Hraw]. rewrite Hraw.
    unfold sql_Stmt_QueryContext, bind, deref, ret, history, emit, when. cbn [mem trace].
    destruct (errors_Is _ ErrBadConn); [|by eexists _, _].
    rewrite Hst. cbn. unfold Store_Delete, bind, gets, deref, modify, ret. cbn [mem trace].
    destruct HS as [S HS]. rewrite HS. by eexists _, _.
Qed.

(** C3 (amended).  [ExecContext] and [QueryContext] of the prepared pool
    first call [prepare]; a compile error is returned as it is, without
    running anything.  Otherwise the statement runs once and the result
    and error of the driver are returned unchanged; when that error is or
    wraps [driver.ErrBadConn] the template has been deleted from the store
    by the time the call returns, and for every other outcome the memory
    is what [prepare] left, with the entry still cached.  Both calls
    return whenever [prepare_ready] holds. *)
Theorem pool_exec_query_eviction db ctx q args s :
  (forall r s',
     PreparedStmtDB_ExecContext drv others db ctx q args s = Some (r, s') ->
     exists stmt err s1,
       prepare drv others db ctx (PreparedStmtDB_ConnPool db) false q s = Some ((stmt, err), s1)
       /\ match err with
          | Some e => r = (None, Some e) /\ s' = s1
          | None =>
              exists raw, Stmt_Stmt stmt = Some raw
                /\ r = drv_exec drv (trace s1) raw args
                /\ trace s' = trace s1 ++ [EvExec raw args]
                /\ (errors_Is r.2 ErrBadConn = true ->
                      mem s' = evicted db q (mem s1) /\ cached db q (mem s') = None)
                /\ (errors_Is r.2 ErrBadConn = false ->
                      mem s' = mem s1 /\ cached db q (mem s') = Some stmt)
          end)
  /\ (forall r s',
     PreparedStmtDB_QueryContext drv others db ctx q args s = Some (r, s') ->
     exists stmt err s1,
       prepare drv others db ctx (PreparedStmtDB_ConnPool db) false q s = Some ((stmt, err), s1)
       /\ match err with
          | Some e => r = (None, Some e) /\ s' = s1
          | None =>
              exists raw, Stmt_Stmt stmt = Some raw
                /\ r = drv_query drv (trace s1) raw args
                /\ trace s' = trace s1 ++ [EvQuery raw args]
                /\ (errors_Is r.2 ErrBadConn = true ->
                      mem s' = evicted db q (mem s1) /\ cached db q (mem s') = None)
                /\ (errors_Is r.2 ErrBadConn = false ->
                      mem s' = mem s1 /\ cached db q (mem s') = Some stmt)
          end)
  /\ (prepare_ready others db (PreparedStmtDB_ConnPool db) q (mem s) ->
      (exists r s', PreparedStmtDB_ExecContext drv others db ctx q args s = Some (r, s'))
      /\ (exists r s', PreparedStmtDB_QueryContext drv others db ctx q args s = Some (r, s'))).
Proof.
  split; [|split];
    [intros r s' Hrun | intros r s' Hrun | exact (pool_exec_query_total db ctx q args s)].
  - apply bind_Some in Hrun as ([stmt err] & s1 & Hp & Hrun).
    exists stmt, err, s1. split; [done|].
    destruct (prepare_inv _ _ _ _ _ _ _ _ _ Hp)
      as (st & evs & Hst & HS & _ & Hc & _).
    simpl in Hrun. destruct err as [e|].
    { injection Hrun as <- <-. done. }
    apply bind_Some in Hrun as (r' & s2 & Hx & Hrun).
    apply sql_Stmt_ExecContext_spec in Hx as (raw & Hraw & -> & ->).
    apply bind_Some in Hrun as ([] & s3 & Hev & [= <- <-]).
    apply (evict_when_bad_conn db st) in Hev as (Htr & Hbad & Hok); [|done..].
    exists raw. split_and!; try done.
    + intros Hb. rewrite (Hbad Hb). simpl. by rewrite cached_evicted.
    + intros Hb. by rewrite (Hok Hb).
  - apply bind_Some in Hrun as ([stmt err] & s1 & Hp & Hrun).
    exists stmt, err, s1. split; [done|].
    destruct (prepare_inv _ _ _ _ _ _ _ _ _ Hp)
      as (st & evs & Hst & HS & _ & Hc & _).
    simpl in Hrun. destruct err as [e|].
    { injection Hrun as <- <-. done. }
    apply bind_Some in Hrun as (r' & s2 & Hx & Hrun).
    apply sql_Stmt_QueryContext_spec in Hx as (raw & Hraw & -> & ->).
    apply bind_Some in Hrun as ([] & s3 & Hev & [= <- <-]).
    apply (evict_when_bad_conn db st) in Hev as (Htr & Hbad & Hok); [|done..].
    exists raw. split_and!; try done.
    + intros Hb. rewrite (Hbad Hb). simpl. by rewrite cached_evicted.
    + intros Hb. by rewrite (Hok Hb).
Qed.

Lemma prepare_compiled_at_most db ctx conn isTx q s stmt err s1 :
  prepare drv others db ctx conn isTx q s = Some ((stmt, err), s1) ->
  exists evs, trace s1 = trace s ++ evs /\ compiled_at_most conn isTx q stmt evs.
Proof.
  intros Hp. destruct (prepare_inv _ _ _ _ _ _ _ _ _ Hp)
    as (st & evs & _ & _ & _ & _ & _ & Htr & Hev).
  exists evs. split; [done|]. destruct Hev as [[Hnone _]|(rc & Hrc & Htx & Hone)].
  - by left.
  - right. eauto.
Qed.

Lemma Tx_StmtContext_spec t ctx o s b s' :
  Tx_StmtContext t ctx o s = Some (b, s') ->
  exists id raw, Tx_target t = Some id /\ o = Some raw
    /\ b = Some (mk_sql_Stmt (stmt_query raw) (RawTx id))
    /\ s' = mkState (mem s) (trace s ++ [EvStmtContext id raw]).
Proof.
  unfold Tx_StmtContext. unfold bind at 1, deref.
  destruct (Tx_target t) as [id|]; [|done]. simpl.
  destruct o as [raw|]; [|done]. intros [= <- <-]. eauto 10.
Qed.

Lemma Tx_as_ConnPool_target t : ConnPool_target (Tx_as_ConnPool t) = RawTx <$> Tx_target t.
Proof. by destruct t. Qed.

Lemma tx_exec_query_total (tx : PreparedStmtTX) ctx q args s :
  prepare_ready others (PreparedStmtTX_PreparedStmtDB tx)
    (Tx_as_ConnPool (PreparedStmtTX_Tx tx)) q (mem s) ->
  (exists r s', PreparedStmtTX_ExecContext drv others tx ctx q args s = Some (r, s'))
  /\ (exists r s', PreparedStmtTX_QueryContext drv others tx ctx q args s = Some (r, s')).
Proof.
  intros Hready.
  destruct (prepare_total _ ctx _ true q s Hready) as (stmt & s1 & Hp & Hok).
  destruct (prepare_inv _ _ _ _ _ _ _ _ _ Hp) as (st & _ & Hst & HS & _).
  destruct Hready as (_ & _ & _ & _ & [rc Hrc] & _).
  rewrite Tx_as_ConnPool_target in Hrc.
  destruct (Tx_target (PreparedStmtTX_Tx tx)) as [id|] eqn:Hid; [|done].
  split.
  - unfold PreparedStmtTX_ExecContext. unfold bind at 1. rewrite Hp. cbn [fst snd].
    unfold Stmt_Error. destruct (prepareErr stmt) as [e|] eqn:He; [by eexists _, _|].
    destruct (Hok He) as [raw Hraw]. rewrite Hraw.
    unfold Tx_StmtContext, sql_Stmt_ExecContext, bind, deref, ret, history, emit, when.
    rewrite Hid. cbn [mem trace].
    destruct (errors_Is _ ErrBadConn); [|by eexists _, _].
    rewrite Hst. cbn. unfold Store_Delete, bind, gets, deref, modify, ret. cbn [mem trace].
    destruct HS as [S HS]. rewrite HS. by eexists _, _.
  - unfold PreparedStmtTX_QueryContext. unfold bind at 1. rewrite Hp. cbn [fst snd].
    unfold Stmt_Error. destruct (prepareErr stmt) as [e|] eqn:He; [by eexists _, _|].
    destruct (Hok He) as [raw Hraw]. rewrite Hraw.
    unfold Tx_StmtContext, sql_Stmt_QueryContext, bind, deref, ret, history, emit, when.
    rewrite Hid. cbn [mem trace].
    destruct (errors_Is _ ErrBadConn); [|by eexists _, _].
    rewrite Hst. cbn. unfold Store_Delete, bind, gets, deref, modify, ret. cbn [mem trace].
    destruct HS as [S HS]. rewrite HS. by eexists _, _.
Qed.

Lemma query_row_total db tx ctx q args s :
  (prepare_ready others db (PreparedStmtDB_ConnPool db) q (mem s) ->
   exists row s', PreparedStmtDB_QueryRowContext drv others db ctx q args s = Some (row, s'))
  /\ (prepare_ready others (PreparedStmtTX_PreparedStmtDB tx)
        (Tx_as_ConnPool (PreparedStmtTX_Tx tx)) q (mem s) ->
      exists row s', PreparedStmtTX_QueryRowContext drv others tx ctx q args s = Some (row, s')).
Proof.
  split; intros Hready.
  - destruct (prepare_total db ctx (PreparedStmtDB_ConnPool db) false q s Hready)
      as (stmt & s1 & Hp & Hok).
    unfold PreparedStmtDB_QueryRowContext. unfold bind at 1. rewrite Hp. cbn [fst snd].
    unfold Stmt_Error. destruct (prepareErr stmt) as [e|] eqn:He; [by eexists _, _|].
    destruct (Hok He) as [raw Hraw]. rewrite Hraw. by eexists _, _.
  - destruct (prepare_total _ ctx _ true q s Hready) as (stmt & s1 & Hp & Hok).
    destruct Hready as (_ & _ & _ & _ & [rc Hrc] & _).
    rewrite Tx_as_ConnPool_target in Hrc.
    destruct (Tx_target (PreparedStmtTX_Tx tx)) as [id|] eqn:Hid; [|done].
    unfold PreparedStmtTX_QueryRowContext. unfold bind at 1. rewrite Hp. cbn [fst snd].
    unfold Stmt_Error. destruct (prepareErr stmt) as [e|] eqn:He; [by eexists _, _|].
    destruct (Hok He) as [raw Hraw]. rewrite Hraw.
    unfold Tx_StmtContext, sql_Stmt_QueryRowContext, bind, deref, ret, history, emit.
    rewrite Hid. by eexists _, _.
Qed.

(** C5.  [ExecContext], [QueryContext] and [QueryRowContext] of the
    transactional wrapper call [prepare] of the shared pool with the flag
    [true] and the transaction as connection, so that whatever this call
    compiles is compiled on the transaction and tagged
    transaction-scoped, and then run the statement re-bound to the
    transaction by [StmtContext].  The same three methods of the pool
    call [prepare] with the flag [false] and the pool's own connection
    and run the cached statement itself.  When [prepare] fails nothing is
    run.  All six calls return whenever [prepare_ready] holds. *)
Theorem wrappers_flag_and_connection (tx : PreparedStmtTX) (db : PreparedStmtDB) ctx q args s :
  let txconn := Tx_as_ConnPool (PreparedStmtTX_Tx tx) in
  let txdb := PreparedStmtTX_PreparedStmtDB tx in
  (forall r s',
     PreparedStmtTX_ExecContext drv others tx ctx q args s = Some (r, s') ->
     exists stmt err s1 evs,
       prepare drv others txdb ctx txconn true q s = Some ((stmt, err), s1)
       /\ trace s1 = trace s ++ evs
       /\ compiled_at_most txconn true q stmt evs
       /\ match err with
          | Some e => r = (None, Some e) /\ trace s' = trace s1
          | None =>
              exists raw id, Stmt_Stmt stmt = Some raw
                /\ Tx_target (PreparedStmtTX_Tx tx) = Some id
                /\ ConnPool_target txconn = Some (RawTx id)
                /\ trace s' =
                     trace s1 ++ [EvStmtContext id raw;
                                  EvExec (mk_sql_Stmt (stmt_query raw) (RawTx id)) args]
          end)
  /\ (forall r s',
     PreparedStmtTX_QueryContext drv others tx ctx q args s = Some (r, s') ->
     exists stmt err s1 evs,
       prepare drv others txdb ctx txconn true q s = Some ((stmt, err), s1)
       /\ trace s1 = trace s ++ evs
       /\ compiled_at_most txconn true q stmt evs
       /\ match err with
          | Some e => r = (None, Some e) /\ trace s' = trace s1
          | None =>
              exists raw id, Stmt_Stmt stmt = Some raw
                /\ Tx_target (PreparedStmtTX_Tx tx) = Some id
                /\ ConnPool_target txconn = Some (RawTx id)
                /\ trace s' =
                     trace s1 ++ [EvStmtContext id raw;
                                  EvQuery (mk_sql_Stmt (stmt_query raw) (RawTx id)) args]
          end)
  /\ (forall r s',
     PreparedStmtDB_ExecContext drv others db ctx q args s = Some (r, s') ->
     exists stmt err s1 evs,
       prepare drv others db ctx (PreparedStmtDB_ConnPool db) false q s = Some ((stmt, err), s1)
       /\ trace s1 = trace s ++ evs
       /\ compiled_at_most (PreparedStmtDB_ConnPool db) false q stmt evs
       /\ match err with
          | Some e => r = (None, Some e) /\ trace s' = trace s1
          | None =>
              exists raw, Stmt_Stmt stmt = Some raw
                /\ trace s' = trace s1 ++ [EvExec raw args]
          end)
  /\ (forall r s',
     PreparedStmtDB_QueryContext drv others db ctx q args s = Some (r, s') ->
     exists stmt err s1 evs,
       prepare drv others db ctx (PreparedStmtDB_ConnPool db) false q s = Some ((stmt, err), s1)
       /\ trace s1 = trace s ++ evs
       /\ compiled_at_most (PreparedStmtDB_ConnPool db) false q stmt evs
       /\ match err with
          | Some e => r = (None, Some e) /\ trace s' = trace s1
          | None =>
              exists raw, Stmt_Stmt stmt = Some raw
                /\ trace s' = trace s1 ++ [EvQuery raw args]
          end)
  /\ (forall row s',
     PreparedStmtTX_QueryRowContext drv others tx ctx q args s = Some (row, s') ->
     exists stmt err s1 evs,
       prepare drv others txdb ctx txconn true q s = Some ((stmt, err), s1)
       /\ trace s1 = trace s ++ evs
       /\ compiled_at_most txconn true q stmt evs
       /\ match err with
          | Some _ => row = empty_Row /\ trace s' = trace s1
          | None =>
              exists raw id, Stmt_Stmt stmt = Some raw
                /\ Tx_target (PreparedStmtTX_Tx tx) = Some id
                /\ ConnPool_target txconn = Some (RawTx id)
                /\ row = drv_queryrow drv (trace s1 ++ [EvStmtContext id raw])
                           (mk_sql_Stmt (stmt_query raw) (RawTx id)) args
                /\ trace s' =
                     trace s1 ++ [EvStmtContext id raw;
                                  EvQueryRow (mk_sql_Stmt (stmt_query raw) (RawTx id)) args]
          end)
  /\ (forall row s',
     PreparedStmtDB_QueryRowContext drv others db ctx q args s = Some (row, s') ->
     exists stmt err s1 evs,
       prepare drv others db ctx (PreparedStmtDB_ConnPool db) false q s = Some ((stmt, err), s1)
       /\ trace s1 = trace s ++ evs
       /\ compiled_at_most (PreparedStmtDB_ConnPool db) false q stmt evs
       /\ match err with
          | Some _ => row = empty_Row /\ trace s' = trace s1
          | None =>
              exists raw, Stmt_Stmt stmt = Some raw
                /\ row = drv_queryrow drv (trace s1) raw args
                /\ trace s' = trace s1 ++ [EvQueryRow raw args]
          end)
  /\ (prepare_ready others txdb txconn q (mem s) ->
      (exists r s', PreparedStmtTX_ExecContext drv others tx ctx q args s = Some (r, s'))
      /\ (exists r s', PreparedStmtTX_QueryContext drv others tx ctx q args s = Some (r, s'))
      /\ (exists row s',
            PreparedStmtTX_QueryRowContext drv others tx ctx q args s = Some (row, s')))
  /\ (prepare_ready others db (PreparedStmtDB_ConnPool db) q (mem s) ->
      (exists r s', PreparedStmtDB_ExecContext drv others db ctx q args s = Some (r, s'))
      /\ (exists r s', PreparedStmtDB_QueryContext drv others db ctx q args s = Some (r, s'))
      /\ (exists row s',
            PreparedStmtDB_QueryRowContext drv others db ctx q args s = Some (row, s'))).
Proof.
  intros txconn txdb. split_and!;
    [intros r s' Hrun | intros r s' Hrun | intros r s' Hrun | intros r s' Hrun
    | intros r s' Hrun | intros r s' Hrun
    | intros Hready; split_and!;
        [apply (tx_exec_query_total tx ctx q args s Hready)
        |apply (tx_exec_query_total tx ctx q args s Hready)
        |apply (query_row_total db tx ctx q args s); exact Hready]
    | intros Hready; split_and!;
        [apply (pool_exec_query_total db ctx q args s Hready)
        |apply (pool_exec_query_total db ctx q args s Hready)
        |apply (query_row_total db tx ctx q args s); exact Hready]].
  - apply bind_Some in Hrun as ([stmt err] & s1 & Hp & Hrun).
    destruct (prepare_compiled_at_most _ _ _ _ _ _ _ _ _ Hp) as (evs & Htr & Hev).
    destruct (prepare_inv _ _ _ _ _ _ _ _ _ Hp) as (st & _ & Hst & HS & _).
    exists stmt, err, s1, evs. split_and!; try done.
    simpl in Hrun. destruct err as [e|]; [by injection Hrun as <- <-|].
    apply bind_Some in Hrun as (b & s2 & Hb & Hrun).
    apply Tx_StmtContext_spec in Hb as (id & raw & Hid & Hraw & -> & ->).
    apply bind_Some in Hrun as (r' & s3 & Hx & Hrun).
    apply sql_Stmt_ExecContext_spec in Hx as (raw' & [= <-] & -> & ->).
    apply bind_Some in Hrun as ([] & s4 & Hevict & [= <- <-]).
    apply (evict_when_bad_conn txdb st) in Hevict as (Htr' & _); [|done..].
    exists raw, id. split_and!; try done.
    + unfold txconn. by rewrite Tx_as_ConnPool_target, Hid.
    + rewrite Htr'. simpl. by rewrite <- app_assoc.
  - apply bind_Some in Hrun as ([stmt err] & s1 & Hp & Hrun).
    destruct (prepare_compiled_at_most _ _ _ _ _ _ _ _ _ Hp) as (evs & Htr & Hev).
    destruct (prepare_inv _ _ _ _ _ _ _ _ _ Hp) as (st & _ & Hst & HS & _).
    exists stmt, err, s1, evs. split_and!; try done.
    simpl in Hrun. destruct err as [e|]; [by injection Hrun as <- <-|].
    apply bind_Some in Hrun as (b & s2 & Hb & Hrun).
    apply Tx_StmtContext_spec in Hb as (id & raw & Hid & Hraw & -> & ->).
    apply bind_Some in Hrun as (r' & s3 & Hx & Hrun).
    apply sql_Stmt_QueryContext_spec in Hx as (raw' & [= <-] & -> & ->).
    apply bind_Some in Hrun as ([] & s4 & Hevict & [= <- <-]).
    apply (evict_when_bad_conn txdb st) in Hevict as (Htr' & _); [|done..].
    exists raw, id. split_and!; try done.
    + unfold txconn. by rewrite Tx_as_ConnPool_target, Hid.
    + rewrite Htr'. simpl. by rewrite <- app_assoc.
  - apply bind_Some in Hrun as ([stmt err] & s1 & Hp & Hrun).
    destruct (prepare_compiled_at_most _ _ _ _ _ _ _ _ _ Hp) as (evs & Htr & Hev).
    destruct (prepare_inv _ _ _ _ _ _ _ _ _ Hp) as (st & _ & Hst & HS & _).
    exists stmt, err, s1, evs. split_and!; try done.
    simpl in Hrun. destruct err as [e|]; [by injection Hrun as <- <-|].
    apply bind_Some in Hrun as (r' & s3 & Hx & Hrun).
    apply sql_Stmt_ExecContext_spec in Hx as (raw & Hraw & -> & ->).
    apply bind_Some in Hrun as ([] & s4 & Hevict & [= <- <-]).
    apply (evict_when_bad_conn db st) in Hevict as (Htr' & _); [|done..].
    exists raw. by rewrite Htr'.
  - apply bind_Some in Hrun as ([stmt err] & s1 & Hp & Hrun).
    destruct (prepare_compiled_at_most _ _ _ _ _ _ _ _ _ Hp) as (evs & Htr & Hev).
    destruct (prepare_inv _ _ _ _ _ _ _ _ _ Hp) as (st & _ & Hst & HS & _).
    exists stmt, err, s1, evs. split_and!; try done.
    simpl in Hrun. destruct err as [e|]; [by injection Hrun as <- <-|].
    apply bind_Some in Hrun as (r' & s3 & Hx & Hrun).
    apply sql_Stmt_QueryContext_spec in Hx as (raw & Hraw & -> & ->).
    apply bind_Some in Hrun as ([] & s4 & Hevict & [= <- <-]).
    apply (evict_when_bad_conn db st) in Hevict as (Htr' & _); [|done..].
    exists raw. by rewrite Htr'.
  - apply bind_Some in Hrun as ([stmt err] & s1 & Hp & Hrun).
    destruct (prepare_compiled_at_most _ _ _ _ _ _ _ _ _ Hp) as (evs & Htr & Hev).
    exists stmt, err, s1, evs. split_and!; try done.
    simpl in Hrun. destruct err as [e|]; [by injection Hrun as <- <-|].
    apply bind_Some in Hrun as (b & s2 & Hb & Hrun).
    apply Tx_StmtContext_spec in Hb as (id & raw & Hid & Hraw & -> & ->).
    apply sql_Stmt_QueryRowContext_spec in Hrun as (raw' & [= <-] & -> & ->).
    exists raw, id. split_and!; try done.
    + unfold txconn. by rewrite Tx_as_ConnPool_target, Hid.
    + simpl. by rewrite <- app_assoc.
  - apply bind_Some in Hrun as ([stmt err] & s1 & Hp & Hrun).
    destruct (prepare_compiled_at_most _ _ _ _ _ _ _ _ _ Hp) as (evs & Htr & Hev).
    exists stmt, err, s1, evs. split_and!; try done.
    simpl in Hrun. destruct err as [e|]; [by injection Hrun as <- <-|].
    apply sql_Stmt_QueryRowContext_spec in Hrun as (raw & Hraw & -> & ->).
    by exists raw.
Qed.

(** C4.  [Commit] and [Rollback] of a transactional wrapper, by what its
    [Tx] holds.  The nil interface and a nil pointer: both return
    [ErrInvalidTransaction] and leave the state alone (no panic).  A
    [*sql.Tx]: one call of the driver, whose result is returned.  Another
    wrapper: the [Commit] and [Rollback] of that wrapper, which is also
    what dynamic dispatch on it runs.  A value of a struct type: both
    panic inside [reflect.Value.IsNil], before the transaction is
    reached, although the [Commit] and [Rollback] of the value itself
    return the result of the driver.  What the guard is there for:
    [Commit] and [Rollback] of a nil [*sql.Tx] themselves panic. *)
Theorem commit_rollback_guard (tx : PreparedStmtTX) s :
  (PreparedStmtTX_Tx tx = None \/ PreparedStmtTX_Tx tx = Some (SqlTx None) ->
     PreparedStmtTX_Commit drv tx s = Some (Some ErrInvalidTransaction, s)
     /\ PreparedStmtTX_Rollback drv tx s = Some (Some ErrInvalidTransaction, s))
  /\ (forall id, PreparedStmtTX_Tx tx = Some (SqlTx (Some id)) ->
       PreparedStmtTX_Commit drv tx s =
         Some (drv_commit drv (trace s) id, mkState (mem s) (trace s ++ [EvCommit id]))
       /\ PreparedStmtTX_Rollback drv tx s =
         Some (drv_rollback drv (trace s) id, mkState (mem s) (trace s ++ [EvRollback id])))
  /\ (forall t p, PreparedStmtTX_Tx tx = Some (PreparedStmtTXp t p) ->
       PreparedStmtTX_Commit drv tx s = PreparedStmtTX_Commit drv (mkPreparedStmtTX t p) s
       /\ PreparedStmtTX_Rollback drv tx s = PreparedStmtTX_Rollback drv (mkPreparedStmtTX t p) s
       /\ TxObj_Commit drv (PreparedStmtTXp t p) s
            = PreparedStmtTX_Commit drv (mkPreparedStmtTX t p) s
       /\ TxObj_Rollback drv (PreparedStmtTXp t p) s
            = PreparedStmtTX_Rollback drv (mkPreparedStmtTX t p) s)
  /\ (forall id, PreparedStmtTX_Tx tx = Some (StructTx id) ->
       PreparedStmtTX_Commit drv tx s = None
       /\ PreparedStmtTX_Rollback drv tx s = None
       /\ TxObj_Commit drv (StructTx id) s =
            Some (drv_commit drv (trace s) id, mkState (mem s) (trace s ++ [EvCommit id]))
       /\ TxObj_Rollback drv (StructTx id) s =
            Some (drv_rollback drv (trace s) id, mkState (mem s) (trace s ++ [EvRollback id])))
  /\ TxObj_Commit drv (SqlTx None) s = None
  /\ TxObj_Rollback drv (SqlTx None) s = None.
Proof.
  unfold PreparedStmtTX_Commit, PreparedStmtTX_Rollback. split_and!.
  - intros [-> | ->]; done.
  - intros id ->. done.
  - intros t p ->. by destruct t.
  - intros id ->. done.
  - done.
  - done.
Qed.

End PreparedStmtFacts.

(** ** Heaps and symbolic execution *)

Lemma lookup_snoc {A} (h : list A) (x : A) : (h ++ [x]) !! length h = Some x.
Proof. by apply list_lookup_middle. Qed.

Lemma lookup_snoc_Some {A} (h : list A) (x y : A) (p : nat) :
  h !! p = Some y -> (h ++ [x]) !! p = Some y.
Proof. apply lookup_app_l_Some. Qed.

Lemma insert_snoc {A} (h : list A) (x y : A) : <[length h := y]> (h ++ [x]) = h ++ [y].
Proof.
  rewrite insert_app_r_alt by lia. by replace (length h - length h)%nat with 0%nat by lia.
Qed.

(** Symbolic execution over the heaps. *)
Ltac heap_step :=
  first
    [ rewrite lookup_snoc
    | rewrite insert_snoc
    | erewrite lookup_snoc_Some by eassumption
    | match goal with
      | H : ?h !! ?p = Some _ |- context [?h !! ?p] => rewrite H
      end ].

Ltac run_go :=
  unfold alloc_db, alloc_config, alloc_statement, update_db, update_config,
    update_statement, load_db, load_config, load_statement, load_plugins, load_cache,
    DB_config, DB_statement_ptr, DB_statement, Statement_clone, NewPreparedStmtDB,
    when, bind, gets, modify, deref, ret, panic, emit, history;
  simpl;
  repeat (heap_step; simpl).

(** A conditional field assignment, without a case on the condition. *)
Lemma when_update_config_eq (b : bool) p f s c :
  config_heap (mem s) !! p = Some c ->
  when b (update_config p f) s =
  Some (tt, mkState (set_config_heap (<[p := cond b f c]> (config_heap (mem s))) (mem s))
              (trace s)).
Proof.
  intros Hc. unfold when, cond, update_config, load_config, bind, gets, deref, modify, ret.
  destruct b; simpl; rewrite ?Hc; simpl; [done|].
  rewrite list_insert_id by done. by destruct s as [[] ?].
Qed.

Lemma when_update_db_eq (b : bool) p f s d :
  db_heap (mem s) !! p = Some d ->
  when b (update_db p f) s =
  Some (tt, mkState (set_db_heap (<[p := cond b f d]> (db_heap (mem s))) (mem s)) (trace s)).
Proof.
  intros Hc. unfold when, cond, update_db, load_db, bind, gets, deref, modify, ret.
  destruct b; simpl; rewrite ?Hc; simpl; [done|].
  rewrite list_insert_id by done. by destruct s as [[] ?].
Qed.

(** Each primitive as an equation on the state. *)
Lemma load_db_eq p s d : db_heap (mem s) !! p = Some d -> load_db p s = Some (d, s).
Proof. intros H. unfold load_db, bind, gets, deref. simpl. by rewrite H. Qed.

Lemma load_config_eq p s c : config_heap (mem s) !! p = Some c -> load_config p s = Some (c, s).
Proof. intros H. unfold load_config, bind, gets, deref. simpl. by rewrite H. Qed.

Lemma load_statement_eq p s x :
  statement_heap (mem s) !! p = Some x -> load_statement p s = Some (x, s).
Proof. intros H. unfold load_statement, bind, gets, deref. simpl. by rewrite H. Qed.

Lemma load_cache_eq p s x : cache_heap (mem s) !! p = Some x -> load_cache p s = Some (x, s).
Proof. intros H. unfold load_cache, bind, gets, deref. simpl. by rewrite H. Qed.

Lemma load_plugins_eq p s x :
  plugins_heap (mem s) !! p = Some x -> load_plugins p s = Some (x, s).
Proof. intros H. unfold load_plugins, bind, gets, deref. simpl. by rewrite H. Qed.

Lemma DB_config_eq p s d c :
  db_heap (mem s) !! p = Some d -> config_heap (mem s) !! DB_Config d = Some c ->
  DB_config p s = Some (c, s).
Proof.
  intros Hd Hc. unfold DB_config, bind. rewrite (load_db_eq _ _ _ Hd).
  by apply load_config_eq.
Qed.

Lemma DB_statement_ptr_eq p s d sp :
  db_heap (mem s) !! p = Some d -> DB_Statement d = Some sp ->
  DB_statement_ptr p s = Some (sp, s).
Proof.
  intros Hd Hsp. unfold DB_statement_ptr, bind. rewrite (load_db_eq _ _ _ Hd).
  by rewrite Hsp.
Qed.

Lemma DB_statement_eq p s d sp x :
  db_heap (mem s) !! p = Some d -> DB_Statement d = Some sp ->
  statement_heap (mem s) !! sp = Some x ->
  DB_statement p s = Some (x, s).
Proof.
  intros Hd Hsp Hx. unfold DB_statement, bind. rewrite (DB_statement_ptr_eq _ _ _ _ Hd Hsp).
  by apply load_statement_eq.
Qed.

Lemma alloc_config_eq c s :
  alloc_config c s =
  Some (length (config_heap (mem s)),
        mkState (set_config_heap (config_heap (mem s) ++ [c]) (mem s)) (trace s)).
Proof. done. Qed.

Lemma alloc_db_eq d s :
  alloc_db d s =
  Some (length (db_heap (mem s)),
        mkState (set_db_heap (db_heap (mem s) ++ [d]) (mem s)) (trace s)).
Proof. done. Qed.

Lemma alloc_statement_eq x s :
  alloc_statement x s =
  Some (length (statement_heap (mem s)),
        mkState (set_statement_heap (statement_heap (mem s) ++ [x]) (mem s)) (trace s)).
Proof. done. Qed.

Lemma Statement_clone_eq p s x :
  statement_heap (mem s) !! p = Some x ->
  Statement_clone p s =
  Some (length (statement_heap (mem s)),
        mkState (set_statement_heap (statement_heap (mem s) ++ [x]) (mem s)) (trace s)).
Proof.
  intros H. unfold Statement_clone, bind. by rewrite (load_statement_eq _ _ _ H).
Qed.

Lemma update_db_eq p f s d :
  db_heap (mem s) !! p = Some d ->
  update_db p f s =
  Some (tt, mkState (set_db_heap (<[p := f d]> (db_heap (mem s))) (mem s)) (trace s)).
Proof. intros H. unfold update_db, bind. by rewrite (load_db_eq _ _ _ H). Qed.

Lemma update_config_eq p f s c :
  config_heap (mem s) !! p = Some c ->
  update_config p f s =
  Some (tt, mkState (set_config_heap (<[p := f c]> (config_heap (mem s))) (mem s)) (trace s)).
Proof. intros H. unfold update_config, bind. by rewrite (load_config_eq _ _ _ H). Qed.

Lemma update_statement_eq p f s x :
  statement_heap (mem s) !! p = Some x ->
  update_statement p f s =
  Some (tt, mkState (set_statement_heap (<[p := f x]> (statement_heap (mem s))) (mem s))
              (trace s)).
Proof. intros H. unfold update_statement, bind. by rewrite (load_statement_eq _ _ _ H). Qed.

Lemma NewPreparedStmtDB_eq connPool maxSize ttl_ s :
  NewPreparedStmtDB connPool maxSize ttl_ s =
  Some (mkPreparedStmtDB (Some (length (store_heap (mem s)))) (mutex_count (mem s)) connPool,
        mkState (set_mutex_count (S (mutex_count (mem s)))
                   (set_store_heap (store_heap (mem s) ++ [stmt_store_New maxSize ttl_]) (mem s)))
                (trace s)).
Proof. done. Qed.

(** Normal form of a state whose memory is given field by field. *)
Ltac norm :=
  cbn beta iota;
  unfold set_store_heap, set_mutex_count, set_stmt_count, set_config_heap,
    set_statement_heap, set_db_heap, set_plugins_heap, set_cache_heap;
  cbn [mem trace store_heap mutex_count stmt_count clock config_heap statement_heap
       db_heap plugins_heap cache_heap fst snd];
  rewrite ?insert_snoc.

(** The lookups that the equations ask for. *)
Ltac side :=
  norm;
  first [ eassumption
        | apply lookup_snoc
        | apply lookup_snoc_Some; eassumption
        | reflexivity ].

(** One primitive at the head of the computation. *)
Ltac step :=
  first
    [ erewrite DB_config_eq by side
    | erewrite DB_statement_eq by side
    | erewrite DB_statement_ptr_eq by side
    | erewrite load_db_eq by side
    | erewrite load_config_eq by side
    | erewrite load_statement_eq by side
    | erewrite load_cache_eq by side
    | erewrite load_plugins_eq by side
    | rewrite alloc_config_eq
    | rewrite alloc_db_eq
    | rewrite alloc_statement_eq
    | rewrite NewPreparedStmtDB_eq
    | erewrite Statement_clone_eq by side
    | erewrite when_update_config_eq by side
    | erewrite when_update_db_eq by side
    | erewrite update_db_eq by side
    | erewrite update_config_eq by side
    | erewrite update_statement_eq by side ];
  norm.

Lemma cond_true {A} (f : A -> A) x : cond true f x = f x.
Proof. done. Qed.
Lemma cond_false {A} (f : A -> A) x : cond false f x = x.
Proof. done. Qed.
Lemma bool_decide_is_Some_Some {A} (x : A) : bool_decide (is_Some (Some x)) = true.
Proof. apply bool_decide_eq_true_2. eauto. Qed.
Lemma bool_decide_is_Some_None {A} : bool_decide (is_Some (@None A)) = false.
Proof. apply bool_decide_eq_false_2. by intros [? ?]. Qed.

(** Conditions whose flag is known. *)
Ltac flags :=
  rewrite ?(@bool_decide_is_Some_Some Context), ?(@bool_decide_is_Some_None Context),
    ?cond_true, ?cond_false;
  cbn [when orb andb negb ret panic deref];
  cbn [Statement_DB Statement_ConnPool Statement_Context Clauses Vars SkipHooks Unscoped
       Settings set_Statement_DB set_Statement_ConnPool set_Statement_Context set_SkipHooks
       set_Unscoped set_Settings DB_Config DB_Error RowsAffected DB_Statement clone
       set_DB_Error set_DB_Statement set_clone].

Ltac go := repeat first [ step | progress flags ].

(** ** getInstance *)

Lemma getInstance_cases db s d :
  db_heap (mem s) !! db = Some d ->
  let tx := length (db_heap (mem s)) in
  let sp' := length (statement_heap (mem s)) in
  let handle := mkDB (DB_Config d) (DB_Error d) 0 (Some sp') 0 in
  (clone d <= 0 -> DB_getInstance db s = Some (db, s))
  /\ (clone d = 1 ->
      forall sp old c,
        DB_Statement d = Some sp -> statement_heap (mem s) !! sp = Some old ->
        config_heap (mem s) !! DB_Config d = Some c ->
        DB_getInstance db s =
        Some (tx, mkState
                    (set_statement_heap (statement_heap (mem s) ++ [fresh_statement tx c old])
                       (set_db_heap (db_heap (mem s) ++ [handle]) (mem s)))
                    (trace s)))
  /\ (1 < clone d ->
      forall sp old,
        DB_Statement d = Some sp -> statement_heap (mem s) !! sp = Some old ->
        DB_getInstance db s =
        Some (tx, mkState
                    (set_statement_heap
                       (statement_heap (mem s) ++ [set_Statement_DB (Some tx) old])
                       (set_db_heap (db_heap (mem s) ++ [handle]) (mem s)))
                    (trace s))).
Proof.
  intros Hd tx sp' handle. destruct s as [[stores mc sc clk cfgs stmts dbs plugs caches] tr].
  simpl in *. unfold DB_getInstance. split_and!.
  - intros Hle. run_go. destruct (0 <? clone d) eqn:E; [lia|done].
  - intros Hc1 sp old c Hsp Hold Hc. run_go. rewrite Hc1, Hsp. run_go.
    unfold fresh_statement. destruct (PropagateUnscoped c); run_go; done.
  - intros Hgt sp old Hsp Hold. run_go.
    destruct (0 <? clone d) eqn:E0; [|lia]. destruct (clone d =? 1) eqn:E1; [lia|].
    rewrite Hsp. run_go. done.
Qed.

Lemma getInstance_returns db s d tx s' :
  db_heap (mem s) !! db = Some d ->
  0 < clone d ->
  DB_getInstance db s = Some (tx, s') ->
  exists sp old,
    DB_Statement d = Some sp /\ statement_heap (mem s) !! sp = Some old
    /\ (clone d = 1 -> is_Some (config_heap (mem s) !! DB_Config d)).
Proof.
  intros Hd Hpos. destruct s as [[stores mc sc clk cfgs stmts dbs plugs caches] tr].
  simpl in *. unfold DB_getInstance. run_go.
  destruct (0 <? clone d) eqn:E0; [|lia].
  destruct (DB_Statement d) as [sp|] eqn:Hsp; cycle 1.
  { destruct (clone d =? 1); run_go; done. }
  destruct (stmts !! sp) as [old|] eqn:Hold; cycle 1.
  { destruct (clone d =? 1); run_go; rewrite ?Hold; done. }
  intros Hrun. exists sp, old. split_and!; try done.
  intros Hc1. rewrite Hc1 in Hrun. revert Hrun. run_go.
  destruct (cfgs !! DB_Config d); [eauto|done].
Qed.

(** C10.  For a handle whose marker is not negative, the handle that
    [getInstance] returns carries marker 0 and [getInstance] maps it to
    itself without changing the state.  A handle with marker 0 is returned
    as it is.  With marker 1 the new handle gets a new statement with an
    empty clause map and an empty argument list; with a marker above 1 it
    gets a copy of the existing statement, bound to the new handle. *)
Theorem getInstance_idempotent db s d :
  db_heap (mem s) !! db = Some d ->
  let tx := length (db_heap (mem s)) in
  let sp' := length (statement_heap (mem s)) in
  let handle := mkDB (DB_Config d) (DB_Error d) 0 (Some sp') 0 in
  (0 <= clone d ->
   forall r s', DB_getInstance db s = Some (r, s') ->
     (exists d', db_heap (mem s') !! r = Some d' /\ clone d' = 0)
     /\ DB_getInstance r s' = Some (r, s'))
  /\ (clone d = 0 -> DB_getInstance db s = Some (db, s))
  /\ (clone d = 1 ->
      forall sp old c,
        DB_Statement d = Some sp -> statement_heap (mem s) !! sp = Some old ->
        config_heap (mem s) !! DB_Config d = Some c ->
        Clauses (fresh_statement tx c old) = ∅
        /\ Vars (fresh_statement tx c old) = []
        /\ DB_getInstance db s =
           Some (tx, mkState
                       (set_statement_heap
                          (statement_heap (mem s) ++ [fresh_statement tx c old])
                          (set_db_heap (db_heap (mem s) ++ [handle]) (mem s)))
                       (trace s)))
  /\ (1 < clone d ->
      forall sp old,
        DB_Statement d = Some sp -> statement_heap (mem s) !! sp = Some old ->
        DB_getInstance db s =
        Some (tx, mkState
                    (set_statement_heap
                       (statement_heap (mem s) ++ [set_Statement_DB (Some tx) old])
                       (set_db_heap (db_heap (mem s) ++ [handle]) (mem s)))
                    (trace s))).
Proof.
  intros Hd tx sp' handle.
  destruct (getInstance_cases db s d Hd) as (Hzero & Hone & Hmore).
  split_and!.
  - intros Hnn r s' Hrun.
    assert (Hdone : forall r s' d', db_heap (mem s') !! r = Some d' -> clone d' = 0 ->
              (exists d', db_heap (mem s') !! r = Some d' /\ clone d' = 0)
              /\ DB_getInstance r s' = Some (r, s')).
    { intros r0 s0 d0 Hd0 Hc0. split; [eauto|].
      apply (getInstance_cases r0 s0 d0 Hd0). lia. }
    destruct (decide (clone d = 0)) as [Hz|Hnz].
    { rewrite Hzero in Hrun by lia. injection Hrun as <- <-. eauto. }
    destruct (getInstance_returns db s d r s' Hd ltac:(lia) Hrun) as (sp & old & Hsp & Hold & Hcfg).
    destruct (decide (clone d = 1)) as [H1|Hn1].
    + destruct (Hcfg H1) as [c Hc].
      rewrite (Hone H1 sp old c Hsp Hold Hc) in Hrun. injection Hrun as <- <-.
      apply (Hdone _ _ handle); [|done]. simpl. destruct (mem s); simpl. apply lookup_snoc.
    + rewrite (Hmore ltac:(lia) sp old Hsp Hold) in Hrun. injection Hrun as <- <-.
      apply (Hdone _ _ handle); [|done]. simpl. destruct (mem s); simpl. apply lookup_snoc.
  - intros Hz. apply Hzero. lia.
  - intros H1 sp old c Hsp Hold Hc. split_and!; [done..|]. by apply (Hone H1 sp).
  - done.
Qed.

(** ** Session *)

Lemma Session_run db config s d c0 sp old cache :
  db_heap (mem s) !! db = Some d ->
  config_heap (mem s) !! DB_Config d = Some c0 ->
  DB_Statement d = Some sp ->
  statement_heap (mem s) !! sp = Some old ->
  (Session_PrepareStmt config = true ->
     cache_heap (mem s) !! cacheStore c0 = Some cache
     /\ forall v, cache !! preparedStmtDBKey <> Some (CacheOther v)) ->
  DB_Session db config s =
  (if Session_Initialized config
   then DB_getInstance (length (db_heap (mem s)))
   else ret (length (db_heap (mem s))))
    (mkState (Session_memory config db d c0 sp old cache (mem s)) (trace s)).
Proof.
  intros Hd Hc Hsp Hold Hcache.
  destruct s as [[stores mc sc clk cfgs stmts dbs plugs caches] tr]. simpl in *.
  unfold DB_Session. unfold bind. norm.
  do 9 step.
  unfold Session_memory, isolating, Session_statement, Session_config.
  cbn [mem trace store_heap mutex_count stmt_count clock config_heap statement_heap
       db_heap plugins_heap cache_heap].
  destruct (Session_Context config) as [ctx|] eqn:Hctx;
    destruct (Session_PrepareStmt config) eqn:Hprep;
    destruct (Session_SkipHooks config) eqn:Hskip; flags.
  all: try (destruct (Hcache eq_refl) as [Hcs Hother]; clear Hcache).
  all: go.
  all: try (rewrite ?Hsp; destruct (Session_NewDB config); reflexivity).
  all: unfold Session_pool, Session_ConnPool;
    destruct (cache !! preparedStmtDBKey) as [[p|v]|] eqn:Hkey;
    [ | exfalso; by eapply Hother | ].
  all: rewrite ?bool_decide_eq_false_2 by done; rewrite ?bool_decide_eq_true_2 by done.
  all: go; unfold modify; norm; go.
  all: destruct (as_Tx (Statement_ConnPool old)) as [t|] eqn:Htx; go.
  all: try (rewrite ?Hsp; destruct (Session_NewDB config); reflexivity).
Qed.

Lemma Session_statement_fields config tx connPool old :
  Clauses (Session_statement config tx connPool old) = Clauses old
  /\ Vars (Session_statement config tx connPool old) = Vars old
  /\ Settings (Session_statement config tx connPool old) = Settings old
  /\ Unscoped (Session_statement config tx connPool old) = Unscoped old
  /\ Statement_DB (Session_statement config tx connPool old) = Some tx.
Proof.
  unfold Session_statement, cond.
  destruct (Session_SkipHooks config), (Session_PrepareStmt config),
    (bool_decide (is_Some (Session_Context config))); done.
Qed.

Lemma Session_statement_ConnPool config tx connPool old :
  Session_PrepareStmt config = true ->
  Statement_ConnPool (Session_statement config tx connPool old) = connPool.
Proof.
  intros H. unfold Session_statement, cond. rewrite H.
  destruct (Session_SkipHooks config), (bool_decide (is_Some (Session_Context config))); done.
Qed.

Lemma assign_shared (a b : ptr) (da db_ : DB) sp x f s :
  db_heap (mem s) !! a = Some da -> db_heap (mem s) !! b = Some db_ ->
  DB_Statement da = Some sp -> DB_Statement db_ = Some sp ->
  statement_heap (mem s) !! sp = Some x ->
  exists s', DB_assign_statement a f s = Some (tt, s')
    /\ DB_statement b s' = Some (f x, s').
Proof.
  intros Ha Hb Hsa Hsb Hx. destruct s as [[stores mc sc clk cfgs stmts dbs plugs caches] tr].
  simpl in *. unfold DB_assign_statement, bind.
  erewrite DB_statement_ptr_eq by (simpl; eauto).
  erewrite update_statement_eq by (simpl; eauto). simpl.
  eexists. split; [reflexivity|].
  eapply DB_statement_eq; simpl; eauto.
  apply list_lookup_insert_eq. by eapply lookup_lt_Some.
Qed.

Lemma assign_separate (a b : ptr) (da db_ : DB) spa spb x y f s :
  db_heap (mem s) !! a = Some da -> db_heap (mem s) !! b = Some db_ ->
  DB_Statement da = Some spa -> DB_Statement db_ = Some spb -> spa <> spb ->
  statement_heap (mem s) !! spa = Some x ->
  statement_heap (mem s) !! spb = Some y ->
  exists s', DB_assign_statement a f s = Some (tt, s')
    /\ DB_statement b s' = Some (y, s').
Proof.
  intros Ha Hb Hsa Hsb Hne Hx Hy.
  destruct s as [[stores mc sc clk cfgs stmts dbs plugs caches] tr].
  simpl in *. unfold DB_assign_statement, bind.
  erewrite DB_statement_ptr_eq by (simpl; eauto).
  erewrite update_statement_eq by (simpl; eauto). simpl.
  eexists. split; [reflexivity|].
  eapply DB_statement_eq; simpl; eauto.
  by rewrite list_lookup_insert_ne.
Qed.

Lemma Session_plain db config s d c0 sp old cache :
  db_heap (mem s) !! db = Some d ->
  config_heap (mem s) !! DB_Config d = Some c0 ->
  DB_Statement d = Some sp ->
  statement_heap (mem s) !! sp = Some old ->
  (Session_PrepareStmt config = true ->
     cache_heap (mem s) !! cacheStore c0 = Some cache
     /\ forall v, cache !! preparedStmtDBKey <> Some (CacheOther v)) ->
  Session_Initialized config = false ->
  let tx := length (db_heap (mem s)) in
  exists s' t,
    DB_Session db config s = Some (tx, s')
    /\ db_heap (mem s') !! tx = Some t
    /\ db_heap (mem s') !! db = Some d
    /\ clone t = (if Session_NewDB config then 1 else 2)
    /\ (isolating config = false ->
        DB_Statement t = Some sp
        /\ statement_heap (mem s') = statement_heap (mem s)
        /\ forall f,
             (exists s'', DB_assign_statement tx f s' = Some (tt, s'')
                /\ DB_statement db s'' = Some (f old, s''))
             /\ (exists s'', DB_assign_statement db f s' = Some (tt, s'')
                /\ DB_statement tx s'' = Some (f old, s'')))
    /\ (isolating config = true ->
        exists copy,
          DB_Statement t = Some (length (statement_heap (mem s)))
          /\ statement_heap (mem s') = statement_heap (mem s) ++ [copy]
          /\ Clauses copy = Clauses old /\ Vars copy = Vars old
          /\ Settings copy = Settings old /\ Unscoped copy = Unscoped old
          /\ Statement_DB copy = Some tx
          /\ forall f,
               (exists s'', DB_assign_statement tx f s' = Some (tt, s'')
                  /\ DB_statement db s'' = Some (old, s''))
               /\ (exists s'', DB_assign_statement db f s' = Some (tt, s'')
                  /\ DB_statement tx s'' = Some (copy, s''))).
Proof.
  intros Hd Hc Hsp Hold Hcache Hinit tx.
  rewrite (Session_run db config s d c0 sp old cache Hd Hc Hsp Hold Hcache), Hinit.
  set (m' := Session_memory config db d c0 sp old cache (mem s)).
  pose (t := mkDB (length (config_heap (mem s))) (DB_Error d) 0
               (Some (if isolating config then length (statement_heap (mem s)) else sp))
               (if Session_NewDB config then 1 else 2)).
  assert (Ht : db_heap m' !! tx = Some t) by apply lookup_snoc.
  assert (Hd' : db_heap m' !! db = Some d) by (by apply lookup_snoc_Some).
  exists (mkState m' (trace s)), t. split_and!; try done.
  - intros Hiso.
    assert (Hst : statement_heap m' = statement_heap (mem s)).
    { unfold m', Session_memory. simpl. by rewrite Hiso. }
    assert (Hts : DB_Statement t = Some sp) by (unfold t; simpl; by rewrite Hiso).
    split_and!; try done. intros f. split.
    + apply (assign_shared tx db t d sp old f); cbn [mem]; try done. by rewrite Hst.
    + apply (assign_shared db tx d t sp old f); cbn [mem]; try done. by rewrite Hst.
  - intros Hiso.
    set (copy := Session_statement config tx
                   (Session_ConnPool (Session_pool c0 cache (mem s)) c0 (Statement_ConnPool old))
                   old).
    assert (Hst : statement_heap m' = statement_heap (mem s) ++ [copy]).
    { unfold m', Session_memory. simpl. by rewrite Hiso. }
    assert (Hts : DB_Statement t = Some (length (statement_heap (mem s))))
      by (unfold t; simpl; by rewrite Hiso).
    assert (Hne : length (statement_heap (mem s)) <> sp).
    { apply lookup_lt_Some in Hold. lia. }
    destruct (Session_statement_fields config tx
                (Session_ConnPool (Session_pool c0 cache (mem s)) c0 (Statement_ConnPool old))
                old) as (? & ? & ? & ? & ?).
    exists copy. split_and!; try done. intros f. split.
    + apply (assign_separate tx db t d (length (statement_heap (mem s))) sp copy old f);
        cbn [mem]; try done; rewrite Hst.
      * apply lookup_snoc.
      * by apply lookup_snoc_Some.
    + apply (assign_separate db tx d t sp (length (statement_heap (mem s))) old copy f);
        cbn [mem]; try done; rewrite Hst.
      * by apply lookup_snoc_Some.
      * apply lookup_snoc.
Qed.

Lemma Session_initialized db config s d c0 sp old cache :
  db_heap (mem s) !! db = Some d ->
  config_heap (mem s) !! DB_Config d = Some c0 ->
  DB_Statement d = Some sp ->
  statement_heap (mem s) !! sp = Some old ->
  (Session_PrepareStmt config = true ->
     cache_heap (mem s) !! cacheStore c0 = Some cache
     /\ forall v, cache !! preparedStmtDBKey <> Some (CacheOther v)) ->
  Session_Initialized config = true ->
  let m' := Session_memory config db d c0 sp old cache (mem s) in
  let connPool := Session_ConnPool (Session_pool c0 cache (mem s)) c0 (Statement_ConnPool old) in
  let c := Session_config config connPool c0 in
  let base := if isolating config
              then Session_statement config (length (db_heap (mem s))) connPool old
              else old in
  let r := length (db_heap m') in
  let x := if Session_NewDB config then fresh_statement r c base
           else set_Statement_DB (Some r) base in
  DB_Session db config s =
  Some (r, mkState
             (set_statement_heap (statement_heap m' ++ [x])
                (set_db_heap
                   (db_heap m' ++
                      [mkDB (length (config_heap (mem s))) (DB_Error d) 0
                         (Some (length (statement_heap m'))) 0])
                   m'))
             (trace s)).
Proof.
  intros Hd Hc Hsp Hold Hcache Hinit m' connPool c base r x.
  rewrite (Session_run db config s d c0 sp old cache Hd Hc Hsp Hold Hcache), Hinit.
  pose (t := mkDB (length (config_heap (mem s))) (DB_Error d) 0
               (Some (if isolating config then length (statement_heap (mem s)) else sp))
               (if Session_NewDB config then 1 else 2)).
  assert (Ht : db_heap m' !! length (db_heap (mem s)) = Some t) by apply lookup_snoc.
  assert (Hb : statement_heap m'
                 !! (if isolating config then length (statement_heap (mem s)) else sp)
               = Some base).
  { unfold m', base, Session_memory. simpl. destruct (isolating config).
    - apply lookup_snoc.
    - done. }
  assert (Hcfg : config_heap m' !! length (config_heap (mem s)) = Some c) by apply lookup_snoc.
  destruct (getInstance_cases (length (db_heap (mem s))) (mkState m' (trace s)) t Ht)
    as (_ & Hone & Hmore).
  destruct (Session_NewDB config) eqn:Hnew.
  - subst x. eapply (Hone eq_refl); [reflexivity|exact Hb|exact Hcfg].
  - subst x. eapply (Hmore ltac:(done)); [reflexivity|exact Hb].
Qed.

(** C6 (amended).  A derivation by [Session] that does not set
    [Initialized] returns a new handle whose marker is 2, or 1 when
    [NewDB] is set.  When neither a context, nor prepare mode, nor
    hook-skipping is asked for, the handle shares the statement of its
    parent: an assignment through either is read through the other.
    Otherwise it has a copy of the statement at a new address, bound to
    the new handle, and an assignment through one is not seen through the
    other.  With [Initialized] the result is the [getInstance] of that
    handle: marker 0 and a statement of its own. *)
Theorem Session_sharing db config s d c0 sp old cache :
  db_heap (mem s) !! db = Some d ->
  config_heap (mem s) !! DB_Config d = Some c0 ->
  DB_Statement d = Some sp ->
  statement_heap (mem s) !! sp = Some old ->
  (Session_PrepareStmt config = true ->
     cache_heap (mem s) !! cacheStore c0 = Some cache
     /\ forall v, cache !! preparedStmtDBKey <> Some (CacheOther v)) ->
  let tx := length (db_heap (mem s)) in
  (Session_Initialized config = false ->
   exists s' t,
    DB_Session db config s = Some (tx, s')
    /\ db_heap (mem s') !! tx = Some t
    /\ db_heap (mem s') !! db = Some d
    /\ clone t = (if Session_NewDB config then 1 else 2)
    /\ (isolating config = false ->
        DB_Statement t = Some sp
        /\ statement_heap (mem s') = statement_heap (mem s)
        /\ forall f,
             (exists s'', DB_assign_statement tx f s' = Some (tt, s'')
                /\ DB_statement db s'' = Some (f old, s''))
             /\ (exists s'', DB_assign_statement db f s' = Some (tt, s'')
                /\ DB_statement tx s'' = Some (f old, s'')))
    /\ (isolating config = true ->
        exists copy,
          DB_Statement t = Some (length (statement_heap (mem s)))
          /\ statement_heap (mem s') = statement_heap (mem s) ++ [copy]
          /\ Clauses copy = Clauses old /\ Vars copy = Vars old
          /\ Settings copy = Settings old /\ Unscoped copy = Unscoped old
          /\ Statement_DB copy = Some tx
          /\ forall f,
               (exists s'', DB_assign_statement tx f s' = Some (tt, s'')
                  /\ DB_statement db s'' = Some (old, s''))
               /\ (exists s'', DB_assign_statement db f s' = Some (tt, s'')
                  /\ DB_statement tx s'' = Some (copy, s''))))
  /\ (Session_Initialized config = true ->
      exists s' t own,
        DB_Session db config s = Some (S tx, s')
        /\ db_heap (mem s') !! S tx = Some t
        /\ db_heap (mem s') !! db = Some d
        /\ clone t = 0
        /\ DB_Statement t = Some own
        /\ own <> sp
        /\ statement_heap (mem s') !! sp = Some old).
Proof.
  intros Hd Hc Hsp Hold Hcache tx. split.
  - intros Hinit. by apply (Session_plain db config s d c0 sp old cache).
  - intros Hinit.
    rewrite (Session_initialized db config s d c0 sp old cache Hd Hc Hsp Hold Hcache Hinit).
    set (m' := Session_memory config db d c0 sp old cache (mem s)).
    assert (Hlen : length (db_heap m') = S tx).
    { unfold m', Session_memory. simpl. rewrite length_app. simpl. unfold tx. lia. }
    assert (Hsl : (length (statement_heap (mem s)) <= length (statement_heap m'))%nat).
    { unfold m', Session_memory. simpl. destruct (isolating config); [|done].
      rewrite length_app. simpl. lia. }
    assert (Hold' : statement_heap m' !! sp = Some old).
    { unfold m', Session_memory. simpl. destruct (isolating config); [|done].
      by apply lookup_snoc_Some. }
    rewrite Hlen. eexists _, _, _. split; [reflexivity|].
    unfold set_statement_heap, set_db_heap.
    cbn [mem db_heap statement_heap clone DB_Statement]. split_and!.
    + rewrite <- Hlen. apply lookup_snoc.
    + apply lookup_snoc_Some. unfold m', Session_memory. simpl. by apply lookup_snoc_Some.
    + done.
    + done.
    + apply lookup_lt_Some in Hold. lia.
    + by apply lookup_snoc_Some.
Qed.


Lemma Session_pool_cases c0 cache m :
  (forall p, cache !! preparedStmtDBKey = Some (CachePreparedStmtDB p) ->
     Session_pool c0 cache m = p)
  /\ (cache !! preparedStmtDBKey = None ->
      Session_pool c0 cache m =
      mkPreparedStmtDB (Some (length (store_heap m))) (mutex_count m) (Config_ConnPool c0)).
Proof. unfold Session_pool. split; [intros p ->|intros ->]; done. Qed.



(** ** AddError and Use *)

Lemma errors_Is_chain_unfold e target :
  errors_Is_chain e target =
  if decide (e = target) then true
  else match e with
       | ErrWrap _ inner => errors_Is_chain inner target
       | _ => false
       end.
Proof. by destruct e. Qed.

Lemma errors_Is_chain_refl e : errors_Is_chain e e = true.
Proof. rewrite errors_Is_chain_unfold. by rewrite decide_True. Qed.

(** C8 (amended).  [AddError] with nil returns the stored error and
    changes nothing.  With an error [e] it works with [translated c e]
    (which is [e] unless [TranslateError] is set): without a stored error
    it stores that one, with a stored error [old] it stores
    [Errorf_v_w old _], whose text is the text of [old], ["; "] and the
    text of the new error and which wraps the new error; in each case it
    returns what is stored. *)
Theorem AddError_accumulates db s d c :
  db_heap (mem s) !! db = Some d ->
  config_heap (mem s) !! DB_Config d = Some c ->
  DB_AddError db None s = Some (DB_Error d, s)
  /\ (forall e,
        (DB_Error d = None ->
           DB_AddError db (Some e) s =
           Some (translated c e, mkState (with_Error db d (translated c e) (mem s)) (trace s)))
        /\ (forall old, DB_Error d = Some old ->
           DB_AddError db (Some e) s =
           Some (Some (Errorf_v_w old (translated c e)),
                 mkState (with_Error db d (Some (Errorf_v_w old (translated c e))) (mem s))
                   (trace s)))
        /\ (TranslateError c = false -> translated c e = Some e)
        /\ (forall old e',
              Error_text (Errorf_v_w old (Some e')) = Error_text old +:+ "; " +:+ Error_text e'
              /\ errors_Is (Some (Errorf_v_w old (Some e'))) e' = true)).
Proof.
  intros Hd Hc. destruct s as [[stores mc sc clk cfgs stmts dbs plugs caches] tr].
  simpl in *. split.
  - unfold DB_AddError. unfold bind. go. done.
  - intros e. split_and!.
    + intros Hnone. unfold DB_AddError. unfold bind. go. rewrite Hnone. go.
      erewrite load_db_eq
        by (simpl; apply list_lookup_insert_eq; by eapply lookup_lt_Some). done.
    + intros old Hold. unfold DB_AddError. unfold bind. go. rewrite Hold. go.
      erewrite load_db_eq
        by (simpl; apply list_lookup_insert_eq; by eapply lookup_lt_Some). done.
    + intros H. unfold translated. by rewrite H.
    + intros old e'. split; [done|]. unfold errors_Is, Errorf_v_w.
      rewrite errors_Is_chain_unfold.
      destruct (decide _); [done|by rewrite decide_True].
Qed.

(** C7.  [Use] with a plugin whose name is in the registry returns
    [ErrRegistered] and leaves the state alone: the plugin is not
    initialised.  With a new name [Initialize] is called once; when it
    fails [Use] returns its error and the memory is what [Initialize]
    left, and when it succeeds [Use] adds the one entry for that name to
    the registry as [Initialize] left it. *)
Theorem Use_registers_once db plugin s d c registry :
  db_heap (mem s) !! db = Some d ->
  config_heap (mem s) !! DB_Config d = Some c ->
  plugins_heap (mem s) !! Plugins c = Some registry ->
  let name := Plugin_Name plugin in
  let r := Plugin_Initialize plugin db (mem s) in
  let tr' := trace s ++ [EvInitialize (Plugin_id plugin) db] in
  (is_Some (registry !! name) -> DB_Use db plugin s = Some (Some ErrRegistered, s))
  /\ (registry !! name = None ->
      (forall err, r.1 = Some err ->
         DB_Use db plugin s = Some (Some err, mkState r.2 tr'))
      /\ (r.1 = None ->
          forall d' c' registry',
            db_heap r.2 !! db = Some d' ->
            config_heap r.2 !! DB_Config d' = Some c' ->
            plugins_heap r.2 !! Plugins c' = Some registry' ->
            DB_Use db plugin s =
            Some (None,
                  mkState
                    (set_plugins_heap
                       (<[Plugins c' := <[name := Plugin_id plugin]> registry']>
                          (plugins_heap r.2)) r.2)
                    tr'))).
Proof.
  intros Hd Hc Hreg name r tr'.
  destruct s as [[stores mc sc clk cfgs stmts dbs plugs caches] tr]. simpl in *.
  split.
  - intros [id Hid]. unfold DB_Use. fold name. unfold bind at 1 2. go. by rewrite Hid.
  - intros Hnone. split.
    + intros err Herr. unfold DB_Use. fold name. unfold bind at 1 2. go. rewrite Hnone.
      unfold call_Initialize. unfold bind at 1 2, emit. cbn [mem trace fst snd]. fold r.
      by rewrite Herr.
    + intros Hok d' c' registry' Hd' Hc' Hreg'.
      unfold DB_Use. fold name. unfold bind at 1 2. go. rewrite Hnone.
      unfold call_Initialize. unfold bind at 1 2, emit. cbn [mem trace fst snd]. fold r.
      rewrite Hok. unfold bind. go. unfold modify. go. done.
Qed.

(** ** The code on concrete inputs *)

Example demo_first_prepare :
  prepare demo_driver id demo_pool 0%nat (Some (SqlDB 7)) false "SELECT 1" demo_state
  = Some ((demo_stmt, None), demo_state_cached).
Proof. vm_compute. reflexivity. Qed.

Lemma non_tx_then_tx_not_distinct :
  ~ non_tx_then_tx_distinct demo_driver id demo_pool 0%nat (Some (SqlDB 7))
      (Some (ConnTx (SqlTx (Some 9%nat)))) "SELECT 1" demo_state.
Proof.
  intros H.
  edestruct H as [Hne _].
  - vm_compute. reflexivity.
  - vm_compute. reflexivity.
  - apply Hne. reflexivity.
Qed.

Lemma query_row_keeps_entry :
  ~ query_row_evicts broken_driver id demo_pool 0%nat "SELECT 1" [] demo_state.
Proof.
  intros H.
  assert (Hc : cached demo_pool "SELECT 1"
                 (mkMemory [mkLruStore 2 3600 [("SELECT 1", (demo_stmt, 0))]] 1 1 0
                    [demo_config] [demo_statement] [demo_root] [∅] [∅]) = None).
  { eapply (H (mk_sql_Row (Some ErrBadConn) None)
              (mkState _ [EvRLock 0; EvRUnlock 0; EvLock 0; EvPrepare (RawDB 7) "SELECT 1";
                          EvUnlock 0;
                          EvQueryRow (mk_sql_Stmt "SELECT 1" (RawDB 7)) []])).
    - vm_compute. reflexivity.
    - reflexivity. }
  vm_compute in Hc. discriminate.
Qed.

Lemma Session_initialized_marker_zero :
  ~ Session_marker_and_sharing 0 session_initialized demo_state.
Proof.
  intros H.
  edestruct H as [Hclone _].
  - vm_compute. reflexivity.
  - reflexivity.
  - vm_compute. reflexivity.
  - vm_compute in Hclone. discriminate.
Qed.

Lemma AddError_stores_translation :
  ~ AddError_stores_argument 0 (ErrOpaque "Error 1062") translating_state.
Proof.
  intros H.
  edestruct H as [Hr _].
  - reflexivity.
  - reflexivity.
  - vm_compute. reflexivity.
  - vm_compute. reflexivity.
  - vm_compute in Hr. discriminate.
Qed.

(** ** The theorems at concrete inputs *)

Lemma prepare_in_transaction_reuses_witness :
  prepare demo_driver id demo_pool 0%nat (Some (SqlDB 7)) false "SELECT 1" demo_state
    = Some ((demo_stmt, None), demo_state_cached)
  /\ Transaction demo_stmt = false
  /\ cached demo_pool "SELECT 1" (mem demo_state_cached) = Some demo_stmt
  /\ prepare demo_driver id demo_pool 0%nat (Some (ConnTx (SqlTx (Some 9%nat)))) true
       "SELECT 1" demo_state_cached
     = Some ((demo_stmt, Stmt_Error demo_stmt),
             mkState (looked_up demo_pool "SELECT 1" (mem demo_state_cached))
               (trace demo_state_cached ++ [EvRLock 0; EvRUnlock 0])).
Proof.
  split; [vm_compute; reflexivity|].
  destruct (prepare_in_transaction_reuses demo_driver id demo_pool 0%nat (Some (SqlDB 7))
              "SELECT 1" demo_state demo_stmt None demo_state_cached eq_refl)
    as (Htx & Hc & Hin & _).
  split; [exact Htx|]. split; [exact Hc|]. apply Hin.
Defined.

Lemma prepare_double_checked_witness :
  Stmts demo_pool = Some 0%nat
  /\ is_Some (store_heap (mem demo_state) !! 0%nat)
  /\ (exists stmt s',
        prepare demo_driver id demo_pool 0%nat (Some (SqlDB 7)) false "SELECT 1" demo_state
          = Some ((stmt, Stmt_Error stmt), s')
        /\ Transaction stmt = false
        /\ trace s' = [EvRLock 0; EvRUnlock 0; EvLock 0; EvPrepare (RawDB 7) "SELECT 1";
                       EvUnlock 0])
  /\ prepare demo_driver id demo_pool 0%nat (Some (SqlDB 7)) false "SELECT 1"
       demo_state_cached
     = Some ((demo_stmt, Stmt_Error demo_stmt),
             mkState (looked_up demo_pool "SELECT 1" (mem demo_state_cached))
               (trace demo_state_cached ++ [EvRLock 0; EvRUnlock 0])).
Proof.
  split; [reflexivity|]. split; [by eexists|]. split.
  - destruct (prepare_double_checked demo_driver id demo_pool 0%nat (Some (SqlDB 7)) false
                "SELECT 1" demo_state 0%nat eq_refl (ex_intro _ _ eq_refl))
      as [_ Hslow].
    destruct (Hslow eq_refl (ex_intro _ _ eq_refl)) as [_ Hmiss].
    destruct (Hmiss eq_refl (RawDB 7) eq_refl)
      as (stmt & s' & Hrun & Htx & _ & _ & _ & _ & Htr).
    exists stmt, s'. split; [exact Hrun|]. split; [exact Htx|exact Htr].
  - apply (prepare_double_checked demo_driver id demo_pool 0%nat (Some (SqlDB 7)) false
             "SELECT 1" demo_state_cached 0%nat eq_refl (ex_intro _ _ eq_refl)).
    reflexivity.
Defined.

Lemma pool_exec_query_eviction_witness :
  (exists s',
     PreparedStmtDB_ExecContext broken_driver id demo_pool 0%nat "SELECT 1" [] demo_state
       = Some ((None, Some ErrBadConn), s')
     /\ cached demo_pool "SELECT 1" (mem s') = None)
  /\ (exists s',
     PreparedStmtDB_QueryContext demo_driver id demo_pool 0%nat "SELECT 1" [] demo_state
       = Some ((Some [], None), s')
     /\ cached demo_pool "SELECT 1" (mem s') = Some demo_stmt).
Proof.
  split.
  - eexists. split; [vm_compute; reflexivity|].
    destruct (pool_exec_query_eviction broken_driver id demo_pool 0%nat "SELECT 1" []
                demo_state) as [Hexec _].
    edestruct Hexec as (stmt & err & s1 & Hp & Hrest); [vm_compute; reflexivity|].
    vm_compute in Hp. injection Hp as <- <- <-.
    destruct Hrest as (raw & _ & _ & _ & Hbad & _). apply Hbad. reflexivity.
  - eexists. split; [vm_compute; reflexivity|].
    destruct (pool_exec_query_eviction demo_driver id demo_pool 0%nat "SELECT 1" []
                demo_state) as (_ & Hquery & _).
    edestruct Hquery as (stmt & err & s1 & Hp & Hrest); [vm_compute; reflexivity|].
    vm_compute in Hp. injection Hp as <- <- <-.
    destruct Hrest as (raw & _ & _ & _ & _ & Hok). apply Hok. reflexivity.
Defined.

(** [Session] in prepare mode, on a handle whose statement runs on a
    transaction of a struct type, builds the wrapper around that value
    (the type switch [case Tx]); [Commit] and [Rollback] of the wrapper
    it leaves in the statement panic. *)
Lemma prepare_mode_wraps_struct_tx :
  exists r s' t own x p,
    DB_Session 0 session_prepare struct_state = Some (r, s')
    /\ db_heap (mem s') !! r = Some t
    /\ DB_Statement t = Some own
    /\ statement_heap (mem s') !! own = Some x
    /\ Statement_ConnPool x = Some (ConnTx (PreparedStmtTXp (Some (StructTx 9)) p))
    /\ PreparedStmtTX_Commit demo_driver (mkPreparedStmtTX (Some (StructTx 9)) p) s' = None
    /\ PreparedStmtTX_Rollback demo_driver (mkPreparedStmtTX (Some (StructTx 9)) p) s' = None.
Proof.
  eexists _, _, _, _, _, _. split; [vm_compute; reflexivity|].
  split; [reflexivity|]. split; [reflexivity|]. split; [reflexivity|].
  split; [reflexivity|]. split; reflexivity.
Qed.

Lemma commit_rollback_guard_witness :
  PreparedStmtTX_Commit demo_driver (mkPreparedStmtTX (Some (SqlTx None)) demo_pool) demo_state
    = Some (Some ErrInvalidTransaction, demo_state)
  /\ PreparedStmtTX_Rollback demo_driver (mkPreparedStmtTX None demo_pool) demo_state
    = Some (Some ErrInvalidTransaction, demo_state)
  /\ PreparedStmtTX_Commit broken_driver demo_tx demo_state
    = Some (Some ErrBadConn, mkState demo_memory [EvCommit 9])
  /\ PreparedStmtTX_Commit demo_driver
       (mkPreparedStmtTX (Some (PreparedStmtTXp (Some (SqlTx (Some 9%nat))) demo_pool))
          demo_pool) demo_state
    = Some (None, mkState demo_memory [EvCommit 9])
  /\ PreparedStmtTX_Commit demo_driver struct_tx demo_state = None
  /\ PreparedStmtTX_Rollback demo_driver struct_tx demo_state = None
  /\ TxObj_Commit demo_driver (StructTx 9) demo_state
    = Some (None, mkState demo_memory [EvCommit 9]).
Proof.
  split_and!.
  - destruct (commit_rollback_guard demo_driver
                (mkPreparedStmtTX (Some (SqlTx None)) demo_pool) demo_state) as (H & _).
    apply H. right. reflexivity.
  - destruct (commit_rollback_guard demo_driver (mkPreparedStmtTX None demo_pool) demo_state)
      as (H & _).
    apply H. left. reflexivity.
  - destruct (commit_rollback_guard broken_driver demo_tx demo_state) as (_ & H & _).
    apply (H 9%nat). reflexivity.
  - destruct (commit_rollback_guard demo_driver
                (mkPreparedStmtTX (Some (PreparedStmtTXp (Some (SqlTx (Some 9%nat))) demo_pool))
                   demo_pool) demo_state) as (_ & _ & H & _).
    destruct (H (Some (SqlTx (Some 9%nat))) demo_pool eq_refl) as (-> & _).
    reflexivity.
  - destruct (commit_rollback_guard demo_driver struct_tx demo_state) as (_ & _ & _ & H & _).
    apply (H 9%nat). reflexivity.
  - destruct (commit_rollback_guard demo_driver struct_tx demo_state) as (_ & _ & _ & H & _).
    apply (H 9%nat). reflexivity.
  - destruct (commit_rollback_guard demo_driver struct_tx demo_state) as (_ & _ & _ & H & _).
    apply (H 9%nat). reflexivity.
Defined.

Lemma wrappers_flag_and_connection_witness :
  (exists r s',
     PreparedStmtTX_ExecContext demo_driver id demo_tx 0%nat "SELECT 1" [] demo_state
       = Some (r, s')
     /\ trace s' = [EvRLock 0; EvRUnlock 0; EvLock 0; EvPrepare (RawTx 9) "SELECT 1";
                    EvUnlock 0;
                    EvStmtContext 9 (mk_sql_Stmt "SELECT 1" (RawTx 9));
                    EvExec (mk_sql_Stmt "SELECT 1" (RawTx 9)) []])
  /\ (exists stmt err s1 evs,
     prepare demo_driver id demo_pool 0%nat (Some (ConnTx (SqlTx (Some 9%nat)))) true
       "SELECT 1" demo_state = Some ((stmt, err), s1)
     /\ trace s1 = trace demo_state ++ evs
     /\ compiled_at_most (Some (ConnTx (SqlTx (Some 9%nat)))) true "SELECT 1" stmt evs)
  /\ (exists stmt err s1 evs,
     prepare demo_driver id demo_pool 0%nat (Some (SqlDB 7)) false
       "SELECT 1" demo_state = Some ((stmt, err), s1)
     /\ trace s1 = trace demo_state ++ evs
     /\ compiled_at_most (Some (SqlDB 7)) false "SELECT 1" stmt evs)
  /\ (exists row s',
     PreparedStmtTX_QueryRowContext demo_driver id demo_tx 0%nat "SELECT 1" [] demo_state
       = Some (row, s')
     /\ exists stmt s1 evs,
       prepare demo_driver id demo_pool 0%nat (Some (ConnTx (SqlTx (Some 9%nat)))) true
         "SELECT 1" demo_state = Some ((stmt, None), s1)
       /\ trace s1 = trace demo_state ++ evs
       /\ compiled_at_most (Some (ConnTx (SqlTx (Some 9%nat)))) true "SELECT 1" stmt evs
       /\ trace s' = trace s1 ++ [EvStmtContext 9 (mk_sql_Stmt "SELECT 1" (RawTx 9));
                                   EvQueryRow (mk_sql_Stmt "SELECT 1" (RawTx 9)) []])
  /\ (exists row s',
     PreparedStmtDB_QueryRowContext demo_driver id demo_pool 0%nat "SELECT 1" [] demo_state
       = Some (row, s')
     /\ exists stmt s1 evs,
       prepare demo_driver id demo_pool 0%nat (Some (SqlDB 7)) false
         "SELECT 1" demo_state = Some ((stmt, None), s1)
       /\ trace s1 = trace demo_state ++ evs
       /\ compiled_at_most (Some (SqlDB 7)) false "SELECT 1" stmt evs
       /\ trace s' = trace s1 ++ [EvQueryRow (mk_sql_Stmt "SELECT 1" (RawDB 7)) []]).
Proof.
  split_and!.
  - eexists _, _. split; [vm_compute; reflexivity|]. reflexivity.
  - destruct (wrappers_flag_and_connection demo_driver id demo_tx demo_pool 0%nat
                "SELECT 1" [] demo_state) as (Htx & _).
    edestruct Htx as (stmt & err & s1 & evs & Hp & Htr & Hev & _); [vm_compute; reflexivity|].
    exists stmt, err, s1, evs. split; [exact Hp|]. split; [exact Htr|exact Hev].
  - destruct (wrappers_flag_and_connection demo_driver id demo_tx demo_pool 0%nat
                "SELECT 1" [] demo_state) as (_ & _ & Hdb & _).
    edestruct Hdb as (stmt & err & s1 & evs & Hp & Htr & Hev & _); [vm_compute; reflexivity|].
    exists stmt, err, s1, evs. split; [exact Hp|]. split; [exact Htr|exact Hev].
  - destruct (wrappers_flag_and_connection demo_driver id demo_tx demo_pool 0%nat
                "SELECT 1" [] demo_state) as (_ & _ & _ & _ & Hrow & _).
    eexists _, _. split; [vm_compute; reflexivity|].
    edestruct Hrow as (stmt & err & s1 & evs & Hp & Htr & Hev & Hrest);
      [vm_compute; reflexivity|].
    assert (Herr : err = None) by (vm_compute in Hp; congruence). subst err.
    destruct Hrest as (raw & n & Hraw & Hn & _ & _ & Hrun).
    injection Hn as <-.
    assert (Hr : raw = mk_sql_Stmt "SELECT 1" (RawTx 9)).
    { vm_compute in Hp. injection Hp as <- <-. vm_compute in Hraw. congruence. }
    subst raw.
    exists stmt, s1, evs. split_and!; [exact Hp|exact Htr|exact Hev|exact Hrun].
  - destruct (wrappers_flag_and_connection demo_driver id demo_tx demo_pool 0%nat
                "SELECT 1" [] demo_state) as (_ & _ & _ & _ & _ & Hrow & _).
    eexists _, _. split; [vm_compute; reflexivity|].
    edestruct Hrow as (stmt & err & s1 & evs & Hp & Htr & Hev & Hrest);
      [vm_compute; reflexivity|].
    assert (Herr : err = None) by (vm_compute in Hp; congruence). subst err.
    destruct Hrest as (raw & Hraw & _ & Hrun).
    assert (Hr : raw = mk_sql_Stmt "SELECT 1" (RawDB 7)).
    { vm_compute in Hp. injection Hp as <- <-. vm_compute in Hraw. congruence. }
    subst raw.
    exists stmt, s1, evs. split_and!; [exact Hp|exact Htr|exact Hev|exact Hrun].
Defined.

Lemma Session_sharing_witness :
  db_heap (mem demo_state) !! 0%nat = Some demo_root
  /\ config_heap (mem demo_state) !! DB_Config demo_root = Some demo_config
  /\ DB_Statement demo_root = Some 0%nat
  /\ statement_heap (mem demo_state) !! 0%nat = Some demo_statement
  /\ (exists s' t,
        DB_Session 0 session_plain demo_state = Some (1%nat, s')
        /\ db_heap (mem s') !! 1%nat = Some t
        /\ clone t = 2
        /\ DB_Statement t = Some 0%nat)
  /\ (exists s' t own,
        DB_Session 0 session_initialized demo_state = Some (2%nat, s')
        /\ db_heap (mem s') !! 2%nat = Some t
        /\ clone t = 0
        /\ DB_Statement t = Some own /\ own <> 0%nat).
Proof.
  split; [reflexivity|]. split; [reflexivity|]. split; [reflexivity|].
  split; [reflexivity|]. split.
  - destruct (Session_sharing 0 session_plain demo_state demo_root demo_config 0%nat
                demo_statement ∅ eq_refl eq_refl eq_refl eq_refl
                ltac:(discriminate))
      as [Hplain _].
    destruct (Hplain eq_refl) as (s' & t & Hrun & Ht & _ & Hclone & Hshare & _).
    exists s', t. split; [exact Hrun|]. split; [exact Ht|]. split; [exact Hclone|].
    exact (proj1 (Hshare eq_refl)).
  - destruct (Session_sharing 0 session_initialized demo_state demo_root demo_config 0%nat
                demo_statement ∅ eq_refl eq_refl eq_refl eq_refl
                ltac:(discriminate))
      as [_ Hinit].
    destruct (Hinit eq_refl) as (s' & t & own & Hrun & Ht & _ & Hclone & Hown & Hne & _).
    exists s', t, own. split; [exact Hrun|]. split; [exact Ht|]. split; [exact Hclone|].
    split; [exact Hown|exact Hne].
Defined.

Lemma Use_registers_once_witness :
  db_heap (mem demo_state) !! 0%nat = Some demo_root
  /\ config_heap (mem demo_state) !! DB_Config demo_root = Some demo_config
  /\ plugins_heap (mem demo_state) !! Plugins demo_config = Some ∅
  /\ DB_Use 0 demo_plugin demo_state
     = Some (None,
             mkState
               (set_plugins_heap [{[ "dbresolver" := 1%nat ]}] demo_memory)
               [EvInitialize 1 0])
  /\ DB_Use 0 failing_plugin demo_state
     = Some (Some (ErrOpaque "no exporter"), mkState demo_memory [EvInitialize 2 0])
  /\ DB_Use 0 demo_plugin
       (mkState (set_plugins_heap [{[ "dbresolver" := 5%nat ]}] demo_memory) [])
     = Some (Some ErrRegistered,
             mkState (set_plugins_heap [{[ "dbresolver" := 5%nat ]}] demo_memory) []).
Proof.
  split; [reflexivity|]. split; [reflexivity|]. split; [reflexivity|].
  split; [|split].
  - destruct (Use_registers_once 0 demo_plugin demo_state demo_root demo_config ∅
                eq_refl eq_refl eq_refl) as [_ Hnew].
    destruct (Hnew eq_refl) as [_ Hok].
    exact (Hok eq_refl demo_root demo_config ∅ eq_refl eq_refl eq_refl).
  - destruct (Use_registers_once 0 failing_plugin demo_state demo_root demo_config ∅
                eq_refl eq_refl eq_refl) as [_ Hnew].
    destruct (Hnew eq_refl) as [Hfail _].
    exact (Hfail _ eq_refl).
  - destruct (Use_registers_once 0 demo_plugin
                (mkState (set_plugins_heap [{[ "dbresolver" := 5%nat ]}] demo_memory) [])
                demo_root demo_config {[ "dbresolver" := 5%nat ]} eq_refl eq_refl eq_refl)
      as [Hdup _].
    apply Hdup. by eexists.
Defined.

Lemma AddError_accumulates_witness :
  db_heap (mem translating_state) !! 0%nat = Some demo_root
  /\ config_heap (mem translating_state) !! DB_Config demo_root = Some translating_config
  /\ DB_AddError 0 None translating_state = Some (None, translating_state)
  /\ (exists s', DB_AddError 0 (Some (ErrOpaque "Error 1062")) translating_state
        = Some (Some (ErrOpaque "duplicated key not allowed"), s'))
  /\ (exists s', DB_AddError 0 (Some ErrInvalidDB) demo_state = Some (Some ErrInvalidDB, s')).
Proof.
  split; [reflexivity|]. split; [reflexivity|]. split; [|split].
  - apply (AddError_accumulates 0 translating_state demo_root translating_config
             eq_refl eq_refl).
  - eexists.
    apply (AddError_accumulates 0 translating_state demo_root translating_config
             eq_refl eq_refl). reflexivity.
  - eexists.
    apply (AddError_accumulates 0 demo_state demo_root demo_config eq_refl eq_refl).
    reflexivity.
Defined.


Lemma getInstance_idempotent_witness :
  db_heap (mem demo_state) !! 0%nat = Some demo_root
  /\ (exists s',
        DB_getInstance 0 demo_state = Some (1%nat, s')
        /\ DB_getInstance 1 s' = Some (1%nat, s')
        /\ exists t, db_heap (mem s') !! 1%nat = Some t /\ clone t = 0).
Proof.
  split; [reflexivity|].
  destruct (getInstance_idempotent 0 demo_state demo_root eq_refl) as (Hidem & _ & Hone & _).
  destruct (Hone eq_refl 0%nat demo_statement demo_config eq_refl eq_refl eq_refl)
    as (_ & _ & Hrun).
  eexists. split; [exact Hrun|].
  destruct (Hidem ltac:(done) _ _ Hrun) as [Hzero Hagain].
  split; [exact Hagain|exact Hzero].
Defined.

(** ** Close and Reset *)

Lemma lru_delete_all_entries keys s :
  entries (lru_delete_all keys s) = filter (fun e => e.1 ∉ keys) (entries s)
  /\ maxSize (lru_delete_all keys s) = maxSize s
  /\ ttl (lru_delete_all keys s) = ttl s.
Proof.
  revert s. induction keys as [|k keys IH]; intros s; simpl.
  - split; [|done]. induction (entries s) as [|e es IHes]; [done|].
    rewrite filter_cons. rewrite decide_True by apply not_elem_of_nil. by f_equal.
  - destruct (IH (lru_Delete k s)) as (He & Hm & Ht). rewrite He, Hm, Ht. simpl.
    split; [|done]. unfold lru_remove. induction (entries s) as [|e es IHes]; [done|].
    rewrite !filter_cons. destruct (decide (e.1 <> k)) as [Hne|Heq].
    + rewrite filter_cons. destruct (decide (e.1 ∉ keys)) as [Hn|Hn].
      * rewrite decide_True by (rewrite not_elem_of_cons; done). by f_equal.
      * rewrite decide_False; [done|]. intros H. apply Hn. rewrite not_elem_of_cons in H. tauto.
    + rewrite decide_False; [done|]. intros H. rewrite not_elem_of_cons in H. tauto.
Qed.

Lemma lru_delete_all_Keys s :
  lru_delete_all (lru_Keys s) s = mkLruStore (maxSize s) (ttl s) [].
Proof.
  destruct (lru_delete_all_entries (lru_Keys s) s) as (He & Hm & Ht).
  destruct (lru_delete_all (lru_Keys s) s) as [m t es]. simpl in *. subst. f_equal.
  unfold lru_Keys.
  assert (H : forall l : list (string * (Stmt * Z)), (forall e, e ∈ l -> e.1 ∈ (entries s).*1)
            -> filter (fun e => e.1 ∉ (entries s).*1) l = []).
  { induction l as [|e l IH]; [done|]. intros Hall. rewrite filter_cons.
    rewrite decide_False.
    - apply IH. intros e' He'. apply Hall. by right.
    - intros Hn. apply Hn, Hall. by left. }
  apply H. intros e He. by apply list_elem_of_fmap_2.
Qed.

Lemma delete_loop st keys s S :
  store_heap (mem s) !! st = Some S ->
  foldr (fun key k => Store_Delete st key ;; k) (ret tt) keys s =
  Some (tt, mkState (set_store_heap (<[st := lru_delete_all keys S]> (store_heap (mem s))) (mem s))
              (trace s)).
Proof.
  revert s S. induction keys as [|k keys IH]; intros s S HS; simpl.
  - unfold ret. rewrite list_insert_id by done. by destruct s as [[] ?].
  - unfold bind at 1. unfold Store_Delete. unfold bind at 1 2, gets, deref, modify, ret.
    cbn [mem trace]. rewrite HS. cbn [mem trace].
    erewrite IH; cycle 1.
    { simpl. apply list_lookup_insert_eq. by eapply lookup_lt_Some. }
    simpl. by rewrite list_insert_insert_eq.
Qed.

Section CloseFacts.

Context (drv : Driver) (others : Memory -> Memory).

Lemma Close_run db st S s :
  Stmts db = Some st -> store_heap (mem s) !! st = Some S ->
  PreparedStmtDB_Close db s =
  Some (tt, mkState (closed db (mem s)) (trace s ++ [EvLock (Mux db); EvUnlock (Mux db)])).
Proof.
  intros Hst HS. unfold PreparedStmtDB_Close, closed. rewrite Hst, HS.
  unfold bind at 1, Lock, emit. unfold bind at 1, deref, ret.
  unfold bind at 1, Store_Keys. unfold bind at 1 2, gets, deref, ret. cbn [mem trace].
  rewrite HS. unfold bind at 1.
  erewrite delete_loop by (simpl; eauto). unfold Unlock, emit. cbn [mem trace].
  rewrite lru_delete_all_Keys. by rewrite <- app_assoc.
Qed.


Lemma cached_closed db q m : cached db q (closed db m) = None.
Proof.
  unfold cached, closed. destruct (Stmts db) as [st|]; [|done].
  destruct (store_heap m !! st) as [S|] eqn:HS; [|by rewrite HS].
  simpl. rewrite list_lookup_insert_eq by (by eapply lookup_lt_Some). done.
Qed.

Lemma looked_up_miss db q m : cached db q m = None -> looked_up db q m = m.
Proof.
  unfold cached, looked_up. destruct (Stmts db) as [st|]; [|done].
  destruct (store_heap m !! st) as [S|] eqn:HS; [|done].
  unfold lru_peek, lru_Get. destruct (lru_find q (entries S)) as [[stmt born]|].
  - destruct (clock m - born <=? Z.pos (ttl S)); [done|].
    intros _. simpl. rewrite list_insert_id by done. by destruct m.
  - intros _. simpl. rewrite list_insert_id by done. by destruct m.
Qed.

(** X1.  [Close] on a pool without a store panics.  On a pool whose store
    exists, [Close] (and [Reset], which is [Close]) returns after taking
    and releasing the write lock of the pool, and leaves that store
    without any key, so that no template is cached any more; the size and
    the time-to-live of the store, the other stores and every other part
    of the memory are as before. *)
Theorem Close_empties_store db s :
  (Stmts db = None -> PreparedStmtDB_Close db s = None)
  /\ (forall st S,
        Stmts db = Some st -> store_heap (mem s) !! st = Some S ->
        exists s',
          PreparedStmtDB_Close db s = Some (tt, s')
          /\ PreparedStmtDB_Reset db s = Some (tt, s')
          /\ trace s' = trace s ++ [EvLock (Mux db); EvUnlock (Mux db)]
          /\ store_heap (mem s') = <[st := mkLruStore (maxSize S) (ttl S) []]> (store_heap (mem s))
          /\ Store_Keys st s' = Some ([], s')
          /\ (forall q, cached db q (mem s') = None)
          /\ stmt_count (mem s') = stmt_count (mem s)
          /\ config_heap (mem s') = config_heap (mem s)
          /\ statement_heap (mem s') = statement_heap (mem s)
          /\ db_heap (mem s') = db_heap (mem s)
          /\ cache_heap (mem s') = cache_heap (mem s)).
Proof.
  split.
  - intros Hst. unfold PreparedStmtDB_Close. by rewrite Hst.
  - intros st S Hst HS. eexists. unfold PreparedStmtDB_Reset.
    rewrite (Close_run db st S s Hst HS).
    split; [reflexivity|]. split; [reflexivity|]. cbn [mem trace].
    assert (Hm : closed db (mem s)
                 = set_store_heap (<[st := mkLruStore (maxSize S) (ttl S) []]> (store_heap (mem s)))
                     (mem s)).
    { unfold closed. by rewrite Hst, HS. }
    split_and!; try done; try (rewrite Hm; done).
    + unfold Store_Keys, bind, gets, deref, ret. cbn [mem]. rewrite Hm. simpl.
      rewrite list_lookup_insert_eq by (by eapply lookup_lt_Some). done.
    + intros q. apply cached_closed.
Qed.

(** X2.  After [Close], a request for a template on a connection that is
    not nil compiles the template again, whatever was cached before, as
    long as no other goroutine stores the template between the two
    lookups of [prepare]: the statement is new, tagged with the flag of
    the request, and cached under the template. *)
Theorem Close_then_prepare_compiles db st S ctx conn isTx q rc s :
  Stmts db = Some st -> store_heap (mem s) !! st = Some S ->
  ConnPool_target conn = Some rc ->
  let mu := Mux db in
  let s1 := mkState (closed db (mem s)) (trace s ++ [EvLock mu; EvUnlock mu]) in
  cached db q (others (mem s1)) = None ->
  is_Some (store_heap (others (mem s1)) !! st) ->
  PreparedStmtDB_Close db s = Some (tt, s1)
  /\ exists stmt s2,
       prepare drv others db ctx conn isTx q s1 = Some ((stmt, Stmt_Error stmt), s2)
       /\ trace s2 = trace s1 ++ [EvRLock mu; EvRUnlock mu; EvLock mu; EvPrepare rc q; EvUnlock mu]
       /\ Stmt_addr stmt = stmt_count (others (mem s1))
       /\ Transaction stmt = isTx
       /\ cached db q (mem s2) = Some stmt.
Proof.
  intros Hst HS Hrc mu s1 Hothers HS2.
  split; [by apply (Close_run db st S s)|].
  assert (Hc1 : cached db q (mem s1) = None) by apply cached_closed.
  assert (Hl : looked_up db q (mem s1) = mem s1) by (by apply looked_up_miss).
  assert (HS1 : is_Some (store_heap (mem s1) !! st)).
  { simpl. unfold closed. rewrite Hst, HS. simpl.
    rewrite list_lookup_insert_eq by (by eapply lookup_lt_Some). done. }
  destruct (prepare_cases drv others db ctx conn isTx q s1 st Hst HS1) as [_ Hslow].
  rewrite Hl in Hslow.
  assert (Hcu1 : cached_usable db isTx q (mem s1) = None).
  { unfold cached_usable. by rewrite Hc1. }
  assert (Hcu2 : cached_usable db isTx q (others (mem s1)) = None).
  { unfold cached_usable. by rewrite Hothers. }
  destruct (Hslow Hcu1 HS2) as [_ Hmiss].
  destruct (Hmiss Hcu2 rc Hrc) as (stmt & s2 & Hrun & Htx & Haddr & _ & _ & Hc & Htr).
  exists stmt, s2. done.
Qed.

End CloseFacts.

(** ** The transactional wrapper and the rows of a query *)

Section WrapperFacts.
Context (drv : Driver) (others : Memory -> Memory).

(** X3.  [ExecContext] and [QueryContext] of the transactional wrapper
    return a compile error of [prepare] as it is, without running
    anything.  Otherwise they run the statement that [StmtContext] bound
    to the transaction and return the result and error of the driver
    unchanged; when that error is or wraps [driver.ErrBadConn] the
    template has been deleted from the store of the pool, which the pool
    and every other wrapper share, and for every other outcome the memory
    is what [prepare] left.  Both calls return whenever [prepare_ready]
    holds. *)
Theorem tx_exec_query_eviction (tx : PreparedStmtTX) ctx q args s :
  let db := PreparedStmtTX_PreparedStmtDB tx in
  let conn := Tx_as_ConnPool (PreparedStmtTX_Tx tx) in
  (forall r s',
     PreparedStmtTX_ExecContext drv others tx ctx q args s = Some (r, s') ->
     exists stmt err s1,
       prepare drv others db ctx conn true q s = Some ((stmt, err), s1)
       /\ match err with
          | Some e => r = (None, Some e) /\ s' = s1
          | None =>
              exists id raw, Tx_target (PreparedStmtTX_Tx tx) = Some id
                /\ Stmt_Stmt stmt = Some raw
                /\ r = drv_exec drv (trace s1 ++ [EvStmtContext id raw])
                         (mk_sql_Stmt (stmt_query raw) (RawTx id)) args
                /\ (errors_Is r.2 ErrBadConn = true ->
                      mem s' = evicted db q (mem s1) /\ cached db q (mem s') = None)
                /\ (errors_Is r.2 ErrBadConn = false ->
                      mem s' = mem s1 /\ cached db q (mem s') = Some stmt)
          end)
  /\ (forall r s',
     PreparedStmtTX_QueryContext drv others tx ctx q args s = Some (r, s') ->
     exists stmt err s1,
       prepare drv others db ctx conn true q s = Some ((stmt, err), s1)
       /\ match err with
          | Some e => r = (None, Some e) /\ s' = s1
          | None =>
              exists id raw, Tx_target (PreparedStmtTX_Tx tx) = Some id
                /\ Stmt_Stmt stmt = Some raw
                /\ r = drv_query drv (trace s1 ++ [EvStmtContext id raw])
                         (mk_sql_Stmt (stmt_query raw) (RawTx id)) args
                /\ (errors_Is r.2 ErrBadConn = true ->
                      mem s' = evicted db q (mem s1) /\ cached db q (mem s') = None)
                /\ (errors_Is r.2 ErrBadConn = false ->
                      mem s' = mem s1 /\ cached db q (mem s') = Some stmt)
          end)
  /\ (prepare_ready others db conn q (mem s) ->
      (exists r s', PreparedStmtTX_ExecContext drv others tx ctx q args s = Some (r, s'))
      /\ (exists r s', PreparedStmtTX_QueryContext drv others tx ctx q args s = Some (r, s'))).
Proof.
  intros db conn. split; [|split];
    [intros r s' Hrun | intros r s' Hrun | exact (tx_exec_query_total drv others tx ctx q args s)].
  - apply bind_Some in Hrun as ([stmt err] & s1 & Hp & Hrun).
    exists stmt, err, s1. split; [done|].
    destruct (prepare_inv _ _ _ _ _ _ _ _ _ _ _ Hp) as (st & evs & Hst & HS & _ & Hc & _).
    simpl in Hrun. destruct err as [e|].
    { injection Hrun as <- <-. done. }
    apply bind_Some in Hrun as (b & s2 & Hb & Hrun).
    apply Tx_StmtContext_spec in Hb as (id & raw & Hid & Hraw & -> & ->).
    apply bind_Some in Hrun as (r' & s3 & Hx & Hrun).
    apply sql_Stmt_ExecContext_spec in Hx as (raw' & [= <-] & -> & ->).
    apply bind_Some in Hrun as ([] & s4 & Hev & [= <- <-]).
    apply (evict_when_bad_conn db st) in Hev as (Htr & Hbad & Hok); [|done..].
    exists id, raw. split_and!; try done.
    + intros Hb. rewrite (Hbad Hb). simpl. by rewrite cached_evicted.
    + intros Hb. by rewrite (Hok Hb).
  - apply bind_Some in Hrun as ([stmt err] & s1 & Hp & Hrun).
    exists stmt, err, s1. split; [done|].
    destruct (prepare_inv _ _ _ _ _ _ _ _ _ _ _ Hp) as (st & evs & Hst & HS & _ & Hc & _).
    simpl in Hrun. destruct err as [e|].
    { injection Hrun as <- <-. done. }
    apply bind_Some in Hrun as (b & s2 & Hb & Hrun).
    apply Tx_StmtContext_spec in Hb as (id & raw & Hid & Hraw & -> & ->).
    apply bind_Some in Hrun as (r' & s3 & Hx & Hrun).
    apply sql_Stmt_QueryContext_spec in Hx as (raw' & [= <-] & -> & ->).
    apply bind_Some in Hrun as ([] & s4 & Hev & [= <- <-]).
    apply (evict_when_bad_conn db st) in Hev as (Htr & Hbad & Hok); [|done..].
    exists id, raw. split_and!; try done.
    + intros Hb. rewrite (Hbad Hb). simpl. by rewrite cached_evicted.
    + intros Hb. by rewrite (Hok Hb).
Qed.

(** X4.  [QueryRowContext] of the pool and of the transactional wrapper
    never write to the store: the memory after the call is the memory
    that [prepare] left, whatever error the row carries.  When [prepare]
    fails the error is dropped: the result is the empty row and the
    driver is not called.  Otherwise the row is that of the driver, for
    the cached statement or, in the wrapper, for the statement bound to
    the transaction.  Both calls return whenever [prepare_ready] holds. *)
Theorem query_row_never_evicts db (tx : PreparedStmtTX) ctx q args s :
  (forall row s',
     PreparedStmtDB_QueryRowContext drv others db ctx q args s = Some (row, s') ->
     exists stmt err s1,
       prepare drv others db ctx (PreparedStmtDB_ConnPool db) false q s = Some ((stmt, err), s1)
       /\ mem s' = mem s1
       /\ match err with
          | Some _ => row = empty_Row /\ s' = s1
          | None =>
              exists raw, Stmt_Stmt stmt = Some raw
                /\ row = drv_queryrow drv (trace s1) raw args
                /\ trace s' = trace s1 ++ [EvQueryRow raw args]
          end)
  /\ (forall row s',
     PreparedStmtTX_QueryRowContext drv others tx ctx q args s = Some (row, s') ->
     exists stmt err s1,
       prepare drv others (PreparedStmtTX_PreparedStmtDB tx) ctx
         (Tx_as_ConnPool (PreparedStmtTX_Tx tx)) true q s = Some ((stmt, err), s1)
       /\ mem s' = mem s1
       /\ match err with
          | Some _ => row = empty_Row /\ s' = s1
          | None =>
              exists id raw, Tx_target (PreparedStmtTX_Tx tx) = Some id
                /\ Stmt_Stmt stmt = Some raw
                /\ row = drv_queryrow drv (trace s1 ++ [EvStmtContext id raw])
                           (mk_sql_Stmt (stmt_query raw) (RawTx id)) args
                /\ trace s' = trace s1 ++ [EvStmtContext id raw;
                                 EvQueryRow (mk_sql_Stmt (stmt_query raw) (RawTx id)) args]
          end)
  /\ (prepare_ready others db (PreparedStmtDB_ConnPool db) q (mem s) ->
      exists row s', PreparedStmtDB_QueryRowContext drv others db ctx q args s = Some (row, s'))
  /\ (prepare_ready others (PreparedStmtTX_PreparedStmtDB tx)
        (Tx_as_ConnPool (PreparedStmtTX_Tx tx)) q (mem s) ->
      exists row s', PreparedStmtTX_QueryRowContext drv others tx ctx q args s = Some (row, s')).
Proof.
  split_and!; [intros row s' Hrun | intros row s' Hrun
              | apply (query_row_total drv others db tx ctx q args s)
              | apply (query_row_total drv others db tx ctx q args s)].
  - apply bind_Some in Hrun as ([stmt err] & s1 & Hp & Hrun).
    exists stmt, err, s1. split; [done|].
    destruct (prepare_inv _ _ _ _ _ _ _ _ _ _ _ Hp) as (st & evs & Hst & HS & _ & Hc & _).
    simpl in Hrun. destruct err as [e|].
    { injection Hrun as <- <-. done. }
    apply sql_Stmt_QueryRowContext_spec in Hrun as (raw & Hraw & -> & ->).
    split_and!; try done. by exists raw.
  - apply bind_Some in Hrun as ([stmt err] & s1 & Hp & Hrun).
    exists stmt, err, s1. split; [done|].
    destruct (prepare_inv _ _ _ _ _ _ _ _ _ _ _ Hp) as (st & evs & Hst & HS & _ & Hc & _).
    simpl in Hrun. destruct err as [e|].
    { injection Hrun as <- <-. done. }
    apply bind_Some in Hrun as (b & s2 & Hb & Hrun).
    apply Tx_StmtContext_spec in Hb as (id & raw & Hid & Hraw & -> & ->).
    apply sql_Stmt_QueryRowContext_spec in Hrun as (raw' & [= <-] & -> & ->).
    split_and!; try done. exists id, raw. split_and!; try done.
    simpl. by rewrite <- app_assoc.
Qed.


Lemma evict_when_total db st q (err : option error) s :
  Stmts db = Some st -> is_Some (store_heap (mem s) !! st) ->
  exists s', when (errors_Is err ErrBadConn)
               (st' <- deref (Stmts db) ;; Store_Delete st' q)%go s = Some (tt, s')
    /\ trace s' = trace s.
Proof.
  intros Hst HS. unfold when. destruct (errors_Is err ErrBadConn).
  - rewrite (Delete_spec db st) by done. by eexists.
  - by eexists.
Qed.

(** X5.  A statement that the pool compiled is reused inside a
    transaction: after [ExecContext] of the pool has returned without
    error, [ExecContext] of a transactional wrapper of the same pool, for
    the same template, compiles nothing; under the read lock it finds the
    statement that the pool ran, binds it to the transaction with
    [StmtContext] and runs it there. *)
Theorem pool_statement_reused_in_transaction db (tx : PreparedStmtTX) ctx ctx' q args args'
    s res s1 id :
  PreparedStmtTX_PreparedStmtDB tx = db ->
  Tx_target (PreparedStmtTX_Tx tx) = Some id ->
  PreparedStmtDB_ExecContext drv others db ctx q args s = Some ((res, None), s1) ->
  let mu := Mux db in
  exists raw s2,
    is_Some (cached db q (mem s1))
    /\ (exists tr, trace s1 = tr ++ [EvExec raw args])
    /\ PreparedStmtTX_ExecContext drv others tx ctx' q args' s1 =
       Some (drv_exec drv (trace s1 ++ [EvRLock mu; EvRUnlock mu; EvStmtContext id raw])
               (mk_sql_Stmt (stmt_query raw) (RawTx id)) args', s2)
    /\ trace s2 = trace s1 ++ [EvRLock mu; EvRUnlock mu; EvStmtContext id raw;
                               EvExec (mk_sql_Stmt (stmt_query raw) (RawTx id)) args']
    /\ filter is_EvPrepare (trace s2) = filter is_EvPrepare (trace s1).
Proof.
  intros Hdb Hid Hrun mu.
  apply bind_Some in Hrun as ([stmt err] & s0 & Hp & Hrun).
  destruct (prepare_inv _ _ _ _ _ _ _ _ _ _ _ Hp)
    as (st & evs & Hst & HS & Herr & Hc & Hu & _).
  simpl in Hrun. destruct err as [e|]; [done|].
  apply bind_Some in Hrun as (r' & s3 & Hx & Hrun).
  apply sql_Stmt_ExecContext_spec in Hx as (raw & Hraw & -> & ->).
  apply bind_Some in Hrun as ([] & s4 & Hev & Hret).
  injection Hret as Hres Hs4. subst s4.
  apply (evict_when_bad_conn db st) in Hev as (Htr & _ & Hok); [|done..].
  assert (Herr0 : (drv_exec drv (trace s0) raw args).2 = None) by (by rewrite Hres).
  rewrite Herr0 in Hok. specialize (Hok eq_refl). simpl in Hok, Htr.
  assert (Hc1 : cached db q (mem s1) = Some stmt) by (by rewrite Hok).
  set (bound := mk_sql_Stmt (stmt_query raw) (RawTx id)).
  set (sA := mkState (looked_up db q (mem s1)) (trace s1 ++ [EvRLock mu; EvRUnlock mu])).
  set (sB := mkState (mem sA) (trace sA ++ [EvStmtContext id raw])).
  set (sC := mkState (mem sB) (trace sB ++ [EvExec bound args'])).
  assert (HA : prepare drv others db ctx' (Tx_as_ConnPool (PreparedStmtTX_Tx tx)) true q s1
               = Some ((stmt, None), sA)).
  { rewrite (prepare_hit drv others db ctx' _ true q s1 stmt Hc1 (usable_true stmt)).
    by rewrite <- Herr. }
  assert (HB : Tx_StmtContext (PreparedStmtTX_Tx tx) ctx' (Some raw) sA = Some (Some bound, sB)).
  { unfold Tx_StmtContext, bind, deref. by rewrite Hid. }
  assert (HC : sql_Stmt_ExecContext drv (Some bound) ctx' args' sB
               = Some (drv_exec drv (trace sB) bound args', sC)) by done.
  assert (HS1 : is_Some (store_heap (mem sC) !! st)).
  { apply store_looked_up; [done|]. by rewrite Hok. }
  destruct (evict_when_total db st q (drv_exec drv (trace sB) bound args').2 sC Hst HS1)
    as (s5 & Hw & Htr5).
  exists raw, s5. split_and!.
  - by rewrite Hc1.
  - exists (trace s0). done.
  - unfold PreparedStmtTX_ExecContext. rewrite Hdb. unfold bind in Hw |- *.
    rewrite HA. cbn [fst snd]. rewrite Hraw, HB, HC, Hw.
    unfold sB, sA. cbn [trace]. by rewrite <- app_assoc.
  - rewrite Htr5. unfold sC, sB, sA. cbn [trace]. by rewrite <- !app_assoc.
  - rewrite Htr5. unfold sC, sB, sA. cbn [trace]. rewrite !filter_app. simpl.
    by rewrite !app_nil_r.
Qed.

End WrapperFacts.

(** ** The database behind a pool, Ping and BeginTx *)

Lemma GetDBConn_cases :
  forall db,
    PreparedStmtDB_GetDBConn db = (None, Some ErrInvalidDB)
    \/ PreparedStmtDB_GetDBConn db = (None, None)
    \/ exists id, PreparedStmtDB_GetDBConn db = (Some id, None).
Proof.
  fix IH 1. intros [st mu [[id | [p | t p | id] | p | ]|]]; simpl.
  - right. right. by exists id.
  - by left.
  - apply IH.
  - by left.
  - apply IH.
  - right. by left.
  - by left.
Qed.



Section ConnectorFacts.
Context (sql_DB_Ping : nat -> M (option error)).
Context (sql_DB_BeginTx : nat -> Context -> TxOptions -> M (option nat * option error)).


(** X8.  [BeginTx] of a prepared pool never returns a nil connection
    together with a nil error, and a connection that it returns is a
    transactional wrapper bound to this very pool, hence to its store and
    lock.  Around a [*sql.DB] it passes on what [BeginTx] of the
    [*sql.DB] returns: the wrapper holds the [*sql.Tx] returned, nil or
    not, and the error is returned with it; [Commit] and [Rollback] of
    that wrapper return [ErrInvalidTransaction] when the [*sql.Tx] is nil
    and commit or roll back that transaction otherwise.  Without a
    connection or around a transaction the result is nil and
    [ErrInvalidTransaction]; around another prepared pool an error of
    that pool is returned with a nil connection and its wrapper is
    wrapped again. *)
Theorem BeginTx_wraps_transaction db ctx opt s :
  (forall c err s',
     PreparedStmtDB_BeginTx sql_DB_BeginTx db ctx opt s = Some ((c, err), s') ->
     (c = None /\ is_Some err)
     \/ (exists t, c = Some (ConnTx (PreparedStmtTXp (Some t) db))))
  /\ (forall id,
        PreparedStmtDB_ConnPool db = Some (SqlDB id) ->
        PreparedStmtDB_BeginTx sql_DB_BeginTx db ctx opt s =
        match sql_DB_BeginTx id ctx opt s with
        | Some (r, s') => Some ((Some (ConnTx (PreparedStmtTXp (Some (SqlTx r.1)) db)), r.2), s')
        | None => None
        end)
  /\ (forall id c err s',
        PreparedStmtDB_ConnPool db = Some (SqlDB id) ->
        PreparedStmtDB_BeginTx sql_DB_BeginTx db ctx opt s = Some ((c, err), s') ->
        exists p w,
          sql_DB_BeginTx id ctx opt s = Some ((p, err), s')
          /\ w = PreparedStmtTXp (Some (SqlTx p)) db
          /\ c = Some (ConnTx w)
          /\ forall drv s2,
               (p = None ->
                  TxObj_Commit drv w s2 = Some (Some ErrInvalidTransaction, s2)
                  /\ TxObj_Rollback drv w s2 = Some (Some ErrInvalidTransaction, s2))
               /\ (forall tx, p = Some tx ->
                     TxObj_Commit drv w s2 =
                       Some (drv_commit drv (trace s2) tx,
                             mkState (mem s2) (trace s2 ++ [EvCommit tx]))
                     /\ TxObj_Rollback drv w s2 =
                       Some (drv_rollback drv (trace s2) tx,
                             mkState (mem s2) (trace s2 ++ [EvRollback tx]))))
  /\ (PreparedStmtDB_ConnPool db = None
      \/ (exists t, PreparedStmtDB_ConnPool db = Some (ConnTx t)) ->
        PreparedStmtDB_BeginTx sql_DB_BeginTx db ctx opt s
        = Some ((None, Some ErrInvalidTransaction), s))
  /\ (forall p c err s',
        PreparedStmtDB_ConnPool db = Some (ConnPreparedStmtDB p) ->
        PreparedStmtDB_BeginTx sql_DB_BeginTx p ctx opt s = Some ((c, err), s') ->
        PreparedStmtDB_BeginTx sql_DB_BeginTx db ctx opt s =
        Some (match err, as_Tx c with
              | Some e, _ => (None, Some e)
              | None, Some tx => (Some (ConnTx (PreparedStmtTXp (Some tx) db)), None)
              | None, None => (None, Some ErrInvalidTransaction)
              end, s')).
Proof.
  split_and!.
  - intros c err s'. destruct db as [st mu [[id | t | p | ]|]]; simpl.
    + unfold bind. destruct (sql_DB_BeginTx id ctx opt s) as [[r s1]|]; [|done].
      intros [= <- <- <-]. right. by eexists.
    + intros [= <- <- <-]. left. split; [done|by eexists].
    + unfold bind.
      destruct (PreparedStmtDB_BeginTx sql_DB_BeginTx p ctx opt s) as [[[c' err'] s1]|]; [|done].
      simpl. destruct err' as [e|].
      * intros [= <- <- <-]. left. split; [done|by eexists].
      * destruct (as_Tx c') as [tx|].
        -- intros [= <- <- <-]. right. by eexists.
        -- intros [= <- <- <-]. left. split; [done|by eexists].
    + done.
    + intros [= <- <- <-]. left. split; [done|by eexists].
  - intros id Hc. destruct db as [st mu c]. simpl in Hc. subst c. simpl. unfold bind.
    by destruct (sql_DB_BeginTx id ctx opt s) as [[r s1]|].
  - intros id c err s' Hc. destruct db as [st mu c0]. simpl in Hc. subst c0. simpl.
    unfold bind. destruct (sql_DB_BeginTx id ctx opt s) as [[[p e] s1]|]; [|done].
    intros [= <- <- <-]. eexists p, _. split; [done|]. split; [reflexivity|].
    split; [done|]. intros drv s2. split.
    + by intros ->.
    + by intros tx ->.
  - destruct db as [st mu c]. simpl. intros [-> | [t ->]]; done.
  - intros p c err s' Hc Hp. destruct db as [st mu c0]. simpl in Hc. subst c0. simpl.
    unfold bind. rewrite Hp. simpl. destruct err as [e|]; [done|]. by destruct (as_Tx c).
Qed.

End ConnectorFacts.

(** X9.  [NewPreparedStmtDB] returns a pool around the given connection
    with a store and a lock of its own: the store is new and empty, so
    that no template is cached in it, and the pools that existed before
    keep their stores and what these cache.  Nothing leaves the package. *)
Theorem NewPreparedStmtDB_is_fresh connPool size ttl_ s :
  exists p s',
    NewPreparedStmtDB connPool size ttl_ s = Some (p, s')
    /\ PreparedStmtDB_ConnPool p = connPool
    /\ Stmts p = Some (length (store_heap (mem s)))
    /\ Mux p = mutex_count (mem s)
    /\ mutex_count (mem s') = S (mutex_count (mem s))
    /\ length (store_heap (mem s')) = S (length (store_heap (mem s)))
    /\ (forall q, cached p q (mem s') = None)
    /\ Store_Keys (length (store_heap (mem s))) s' = Some ([], s')
    /\ (forall db st,
          Stmts db = Some st -> is_Some (store_heap (mem s) !! st) ->
          Stmts db <> Stmts p
          /\ store_heap (mem s') !! st = store_heap (mem s) !! st
          /\ forall q, cached db q (mem s') = cached db q (mem s))
    /\ trace s' = trace s.
Proof.
  rewrite NewPreparedStmtDB_eq. eexists _, _. split; [reflexivity|].
  destruct s as [[stores mc sc clk cfgs stmts dbs plugs caches] tr].
  cbn [mem trace PreparedStmtDB_ConnPool Stmts Mux]. norm.
  split_and!; try done.
  - rewrite length_app. simpl. lia.
  - intros q. unfold cached. cbn [Stmts store_heap]. by rewrite lookup_snoc.
  - unfold Store_Keys, bind, gets, deref, ret. cbn [mem store_heap]. by rewrite lookup_snoc.
  - intros db st Hst [S0 HS0]. cbn [store_heap] in *.
    assert (Hlt : (st < length stores)%nat) by (by eapply lookup_lt_Some).
    split_and!.
    + rewrite Hst. intros [= ->]. lia.
    + rewrite HS0. by apply lookup_snoc_Some.
    + intros q. unfold cached. rewrite Hst. cbn [store_heap clock].
      rewrite HS0. by erewrite lookup_snoc_Some.
Qed.

(** ** Instances, settings and derived configurations *)

Lemma getInstance_handle db s d sp old c :
  db_heap (mem s) !! db = Some d ->
  DB_Statement d = Some sp ->
  statement_heap (mem s) !! sp = Some old ->
  config_heap (mem s) !! DB_Config d = Some c ->
  exists tx s1 dt spt,
    DB_getInstance db s = Some (tx, s1)
    /\ db_heap (mem s1) !! tx = Some dt
    /\ DB_Config dt = DB_Config d
    /\ DB_Error dt = DB_Error d
    /\ DB_Statement dt = Some spt
    /\ statement_heap (mem s1) !! spt = Some (instance_statement tx d c old)
    /\ config_heap (mem s1) = config_heap (mem s)
    /\ plugins_heap (mem s1) = plugins_heap (mem s)
    /\ cache_heap (mem s1) = cache_heap (mem s)
    /\ store_heap (mem s1) = store_heap (mem s)
    /\ trace s1 = trace s
    /\ db_heap (mem s1) !! db = Some d
    /\ statement_heap (mem s1) !! sp = Some old
    /\ (clone d <= 0 -> tx = db /\ s1 = s /\ dt = d /\ spt = sp)
    /\ (0 < clone d ->
        tx = length (db_heap (mem s)) /\ spt = length (statement_heap (mem s))
        /\ clone dt = 0
        /\ db_heap (mem s1) = db_heap (mem s) ++ [dt]
        /\ statement_heap (mem s1) = statement_heap (mem s) ++ [instance_statement tx d c old]).
Proof.
  intros Hd Hsp Hold Hc.
  destruct (getInstance_cases db s d Hd) as (Hzero & Hone & Hmore).
  unfold instance_statement.
  destruct (Z_le_gt_dec (clone d) 0) as [Hle|Hgt].
  - rewrite (Hzero Hle). exists db, s, d, sp.
    destruct (clone d <=? 0) eqn:E; [|lia].
    split_and!; try done. intros Hpos. lia.
  - destruct (clone d <=? 0) eqn:E; [lia|].
    destruct (decide (clone d = 1)) as [H1|Hn1].
    + rewrite (Hone H1 sp old c Hsp Hold Hc). rewrite H1. simpl.
      eexists (length (db_heap (mem s))), _,
        (mkDB (DB_Config d) (DB_Error d) 0 (Some (length (statement_heap (mem s)))) 0),
        (length (statement_heap (mem s))).
      split; [reflexivity|].
      destruct s as [[stores mc sc clk cfgs stmts dbs plugs caches] tr]. simpl in *.
      split_and!; try done; try apply lookup_snoc; try (by apply lookup_snoc_Some);
        intros ?; lia.
    + rewrite (Hmore ltac:(lia) sp old Hsp Hold).
      destruct (clone d =? 1) eqn:E1; [lia|].
      eexists (length (db_heap (mem s))), _,
        (mkDB (DB_Config d) (DB_Error d) 0 (Some (length (statement_heap (mem s)))) 0),
        (length (statement_heap (mem s))).
      split; [reflexivity|].
      destruct s as [[stores mc sc clk cfgs stmts dbs plugs caches] tr]. simpl in *.
      split_and!; try done; try apply lookup_snoc; try (by apply lookup_snoc_Some);
        intros ?; lia.
Qed.

Lemma instance_statement_Settings tx d c old :
  Settings (instance_statement tx d c old) = if clone d =? 1 then ∅ else Settings old.
Proof.
  unfold instance_statement. destruct (clone d <=? 0) eqn:E.
  - destruct (clone d =? 1) eqn:E1; [lia|done].
  - by destruct (clone d =? 1).
Qed.

(** X13.  [Set] stores the value in the settings of the instance that
    [getInstance] gives, and [Get] on the handle returned finds it.  From
    a handle with marker 0 that handle is the receiver itself.  From any
    other handle it is a new one, and the receiver reads its settings as
    before; the new handle inherits the other settings of the receiver,
    except from a root (marker 1), whose settings are not carried over. *)
Theorem Set_then_Get db key value s d sp old c :
  db_heap (mem s) !! db = Some d ->
  DB_Statement d = Some sp ->
  statement_heap (mem s) !! sp = Some old ->
  config_heap (mem s) !! DB_Config d = Some c ->
  exists tx s',
    DB_Set db key value s = Some (tx, s')
    /\ DB_Get tx key s' = Some (Some value, s')
    /\ (forall k, k <> key ->
          DB_Get tx k s' = Some ((if clone d =? 1 then None else Settings old !! k), s'))
    /\ (0 < clone d ->
          tx <> db /\ forall k, DB_Get db k s' = Some (Settings old !! k, s'))
    /\ (clone d <= 0 -> tx = db).
Proof.
  intros Hd Hsp Hold Hc.
  destruct (getInstance_handle db s d sp old c Hd Hsp Hold Hc)
    as (tx & s1 & dt & spt & Hrun & Hdt & _ & _ & Hspt & Hxt & _ & _ & _ & _ & _ & _ & _ & Hin & Hnew).
  set (xt := instance_statement tx d c old) in *.
  set (xt' := set_Settings (<[key := value]> (Settings xt)) xt).
  set (s2 := mkState (set_statement_heap (<[spt := xt']> (statement_heap (mem s1))) (mem s1))
               (trace s1)).
  assert (Hset : DB_Set db key value s = Some (tx, s2)).
  { unfold DB_Set. unfold bind. rewrite Hrun.
    rewrite (DB_statement_ptr_eq _ _ _ _ Hdt Hspt).
    by rewrite (update_statement_eq _ _ _ _ Hxt). }
  assert (Hdt2 : db_heap (mem s2) !! tx = Some dt) by done.
  assert (Hxt2 : statement_heap (mem s2) !! spt = Some xt').
  { simpl. apply list_lookup_insert_eq. by eapply lookup_lt_Some. }
  assert (Hget : forall k, DB_Get tx k s2 = Some (Settings xt' !! k, s2)).
  { intros k. unfold DB_Get, bind. by rewrite (DB_statement_eq _ _ _ _ _ Hdt2 Hspt Hxt2). }
  exists tx, s2. split_and!; try done.
  - rewrite Hget. simpl. by rewrite lookup_insert_eq.
  - intros k Hk. rewrite Hget. simpl. rewrite lookup_insert_ne by done.
    unfold xt. rewrite instance_statement_Settings. by destruct (clone d =? 1).
  - intros Hpos. destruct (Hnew Hpos) as (-> & -> & _ & Hdbs & _).
    assert (Hlt : (db < length (db_heap (mem s)))%nat) by (by eapply lookup_lt_Some).
    assert (Hlt' : (sp < length (statement_heap (mem s)))%nat) by (by eapply lookup_lt_Some).
    split; [lia|]. intros k. unfold DB_Get, bind.
    erewrite DB_statement_eq; [reflexivity| |exact Hsp|].
    + simpl. rewrite Hdbs. by apply lookup_snoc_Some.
    + simpl. rewrite list_lookup_insert_ne by lia.
      destruct (Hnew Hpos) as (_ & _ & _ & _ & ->). by apply lookup_snoc_Some.
  - intros Hle. by destruct (Hin Hle).
Qed.

Lemma Session_result db config s d c0 sp old cache :
  db_heap (mem s) !! db = Some d ->
  config_heap (mem s) !! DB_Config d = Some c0 ->
  DB_Statement d = Some sp ->
  statement_heap (mem s) !! sp = Some old ->
  (Session_PrepareStmt config = true ->
     cache_heap (mem s) !! cacheStore c0 = Some cache
     /\ forall v, cache !! preparedStmtDBKey <> Some (CacheOther v)) ->
  let connPool := Session_ConnPool (Session_pool c0 cache (mem s)) c0 (Statement_ConnPool old) in
  exists r s' t own x,
    DB_Session db config s = Some (r, s')
    /\ db_heap (mem s') !! r = Some t
    /\ DB_Config t = length (config_heap (mem s))
    /\ DB_Error t = DB_Error d
    /\ clone t = (if Session_Initialized config then 0
                  else if Session_NewDB config then 1 else 2)
    /\ DB_Statement t = Some own
    /\ statement_heap (mem s') !! own = Some x
    /\ (Session_Initialized config = false -> isolating config = false -> own = sp)
    /\ (isolating config = true -> Session_PrepareStmt config = true ->
        Statement_ConnPool x = connPool)
    /\ config_heap (mem s') = config_heap (mem s) ++ [Session_config config connPool c0]
    /\ plugins_heap (mem s') = plugins_heap (mem s)
    /\ db_heap (mem s') !! db = Some d
    /\ statement_heap (mem s') !! sp = Some old
    /\ trace s' = trace s.
Proof.
  intros Hd Hc Hsp Hold Hcache connPool.
  set (m' := Session_memory config db d c0 sp old cache (mem s)).
  set (tx := length (db_heap (mem s))).
  assert (Hd' : db_heap m' !! db = Some d) by (by apply lookup_snoc_Some).
  assert (Hold' : statement_heap m' !! sp = Some old).
  { unfold m', Session_memory. cbn [statement_heap]. destruct (isolating config); [|done].
    by apply lookup_snoc_Some. }
  assert (Hb : statement_heap m'
                 !! (if isolating config then length (statement_heap (mem s)) else sp)
               = Some (if isolating config
                       then Session_statement config tx connPool old else old)).
  { unfold m', Session_memory. cbn [statement_heap]. destruct (isolating config).
    - apply lookup_snoc.
    - done. }
  destruct (Session_Initialized config) eqn:Hinit.
  - rewrite (Session_initialized db config s d c0 sp old cache Hd Hc Hsp Hold Hcache Hinit).
    fold m' connPool tx.
    eexists (length (db_heap m')), _,
      (mkDB (length (config_heap (mem s))) (DB_Error d) 0 (Some (length (statement_heap m'))) 0),
      (length (statement_heap m')), _.
    split; [reflexivity|].
    unfold set_statement_heap, set_db_heap.
    cbn [mem trace db_heap statement_heap config_heap plugins_heap DB_Config DB_Error clone
         DB_Statement].
    split_and!; try done.
    + apply lookup_snoc.
    + apply lookup_snoc.
    + intros Hiso Hprep. rewrite Hiso.
      destruct (Session_NewDB config); simpl; by apply Session_statement_ConnPool.
    + by apply lookup_snoc_Some.
    + by apply lookup_snoc_Some.
  - rewrite (Session_run db config s d c0 sp old cache Hd Hc Hsp Hold Hcache), Hinit.
    fold m'.
    eexists tx, (mkState m' (trace s)),
      (mkDB (length (config_heap (mem s))) (DB_Error d) 0
         (Some (if isolating config then length (statement_heap (mem s)) else sp))
         (if Session_NewDB config then 1 else 2)),
      (if isolating config then length (statement_heap (mem s)) else sp),
      (if isolating config then Session_statement config tx connPool old else old).
    split; [reflexivity|]. cbn [mem trace DB_Config DB_Error clone DB_Statement].
    split_and!; try done.
    + apply lookup_snoc.
    + by intros _ ->.
    + intros Hiso Hprep. rewrite Hiso. by apply Session_statement_ConnPool.
Qed.

Lemma proj_cond {A B} (p : A -> B) (b : bool) (f : A -> A) (x : A) :
  (forall y, p (f y) = p y) -> p (cond b f x) = p x.
Proof. intros H. unfold cond. by destruct b. Qed.

Ltac peel p :=
  repeat first
    [ rewrite (proj_cond p) by (intros; reflexivity)
    | progress (unfold cond at 1;
                match goal with
                | |- context [p (if ?b then _ else _)] => destruct b
                end; cbn -[cond]) ].

Lemma Session_config_fields config connPool c0 :
  let c := Session_config config connPool c0 in
  SkipDefaultTransaction c = SkipDefaultTransaction c0 || Session_SkipDefaultTransaction config
  /\ FullSaveAssociations c = FullSaveAssociations c0 || Session_FullSaveAssociations config
  /\ DryRun c = DryRun c0 || Session_DryRun config
  /\ PrepareStmt c = PrepareStmt c0 || Session_PrepareStmt config
  /\ DisableNestedTransaction c
     = DisableNestedTransaction c0 || Session_DisableNestedTransaction config
  /\ AllowGlobalUpdate c = AllowGlobalUpdate c0 || Session_AllowGlobalUpdate config
  /\ QueryFields c = QueryFields c0 || Session_QueryFields config
  /\ PropagateUnscoped c = PropagateUnscoped c0 || Session_PropagateUnscoped config
  /\ CreateBatchSize c = (if 0 <? Session_CreateBatchSize config
                          then Session_CreateBatchSize config else CreateBatchSize c0)
  /\ Logger c = (match Session_Logger config with
                 | Some l => Some l
                 | None => Logger c0
                 end)
  /\ NowFunc c = (match Session_NowFunc config with
                  | Some f => Some f
                  | None => NowFunc c0
                  end)
  /\ Config_ConnPool c = (if Session_PrepareStmt config then connPool else Config_ConnPool c0)
  /\ TranslateError c = TranslateError c0
  /\ PrepareStmtMaxSize c = PrepareStmtMaxSize c0
  /\ PrepareStmtTTL c = PrepareStmtTTL c0
  /\ Config_Dialector c = Config_Dialector c0
  /\ Plugins c = Plugins c0
  /\ cacheStore c = cacheStore c0.
Proof.
  intros c. unfold c, Session_config. split_and!.
  - peel SkipDefaultTransaction; by rewrite ?orb_true_r, ?orb_false_r.
  - peel FullSaveAssociations; by rewrite ?orb_true_r, ?orb_false_r.
  - peel DryRun; by rewrite ?orb_true_r, ?orb_false_r.
  - peel PrepareStmt; by rewrite ?orb_true_r, ?orb_false_r.
  - peel DisableNestedTransaction; by rewrite ?orb_true_r, ?orb_false_r.
  - peel AllowGlobalUpdate; by rewrite ?orb_true_r, ?orb_false_r.
  - peel QueryFields; by rewrite ?orb_true_r, ?orb_false_r.
  - peel PropagateUnscoped; by rewrite ?orb_true_r, ?orb_false_r.
  - peel CreateBatchSize; done.
  - destruct (Session_Logger config) as [l|];
      rewrite ?(@bool_decide_is_Some_Some nat), ?(@bool_decide_is_Some_None nat);
      rewrite ?cond_true, ?cond_false; cbn -[cond]; peel Logger; done.
  - destruct (Session_NowFunc config) as [l|];
      rewrite ?(@bool_decide_is_Some_Some nat), ?(@bool_decide_is_Some_None nat);
      rewrite ?cond_true, ?cond_false; cbn -[cond]; peel NowFunc; done.
  - peel Config_ConnPool; done.
  - peel TranslateError; done.
  - peel PrepareStmtMaxSize; done.
  - peel PrepareStmtTTL; done.
  - peel Config_Dialector; done.
  - peel Plugins; done.
  - peel cacheStore; done.
Qed.

(** X11.  [Session] never writes to the configuration of its receiver:
    the handle it returns has a configuration at a new address.  In it
    each of the eight flags is set when it was set before or the session
    asks for it, so that a session cannot switch a flag off;
    [CreateBatchSize] is replaced only by a positive value; [Logger] and
    [NowFunc] only by a value that is not nil; [TranslateError] and the
    dialector are as before; and the plugin registry and the cache are
    those of the receiver. *)
Theorem Session_flags_only_switch_on db config s d c0 sp old cache :
  db_heap (mem s) !! db = Some d ->
  config_heap (mem s) !! DB_Config d = Some c0 ->
  DB_Statement d = Some sp ->
  statement_heap (mem s) !! sp = Some old ->
  (Session_PrepareStmt config = true ->
     cache_heap (mem s) !! cacheStore c0 = Some cache
     /\ forall v, cache !! preparedStmtDBKey <> Some (CacheOther v)) ->
  exists r s' t c,
    DB_Session db config s = Some (r, s')
    /\ db_heap (mem s') !! r = Some t
    /\ config_heap (mem s') !! DB_Config t = Some c
    /\ DB_Config t <> DB_Config d
    /\ config_heap (mem s') !! DB_Config d = Some c0
    /\ SkipDefaultTransaction c = SkipDefaultTransaction c0 || Session_SkipDefaultTransaction config
    /\ FullSaveAssociations c = FullSaveAssociations c0 || Session_FullSaveAssociations config
    /\ DryRun c = DryRun c0 || Session_DryRun config
    /\ PrepareStmt c = PrepareStmt c0 || Session_PrepareStmt config
    /\ DisableNestedTransaction c
       = DisableNestedTransaction c0 || Session_DisableNestedTransaction config
    /\ AllowGlobalUpdate c = AllowGlobalUpdate c0 || Session_AllowGlobalUpdate config
    /\ QueryFields c = QueryFields c0 || Session_QueryFields config
    /\ PropagateUnscoped c = PropagateUnscoped c0 || Session_PropagateUnscoped config
    /\ CreateBatchSize c = (if 0 <? Session_CreateBatchSize config
                            then Session_CreateBatchSize config else CreateBatchSize c0)
    /\ Logger c = (match Session_Logger config with
                   | Some l => Some l
                   | None => Logger c0
                   end)
    /\ NowFunc c = (match Session_NowFunc config with
                    | Some f => Some f
                    | None => NowFunc c0
                    end)
    /\ TranslateError c = TranslateError c0
    /\ Config_Dialector c = Config_Dialector c0
    /\ Plugins c = Plugins c0
    /\ cacheStore c = cacheStore c0.
Proof.
  intros Hd Hc Hsp Hold Hcache.
  destruct (Session_result db config s d c0 sp old cache Hd Hc Hsp Hold Hcache)
    as (r & s' & t & own & x & Hrun & Ht & Htc & _ & _ & _ & _ & _ & _ & Hcfg & _).
  set (connPool := Session_ConnPool (Session_pool c0 cache (mem s)) c0 (Statement_ConnPool old))
    in *.
  destruct (Session_config_fields config connPool c0)
    as (H1 & H2 & H3 & H4 & H5 & H6 & H7 & H8 & H9 & H10 & H11 & _ & H13 & _ & _ & H16 & H17 & H18).
  exists r, s', t, (Session_config config connPool c0).
  split_and!; try done.
  - rewrite Htc, Hcfg. apply lookup_snoc.
  - rewrite Htc. apply lookup_lt_Some in Hc. lia.
  - rewrite Hcfg. by apply lookup_snoc_Some.
Qed.

Lemma Use_run db plugin s d c registry :
  db_heap (mem s) !! db = Some d ->
  config_heap (mem s) !! DB_Config d = Some c ->
  plugins_heap (mem s) !! Plugins c = Some registry ->
  (is_Some (registry !! Plugin_Name plugin) ->
     DB_Use db plugin s = Some (Some ErrRegistered, s))
  /\ (registry !! Plugin_Name plugin = None ->
      Plugin_Initialize plugin db (mem s) = (None, mem s) ->
      DB_Use db plugin s =
      Some (None,
            mkState
              (set_plugins_heap
                 (<[Plugins c := <[Plugin_Name plugin := Plugin_id plugin]> registry]>
                    (plugins_heap (mem s))) (mem s))
              (trace s ++ [EvInitialize (Plugin_id plugin) db]))).
Proof.
  intros Hd Hc Hreg.
  destruct s as [[stores mc sc clk cfgs stmts dbs plugs caches] tr]. simpl in *.
  split.
  - intros [id Hid]. unfold DB_Use. unfold bind at 1 2. go. by rewrite Hid.
  - intros Hnone Hinit. unfold DB_Use. unfold bind at 1 2. go. rewrite Hnone.
    unfold call_Initialize. unfold bind at 1 2, emit. cbn [mem trace fst snd].
    rewrite Hinit. cbn [fst snd]. unfold bind. go. unfold modify. go. done.
Qed.

(** X12.  The handles of a lineage share one plugin registry: a plugin
    registered with [Use] through a handle that [Session] derived, whose
    initialisation succeeds and leaves the memory alone, is registered
    for the parent as well; [Use] of a plugin of the same name through
    the parent or through the derived handle returns [ErrRegistered] and
    changes nothing. *)
Theorem Session_shares_plugin_registry db config plugin plugin' s d c0 sp old cache registry :
  db_heap (mem s) !! db = Some d ->
  config_heap (mem s) !! DB_Config d = Some c0 ->
  DB_Statement d = Some sp ->
  statement_heap (mem s) !! sp = Some old ->
  (Session_PrepareStmt config = true ->
     cache_heap (mem s) !! cacheStore c0 = Some cache
     /\ forall v, cache !! preparedStmtDBKey <> Some (CacheOther v)) ->
  plugins_heap (mem s) !! Plugins c0 = Some registry ->
  registry !! Plugin_Name plugin = None ->
  Plugin_Name plugin' = Plugin_Name plugin ->
  (forall tx m, Plugin_Initialize plugin tx m = (None, m)) ->
  exists r s1 s2,
    DB_Session db config s = Some (r, s1)
    /\ r <> db
    /\ DB_Use r plugin s1 = Some (None, s2)
    /\ DB_Use db plugin' s2 = Some (Some ErrRegistered, s2)
    /\ DB_Use r plugin' s2 = Some (Some ErrRegistered, s2).
Proof.
  intros Hd Hc Hsp Hold Hcache Hreg Hnone Hname Hinit.
  destruct (Session_result db config s d c0 sp old cache Hd Hc Hsp Hold Hcache)
    as (r & s1 & t & own & x & Hrun & Ht & Htc & _ & _ & _ & _ & _ & _ & Hcfg & Hplug & Hd1 & _).
  set (connPool := Session_ConnPool (Session_pool c0 cache (mem s)) c0 (Statement_ConnPool old))
    in *.
  set (c := Session_config config connPool c0) in *.
  assert (HP : Plugins c = Plugins c0) by apply (Session_config_fields config connPool c0).
  assert (Htc1 : config_heap (mem s1) !! DB_Config t = Some c).
  { rewrite Htc, Hcfg. apply lookup_snoc. }
  assert (Hc1 : config_heap (mem s1) !! DB_Config d = Some c0).
  { rewrite Hcfg. by apply lookup_snoc_Some. }
  assert (Hreg1 : plugins_heap (mem s1) !! Plugins c = Some registry) by (by rewrite HP, Hplug).
  destruct (Use_run r plugin s1 t c registry Ht Htc1 Hreg1) as [_ Huse].
  specialize (Huse Hnone (Hinit _ _)).
  set (registry' := <[Plugin_Name plugin := Plugin_id plugin]> registry) in *.
  set (s2 := mkState
               (set_plugins_heap (<[Plugins c := registry']> (plugins_heap (mem s1))) (mem s1))
               (trace s1 ++ [EvInitialize (Plugin_id plugin) r])) in *.
  assert (Hreg2 : plugins_heap (mem s2) !! Plugins c = Some registry').
  { simpl. apply list_lookup_insert_eq. by eapply lookup_lt_Some. }
  assert (Hin : is_Some (registry' !! Plugin_Name plugin')).
  { rewrite Hname. unfold registry'. rewrite lookup_insert_eq. by eexists. }
  exists r, s1, s2. split_and!; try done.
  - intros ->. rewrite Hd1 in Ht. injection Ht as <-.
    apply lookup_lt_Some in Hc. lia.
  - apply (Use_run db plugin' s2 d c0 registry'); try done. by rewrite <- HP.
  - by apply (Use_run r plugin' s2 t c registry').
Qed.

Lemma WithContext_run db (ctx : option Context) s d c0 sp old :
  db_heap (mem s) !! db = Some d ->
  config_heap (mem s) !! DB_Config d = Some c0 ->
  DB_Statement d = Some sp ->
  statement_heap (mem s) !! sp = Some old ->
  let tx := length (db_heap (mem s)) in
  let own := length (statement_heap (mem s)) in
  exists s',
    DB_WithContext db ctx s = Some (tx, s')
    /\ db_heap (mem s') =
       db_heap (mem s)
       ++ [mkDB (length (config_heap (mem s))) (DB_Error d) 0
             (Some (match ctx with Some _ => own | None => sp end)) 2]
    /\ config_heap (mem s') = config_heap (mem s) ++ [c0]
    /\ statement_heap (mem s') =
       statement_heap (mem s)
       ++ match ctx with
          | Some c => [set_Statement_Context (Some c) (set_Statement_DB (Some tx) old)]
          | None => []
          end
    /\ DB_statement db s' = Some (old, s')
    /\ store_heap (mem s') = store_heap (mem s)
    /\ cache_heap (mem s') = cache_heap (mem s)
    /\ plugins_heap (mem s') = plugins_heap (mem s)
    /\ trace s' = trace s.
Proof.
  intros Hd Hc Hsp Hold tx own. unfold DB_WithContext.
  rewrite (Session_run db _ s d c0 sp old ∅ Hd Hc Hsp Hold) by done.
  cbn [Session_Initialized]. eexists. split; [reflexivity|].
  unfold Session_memory, isolating, Session_statement, Session_config.
  cbn [Session_Context Session_PrepareStmt Session_SkipHooks Session_NewDB
       Session_NowFunc Session_Logger Session_QueryFields Session_DryRun
       Session_DisableNestedTransaction Session_PropagateUnscoped
       Session_FullSaveAssociations Session_AllowGlobalUpdate
       Session_SkipDefaultTransaction Session_CreateBatchSize andb].
  destruct ctx as [c|].
  - rewrite ?(@bool_decide_is_Some_Some Context), ?(@bool_decide_is_Some_None nat).
    cbn [orb cond Z.ltb Z.compare mem trace db_heap config_heap statement_heap store_heap
         cache_heap plugins_heap].
    split_and!; try done.
    eapply DB_statement_eq; cbn [mem db_heap statement_heap].
    + by apply lookup_snoc_Some.
    + exact Hsp.
    + by apply lookup_snoc_Some.
  - rewrite ?(@bool_decide_is_Some_None Context), ?(@bool_decide_is_Some_None nat).
    cbn [orb cond Z.ltb Z.compare mem trace db_heap config_heap statement_heap store_heap
         cache_heap plugins_heap].
    rewrite app_nil_r. split_and!; try done.
    eapply DB_statement_eq; cbn [mem db_heap statement_heap].
    + by apply lookup_snoc_Some.
    + exact Hsp.
    + exact Hold.
Qed.

(** X10.  [WithContext] returns a new handle with marker 2 and the error
    of its receiver, whose configuration is a copy of the receiver's
    without any change.  With a context that is not nil the statement of
    the new handle is a copy of the receiver's at a new address in which
    only the context, now the given one, and the back-reference differ.
    With the nil context nothing is copied: the new handle shares the
    statement of the receiver, context and back-reference included, so
    that what one of the two handles assigns to it the other reads.  In
    both cases the statement of the receiver is as before, and stores,
    cache, plugin registry and trace are untouched. *)
Theorem WithContext_changes_only_context db (ctx : option Context) s d c0 sp old :
  db_heap (mem s) !! db = Some d ->
  config_heap (mem s) !! DB_Config d = Some c0 ->
  DB_Statement d = Some sp ->
  statement_heap (mem s) !! sp = Some old ->
  let tx := length (db_heap (mem s)) in
  let own := length (statement_heap (mem s)) in
  exists s',
    DB_WithContext db ctx s = Some (tx, s')
    /\ config_heap (mem s') = config_heap (mem s) ++ [c0]
    /\ match ctx with
       | Some c =>
           db_heap (mem s') =
             db_heap (mem s) ++ [mkDB (length (config_heap (mem s))) (DB_Error d) 0 (Some own) 2]
           /\ statement_heap (mem s') =
              statement_heap (mem s)
              ++ [set_Statement_Context (Some c) (set_Statement_DB (Some tx) old)]
       | None =>
           db_heap (mem s') =
             db_heap (mem s) ++ [mkDB (length (config_heap (mem s))) (DB_Error d) 0 (Some sp) 2]
           /\ statement_heap (mem s') = statement_heap (mem s)
           /\ DB_statement tx s' = Some (old, s')
           /\ forall f,
                (exists s'', DB_assign_statement tx f s' = Some (tt, s'')
                   /\ DB_statement db s'' = Some (f old, s''))
                /\ (exists s'', DB_assign_statement db f s' = Some (tt, s'')
                   /\ DB_statement tx s'' = Some (f old, s''))
       end
    /\ DB_statement db s' = Some (old, s')
    /\ store_heap (mem s') = store_heap (mem s)
    /\ cache_heap (mem s') = cache_heap (mem s)
    /\ plugins_heap (mem s') = plugins_heap (mem s)
    /\ trace s' = trace s.
Proof.
  intros Hd Hc Hsp Hold tx own.
  destruct (WithContext_run db ctx s d c0 sp old Hd Hc Hsp Hold)
    as (s' & Hrun & Hdbs & Hcfg & Hst & Hrest).
  exists s'. split; [exact Hrun|]. split; [exact Hcfg|]. split; [|exact Hrest].
  destruct ctx as [c|]; [done|].
  rewrite app_nil_r in Hst.
  assert (Ht : db_heap (mem s') !! tx
               = Some (mkDB (length (config_heap (mem s))) (DB_Error d) 0 (Some sp) 2)).
  { rewrite Hdbs. apply lookup_snoc. }
  assert (Hd' : db_heap (mem s') !! db = Some d).
  { rewrite Hdbs. by apply lookup_snoc_Some. }
  assert (Hold' : statement_heap (mem s') !! sp = Some old) by (by rewrite Hst).
  split_and!; try done.
  - by apply (DB_statement_eq _ _ _ _ _ Ht eq_refl Hold').
  - intros f. split.
    + by apply (assign_shared tx db _ d sp old f s' Ht Hd' eq_refl Hsp Hold').
    + by apply (assign_shared db tx d _ sp old f s' Hd' Ht Hsp eq_refl Hold').
Qed.

Lemma String_length_app (a b : string) :
  String.length (a +:+ b) = (String.length a + String.length b)%nat.
Proof. induction a as [|c a IH]; simpl; [done|]. by rewrite IH. Qed.


Section InstanceFacts.
Context (Sprintf_p : ptr -> string).




End InstanceFacts.

Lemma AddError_run db e s d c :
  db_heap (mem s) !! db = Some d ->
  config_heap (mem s) !! DB_Config d = Some c ->
  let err := match DB_Error d with
             | None => translated c e
             | Some old => Some (Errorf_v_w old (translated c e))
             end in
  DB_AddError db (Some e) s = Some (err, mkState (with_Error db d err (mem s)) (trace s)).
Proof.
  intros Hd Hc. destruct s as [[stores mc sc clk cfgs stmts dbs plugs caches] tr].
  simpl in *. unfold DB_AddError. unfold bind. go.
  destruct (DB_Error d) as [old|] eqn:Hold; go.
  all: erewrite load_db_eq
         by (simpl; apply list_lookup_insert_eq; by eapply lookup_lt_Some); done.
Qed.

Lemma AddError_nil db s d :
  db_heap (mem s) !! db = Some d -> DB_AddError db None s = Some (DB_Error d, s).
Proof.
  intros Hd. unfold DB_AddError, bind. unfold ret at 1. by rewrite (load_db_eq _ _ _ Hd).
Qed.

(** X15.  An error added through the instance of a handle stays off that
    handle: for a handle with a positive marker, [getInstance] gives a
    new handle that starts with the error of the receiver; [AddError] on
    it stores the error (joined to the inherited one, if any) in the new
    handle, and the error of the receiver is as before. *)
Theorem AddError_on_instance_keeps_parent db e s d sp old c :
  db_heap (mem s) !! db = Some d ->
  DB_Statement d = Some sp ->
  statement_heap (mem s) !! sp = Some old ->
  config_heap (mem s) !! DB_Config d = Some c ->
  0 < clone d ->
  let err := match DB_Error d with
             | None => translated c e
             | Some old => Some (Errorf_v_w old (translated c e))
             end in
  exists tx s1 s2,
    DB_getInstance db s = Some (tx, s1)
    /\ tx <> db
    /\ DB_AddError tx None s1 = Some (DB_Error d, s1)
    /\ DB_AddError tx (Some e) s1 = Some (err, s2)
    /\ DB_AddError tx None s2 = Some (err, s2)
    /\ DB_AddError db None s2 = Some (DB_Error d, s2).
Proof.
  intros Hd Hsp Hold Hc Hpos err.
  destruct (getInstance_handle db s d sp old c Hd Hsp Hold Hc)
    as (tx & s1 & dt & spt & Hrun & Hdt & Hdtc & Hdte & _ & _ & Hcfg & _ & _ & _ & _
        & Hd1 & _ & _ & Hnew).
  destruct (Hnew Hpos) as (Htx & _).
  assert (Hne : tx <> db). { apply lookup_lt_Some in Hd. lia. }
  assert (Hc1 : config_heap (mem s1) !! DB_Config dt = Some c) by (by rewrite Hdtc, Hcfg).
  pose proof (AddError_run tx e s1 dt c Hdt Hc1) as Hadd. rewrite Hdte in Hadd.
  cbv zeta in Hadd. fold err in Hadd.
  exists tx, s1, (mkState (with_Error tx dt err (mem s1)) (trace s1)).
  split; [done|]. split; [done|]. split; [|split; [exact Hadd|split]].
  - rewrite <- Hdte. by apply AddError_nil.
  - rewrite (AddError_nil tx _ (set_DB_Error err dt)); [done|]. simpl.
    apply list_lookup_insert_eq. by eapply lookup_lt_Some.
  - apply AddError_nil. simpl. by rewrite list_lookup_insert_ne.
Qed.

Lemma errors_Is_Errorf old e target :
  errors_Is (Some (Errorf_v_w old (Some e))) target = true
  <-> target = Errorf_v_w old (Some e) \/ errors_Is (Some e) target = true.
Proof.
  unfold errors_Is, Errorf_v_w. rewrite errors_Is_chain_unfold.
  destruct (decide _) as [Heq|Hne].
  - split; [by left|done].
  - split; [by right|]. intros [H|H]; [by destruct Hne|done].
Qed.

Lemma Errorf_fresh old e : old <> Errorf_v_w old (Some e).
Proof.
  intros H. apply (f_equal Error_text) in H. simpl in H.
  apply (f_equal String.length) in H. rewrite !String_length_app in H. simpl in H. lia.
Qed.

(** X16.  Of two errors added by [AddError] to a handle without error and
    without translation, the second is wrapped and the first survives as
    text only: the stored error reads as the two texts joined by ["; "],
    [errors.Is] finds in it exactly itself and what it finds in the
    second error, and so it does not find the first error unless the
    second error contains it. *)
Theorem AddError_keeps_earlier_error_as_text db e1 e2 s d c :
  db_heap (mem s) !! db = Some d ->
  config_heap (mem s) !! DB_Config d = Some c ->
  DB_Error d = None ->
  TranslateError c = false ->
  let E := Errorf_v_w e1 (Some e2) in
  exists s1 s2,
    DB_AddError db (Some e1) s = Some (Some e1, s1)
    /\ DB_AddError db (Some e2) s1 = Some (Some E, s2)
    /\ Error_text E = Error_text e1 +:+ "; " +:+ Error_text e2
    /\ errors_Is (Some E) e2 = true
    /\ (forall target,
          errors_Is (Some E) target = true
          <-> target = E \/ errors_Is (Some e2) target = true)
    /\ (errors_Is (Some e2) e1 = false -> errors_Is (Some E) e1 = false).
Proof.
  intros Hd Hc Hnone Hnt E.
  assert (Htr : forall e, translated c e = Some e).
  { intros e. unfold translated. by rewrite Hnt. }
  pose proof (AddError_run db e1 s d c Hd Hc) as H1. rewrite Hnone, Htr in H1. simpl in H1.
  set (s1 := mkState (with_Error db d (Some e1) (mem s)) (trace s)) in *.
  assert (Hd1 : db_heap (mem s1) !! db = Some (set_DB_Error (Some e1) d)).
  { simpl. apply list_lookup_insert_eq. by eapply lookup_lt_Some. }
  assert (Hc1 : config_heap (mem s1) !! DB_Config (set_DB_Error (Some e1) d) = Some c) by done.
  pose proof (AddError_run db e2 s1 _ c Hd1 Hc1) as H2. rewrite Htr in H2. simpl in H2.
  eexists s1, _. split; [done|]. split; [exact H2|]. split_and!; try done.
  - apply errors_Is_Errorf. right. apply errors_Is_chain_refl.
  - intros target. apply errors_Is_Errorf.
  - intros Hno. destruct (errors_Is (Some E) e1) eqn:HE; [|done].
    apply errors_Is_Errorf in HE as [Heq|Hin].
    + by destruct (Errorf_fresh e1 e2).
    + by rewrite Hin in Hno.
Qed.

Section DatabaseFacts.
Context (sql_Tx_db : nat -> nat).

Lemma DB_DB_run db s d c sp x :
  db_heap (mem s) !! db = Some d ->
  config_heap (mem s) !! DB_Config d = Some c ->
  DB_Statement d = Some sp ->
  statement_heap (mem s) !! sp = Some x ->
  DB_DB sql_Tx_db db s =
  Some (match (match Statement_ConnPool x with
               | Some o => Some o
               | None => Config_ConnPool c
               end) with
        | Some (ConnTx (SqlTx (Some tx))) => (Some (sql_Tx_db tx), None)
        | Some (ConnTx (PreparedStmtTXp _ p)) | Some (ConnPreparedStmtDB p) =>
            match PreparedStmtDB_GetDBConn p with
            | (None, None) => (None, Some ErrInvalidDB)
            | r => r
            end
        | Some (SqlDB id) => (Some id, None)
        | _ => (None, Some ErrInvalidDB)
        end, s).
Proof.
  intros Hd Hc Hsp Hx. unfold DB_DB. unfold bind.
  rewrite (load_db_eq _ _ _ Hd), (load_config_eq _ _ _ Hc), Hsp, (load_statement_eq _ _ _ Hx).
  unfold ret.
  destruct (match Statement_ConnPool x with Some o => Some o | None => Config_ConnPool c end)
    as [[id | [[tx|] | t p | id] | p | ]|]; try done.
  - unfold PreparedStmtTX_GetDBConn. simpl.
    destruct (GetDBConn_cases p) as [H|[H|[id H]]]; rewrite H; done.
  - destruct (GetDBConn_cases p) as [H|[H|[id H]]]; rewrite H; done.
Qed.


(** X18.  Prepare mode does not change the database of a handle: when
    the connection of the configuration is a [*sql.DB], [DB] on the
    handle that [Session] derives in prepare mode returns that [*sql.DB],
    provided that the statement is not in a transaction or that the pool
    is built by this derivation. *)
Theorem DB_after_prepare_mode db config s d c0 sp old cache id :
  db_heap (mem s) !! db = Some d ->
  config_heap (mem s) !! DB_Config d = Some c0 ->
  DB_Statement d = Some sp ->
  statement_heap (mem s) !! sp = Some old ->
  Session_PrepareStmt config = true ->
  cache_heap (mem s) !! cacheStore c0 = Some cache ->
  (forall v, cache !! preparedStmtDBKey <> Some (CacheOther v)) ->
  Config_ConnPool c0 = Some (SqlDB id) ->
  as_Tx (Statement_ConnPool old) = None \/ cache !! preparedStmtDBKey = None ->
  exists r s',
    DB_Session db config s = Some (r, s')
    /\ DB_DB sql_Tx_db r s' = Some ((Some id, None), s').
Proof.
  intros Hd Hc Hsp Hold Hprep Hcs Hother Hconn Hcase.
  assert (Hcache : Session_PrepareStmt config = true ->
            cache_heap (mem s) !! cacheStore c0 = Some cache
            /\ forall v, cache !! preparedStmtDBKey <> Some (CacheOther v)) by done.
  destruct (Session_result db config s d c0 sp old cache Hd Hc Hsp Hold Hcache)
    as (r & s' & t & own & x & Hrun & Ht & Htc & _ & _ & Hown & Hx & _ & Hxc & Hcfg & _).
  assert (Hiso : isolating config = true).
  { unfold isolating. rewrite Hprep. by rewrite orb_true_r. }
  specialize (Hxc Hiso Hprep).
  exists r, s'. split; [done|].
  assert (Htc' : config_heap (mem s') !! DB_Config t
                 = Some (Session_config config
                           (Session_ConnPool (Session_pool c0 cache (mem s)) c0
                              (Statement_ConnPool old)) c0)).
  { rewrite Htc, Hcfg. apply lookup_snoc. }
  rewrite (DB_DB_run r s' t _ own x Ht Htc' Hown Hx). rewrite Hxc.
  unfold Session_ConnPool.
  destruct (as_Tx (Statement_ConnPool old)) as [txo|] eqn:Htx.
  - destruct Hcase as [|Hkey]; [done|].
    unfold Session_pool. rewrite Hkey. simpl. by rewrite Hconn.
  - simpl. by rewrite Hconn.
Qed.

End DatabaseFacts.

Section DebugFacts.
Context (LogMode_Info : nat -> option nat).

(** X19.  [Debug] panics on a handle without logger.  Otherwise it
    returns a new handle with marker 2 that shares the statement of the
    instance of its receiver and whose configuration, at a new address,
    differs from the receiver's only in the logger, which is the
    receiver's logger in Info mode (when [LogMode] returns nil the
    configuration is an unchanged copy); the configuration of the
    receiver keeps its logger. *)
Theorem Debug_changes_only_logger db s d sp old c :
  db_heap (mem s) !! db = Some d ->
  DB_Statement d = Some sp ->
  statement_heap (mem s) !! sp = Some old ->
  config_heap (mem s) !! DB_Config d = Some c ->
  (Logger c = None -> DB_Debug LogMode_Info db s = None)
  /\ (forall l, Logger c = Some l ->
      exists tx s1 r s' t dt,
        DB_getInstance db s = Some (tx, s1)
        /\ db_heap (mem s1) !! tx = Some dt
        /\ DB_Debug LogMode_Info db s = Some (r, s')
        /\ db_heap (mem s') !! r = Some t
        /\ r <> tx /\ r <> db
        /\ clone t = 2
        /\ DB_Statement t = DB_Statement dt
        /\ config_heap (mem s') !! DB_Config t
           = Some (match LogMode_Info l with
                   | Some l' => set_Logger (Some l') c
                   | None => c
                   end)
        /\ config_heap (mem s') !! DB_Config d = Some c
        /\ statement_heap (mem s') = statement_heap (mem s1)).
Proof.
  intros Hd Hsp Hold Hc.
  destruct (getInstance_handle db s d sp old c Hd Hsp Hold Hc)
    as (tx & s1 & dt & spt & Hrun & Hdt & Hdtc & _ & Hspt & Hxt & Hcfg & _ & _ & _ & _
        & Hd1 & _ & _ & _).
  assert (Hc1 : config_heap (mem s1) !! DB_Config d = Some c) by (by rewrite Hcfg).
  assert (Hc1' : config_heap (mem s1) !! DB_Config dt = Some c) by (by rewrite Hdtc).
  split.
  - intros Hnil. unfold DB_Debug, bind. rewrite Hrun.
    rewrite (DB_config_eq _ _ _ _ Hd1 Hc1). by rewrite Hnil.
  - intros l Hl.
    exists tx, s1, (length (db_heap (mem s1))).
    eexists _, _, dt. split; [done|]. split; [done|]. split.
    { unfold DB_Debug, bind. rewrite Hrun.
      rewrite (DB_config_eq _ _ _ _ Hd1 Hc1). rewrite Hl. unfold deref, ret.
      rewrite (Session_run tx _ s1 dt c spt _ ∅ Hdt Hc1' Hspt Hxt) by done.
      reflexivity. }
    unfold Session_memory, isolating, Session_statement, Session_config.
    cbn [Session_Context Session_PrepareStmt Session_SkipHooks Session_NewDB
         Session_NowFunc Session_Logger Session_QueryFields Session_DryRun
         Session_DisableNestedTransaction Session_PropagateUnscoped
         Session_FullSaveAssociations Session_AllowGlobalUpdate
         Session_SkipDefaultTransaction Session_CreateBatchSize andb].
    rewrite ?(@bool_decide_is_Some_Some nat), ?(@bool_decide_is_Some_None nat).
    cbn [orb cond Z.ltb Z.compare mem trace db_heap config_heap statement_heap store_heap
         cache_heap plugins_heap].
    split; [apply lookup_snoc|]. cbn [clone DB_Statement DB_Config].
    split_and!; try done.
    + apply lookup_lt_Some in Hdt. lia.
    + apply lookup_lt_Some in Hd1. lia.
    + rewrite lookup_snoc. f_equal.
      destruct (LogMode_Info l) as [l'|];
        rewrite ?(@bool_decide_is_Some_Some nat), ?(@bool_decide_is_Some_None nat); done.
    + by apply lookup_snoc_Some.
Qed.

End DebugFacts.

(** ** clause/select.go on a text builder *)

Lemma String_app_assoc (a b c : string) : (a +:+ b) +:+ c = a +:+ (b +:+ c).
Proof.
  induction a as [|x a IH]; [done|].
  change (String x ((a +:+ b) +:+ c) = String x (a +:+ (b +:+ c))). by rewrite IH.
Qed.

Lemma String_app_nil_r (a : string) : a +:+ EmptyString = a.
Proof.
  induction a as [|x a IH]; [done|].
  change (String x (a +:+ EmptyString) = String x a). by rewrite IH.
Qed.

Section SelectFacts.

Context {Column Expression : Type}.
Context (quote : Column -> string) (render : Expression -> string).

Lemma Select_Build_columns_text idx columns b :
  Select_Build_columns text_WriteByte (text_WriteQuoted quote) idx columns b =
  b +:+ match columns with
        | [] => ""
        | column :: rest =>
            (if (0 <? idx)%nat then "," else "")
            +:+ String.concat "," (quote <$> (column :: rest))
        end.
Proof.
  revert idx b. induction columns as [|column rest IH]; intros idx b.
  - simpl. by rewrite String_app_nil_r.
  - cbn [Select_Build_columns]. rewrite IH. unfold text_WriteQuoted, text_WriteByte.
    destruct rest as [|column' rest].
    + simpl. rewrite String_app_nil_r. destruct (0 <? idx)%nat; simpl.
      * by rewrite !String_app_assoc.
      * done.
    + replace (0 <? S idx)%nat with true by done.
      cbn [fmap list_fmap String.concat].
      destruct (0 <? idx)%nat; rewrite !String_app_assoc; simpl; done.
Qed.

(** X20.  On a builder that collects the text written, [Build] of a
    [Select] with columns writes the quoted columns in their order,
    separated by single commas without a comma before the first or after
    the last, and before them [DISTINCT] and a space when [Distinct] is
    set.  Without columns it writes only a star, also when [Distinct] is
    set.  The expression of the [Select] is not written. *)
Theorem Select_Build_writes_columns
    (s : Select (Column := Column) (Expression := Expression)) b :
  Select_Build text_WriteString text_WriteByte (text_WriteQuoted quote) s b =
  b +:+ match Columns s with
        | [] => "*"
        | _ => (if Distinct s then "DISTINCT " else "")
               +:+ String.concat "," (quote <$> Columns s)
        end.
Proof.
  unfold Select_Build. destruct (Columns s) as [|column rest] eqn:Hc; [done|].
  cbn [length Nat.ltb Nat.leb]. rewrite Select_Build_columns_text.
  cbn [Nat.ltb Nat.leb]. unfold text_WriteString.
  destruct (Distinct s); rewrite ?String_app_assoc; done.
Qed.

Lemma CommaExpression_Build_from_text idx exprs b :
  CommaExpression_Build_from text_WriteString (text_Build render) idx exprs b =
  b +:+ match exprs with
        | [] => ""
        | e :: rest =>
            (if (0 <? idx)%nat then ", " else "")
            +:+ String.concat ", " (render <$> (e :: rest))
        end.
Proof.
  revert idx b. induction exprs as [|e rest IH]; intros idx b.
  - simpl. by rewrite String_app_nil_r.
  - cbn [CommaExpression_Build_from]. rewrite IH. unfold text_Build, text_WriteString.
    destruct rest as [|e' rest].
    + simpl. rewrite String_app_nil_r. destruct (0 <? idx)%nat; simpl.
      * by rewrite !String_app_assoc.
      * done.
    + replace (0 <? S idx)%nat with true by done.
      cbn [fmap list_fmap String.concat].
      destruct (0 <? idx)%nat; rewrite !String_app_assoc; simpl; done.
Qed.

(** X21.  On a builder that collects the text written, [Build] of a
    [CommaExpression] writes what its expressions write, in their order,
    separated by a comma and a space, with no separator before the first
    or after the last; without expressions it writes nothing. *)
Theorem CommaExpression_Build_joins
    (comma : CommaExpression (Expression := Expression)) b :
  CommaExpression_Build text_WriteString (text_Build render) comma b =
  b +:+ String.concat ", " (render <$> Exprs comma).
Proof.
  unfold CommaExpression_Build. rewrite CommaExpression_Build_from_text.
  destruct (Exprs comma); done.
Qed.

End SelectFacts.

(** ** The theorems of the later sections at concrete inputs *)

Lemma Close_empties_store_witness :
  Stmts demo_pool = Some 0%nat
  /\ store_heap (mem demo_state_cached) !! 0%nat
     = Some (mkLruStore 2 3600 [("SELECT 1", (demo_stmt, 0))])
  /\ cached demo_pool "SELECT 1" (mem demo_state_cached) = Some demo_stmt
  /\ exists s',
       PreparedStmtDB_Close demo_pool demo_state_cached = Some (tt, s')
       /\ trace s' = trace demo_state_cached ++ [EvLock 0; EvUnlock 0]
       /\ Store_Keys 0 s' = Some ([], s')
       /\ cached demo_pool "SELECT 1" (mem s') = None.
Proof.
  split; [reflexivity|]. split; [reflexivity|]. split; [reflexivity|].
  destruct (Close_empties_store demo_pool demo_state_cached) as [_ H].
  destruct (H 0%nat _ eq_refl eq_refl) as (s' & Hrun & _ & Htr & _ & Hkeys & Hc & _).
  exists s'. split; [exact Hrun|]. split; [exact Htr|]. split; [exact Hkeys|apply Hc].
Defined.

Lemma Close_then_prepare_compiles_witness :
  Stmts demo_pool = Some 0%nat
  /\ ConnPool_target (Some (SqlDB 7)) = Some (RawDB 7)
  /\ exists s1 stmt s2,
       PreparedStmtDB_Close demo_pool demo_state_cached = Some (tt, s1)
       /\ prepare demo_driver id demo_pool 0%nat (Some (SqlDB 7)) false "SELECT 1" s1
          = Some ((stmt, Stmt_Error stmt), s2)
       /\ trace s2 = trace s1 ++ [EvRLock 0; EvRUnlock 0; EvLock 0;
                                  EvPrepare (RawDB 7) "SELECT 1"; EvUnlock 0]
       /\ Stmt_addr stmt = 1%nat.
Proof.
  split; [reflexivity|]. split; [reflexivity|].
  destruct (Close_then_prepare_compiles demo_driver id demo_pool 0%nat
              (mkLruStore 2 3600 [("SELECT 1", (demo_stmt, 0))]) 0%nat (Some (SqlDB 7)) false
              "SELECT 1" (RawDB 7) demo_state_cached eq_refl eq_refl eq_refl eq_refl
              (ex_intro _ _ eq_refl))
    as (Hclose & stmt & s2 & Hrun & Htr & Haddr & _).
  eexists _, stmt, s2. split; [exact Hclose|]. split; [exact Hrun|].
  split; [exact Htr|exact Haddr].
Defined.

Lemma tx_exec_query_eviction_witness :
  (exists s',
     PreparedStmtTX_ExecContext broken_driver id demo_tx 0%nat "SELECT 1" [] demo_state
       = Some ((None, Some ErrBadConn), s')
     /\ cached demo_pool "SELECT 1" (mem s') = None)
  /\ (exists r s' stmt,
     PreparedStmtTX_QueryContext demo_driver id demo_tx 0%nat "SELECT 1" [] demo_state
       = Some (r, s')
     /\ cached demo_pool "SELECT 1" (mem s') = Some stmt
     /\ Transaction stmt = true).
Proof.
  split.
  - eexists. split; [vm_compute; reflexivity|].
    destruct (tx_exec_query_eviction broken_driver id demo_tx 0%nat "SELECT 1" []
                demo_state) as [Hexec _].
    edestruct Hexec as (stmt & err & s1 & Hp & Hrest); [vm_compute; reflexivity|].
    vm_compute in Hp. injection Hp as <- <- <-.
    destruct Hrest as (tid & raw & _ & _ & _ & Hbad & _). apply Hbad. reflexivity.
  - destruct (tx_exec_query_eviction demo_driver id demo_tx 0%nat "SELECT 1" []
                demo_state) as (_ & Hquery & _).
    edestruct Hquery as (stmt & err & s1 & Hp & Hrest); [vm_compute; reflexivity|].
    vm_compute in Hp. injection Hp as <- <- <-.
    destruct Hrest as (tid & raw & _ & _ & _ & _ & Hok).
    eexists _, _, _. split; [vm_compute; reflexivity|].
    split; [apply Hok; reflexivity|reflexivity].
Defined.

Lemma query_row_never_evicts_witness :
  exists row s' stmt s1,
    PreparedStmtDB_QueryRowContext broken_driver id demo_pool 0%nat "SELECT 1" [] demo_state
      = Some (row, s')
    /\ row_err row = Some ErrBadConn
    /\ prepare broken_driver id demo_pool 0%nat (Some (SqlDB 7)) false "SELECT 1" demo_state
       = Some ((stmt, None), s1)
    /\ mem s' = mem s1
    /\ cached demo_pool "SELECT 1" (mem s') = Some stmt.
Proof.
  destruct (query_row_never_evicts broken_driver id demo_pool demo_tx 0%nat "SELECT 1" []
              demo_state) as (Hrow & _).
  edestruct Hrow as (stmt & err & s1 & Hp & Hmem & Hrest); [vm_compute; reflexivity|].
  vm_compute in Hp. injection Hp as <- <- <-.
  eexists _, _, _, _. split; [vm_compute; reflexivity|]. split; [reflexivity|].
  split; [vm_compute; reflexivity|]. split; [exact Hmem|reflexivity].
Defined.

Lemma pool_statement_reused_in_transaction_witness :
  PreparedStmtTX_PreparedStmtDB demo_tx = demo_pool
  /\ Tx_target (PreparedStmtTX_Tx demo_tx) = Some 9%nat
  /\ exists res s1 raw s2,
       PreparedStmtDB_ExecContext demo_driver id demo_pool 0%nat "SELECT 1" [] demo_state
         = Some ((res, None), s1)
       /\ PreparedStmtTX_ExecContext demo_driver id demo_tx 1%nat "SELECT 1" [IInt 2] s1
          = Some (drv_exec demo_driver
                    (trace s1 ++ [EvRLock 0; EvRUnlock 0; EvStmtContext 9 raw])
                    (mk_sql_Stmt (stmt_query raw) (RawTx 9)) [IInt 2], s2)
       /\ filter is_EvPrepare (trace s2) = [EvPrepare (RawDB 7) "SELECT 1"].
Proof.
  split; [reflexivity|]. split; [reflexivity|].
  edestruct (pool_statement_reused_in_transaction demo_driver id demo_pool demo_tx 0%nat 1%nat
               "SELECT 1" [] [IInt 2] demo_state) as (raw & s2 & _ & _ & Hrun & _ & Hfilter).
  - reflexivity.
  - reflexivity.
  - vm_compute. reflexivity.
  - eexists _, _, raw, s2. split; [vm_compute; reflexivity|]. split; [exact Hrun|].
    rewrite Hfilter. reflexivity.
Defined.



Lemma BeginTx_wraps_transaction_witness :
  PreparedStmtDB_ConnPool demo_pool = Some (SqlDB 7)
  /\ (exists w,
        PreparedStmtDB_BeginTx failing_BeginTx demo_pool 0%nat None demo_state
          = Some ((Some (ConnTx w), Some ErrBadConn), demo_state)
        /\ TxObj_Commit demo_driver w demo_state
           = Some (Some ErrInvalidTransaction, demo_state))
  /\ (exists w,
        PreparedStmtDB_BeginTx demo_BeginTx demo_pool 0%nat None demo_state
          = Some ((Some (ConnTx w), None), demo_state)
        /\ w = PreparedStmtTXp (Some (SqlTx (Some 9%nat))) demo_pool
        /\ TxObj_Commit demo_driver w demo_state
           = Some (None, mkState demo_memory [EvCommit 9]))
  /\ PreparedStmtDB_BeginTx demo_BeginTx tx_pool 0%nat None demo_state
     = Some ((None, Some ErrInvalidTransaction), demo_state).
Proof.
  split; [reflexivity|]. split; [|split].
  - destruct (BeginTx_wraps_transaction failing_BeginTx demo_pool 0%nat None demo_state)
      as (_ & _ & Hdb & _).
    edestruct (Hdb 7%nat) as (p & w & Hb & Hw & Hc & Hcommit); [reflexivity|reflexivity|].
    injection Hb as <-. exists w. split; [rewrite Hw; reflexivity|].
    apply (Hcommit demo_driver demo_state). reflexivity.
  - destruct (BeginTx_wraps_transaction demo_BeginTx demo_pool 0%nat None demo_state)
      as (_ & _ & Hdb & _).
    edestruct (Hdb 7%nat) as (p & w & Hb & Hw & Hc & Hcommit); [reflexivity|reflexivity|].
    injection Hb as <-. exists w. split; [rewrite Hw; reflexivity|].
    split; [exact Hw|]. apply (Hcommit demo_driver demo_state). reflexivity.
  - destruct (BeginTx_wraps_transaction demo_BeginTx tx_pool 0%nat None demo_state)
      as (_ & _ & _ & Hnone & _).
    apply Hnone. right. eexists. reflexivity.
Defined.

Lemma NewPreparedStmtDB_is_fresh_witness :
  exists p s',
    NewPreparedStmtDB (Some (SqlDB 7)) 0 0 demo_state_cached = Some (p, s')
    /\ Stmts p = Some 1%nat
    /\ cached p "SELECT 1" (mem s') = None
    /\ cached demo_pool "SELECT 1" (mem s') = Some demo_stmt.
Proof.
  destruct (NewPreparedStmtDB_is_fresh (Some (SqlDB 7)) 0 0 demo_state_cached)
    as (p & s' & Hrun & _ & Hst & _ & _ & _ & Hnone & _ & Hold & _).
  exists p, s'. split; [exact Hrun|]. split; [exact Hst|]. split; [apply Hnone|].
  destruct (Hold demo_pool 0%nat eq_refl (ex_intro _ _ eq_refl)) as (_ & _ & Hc).
  rewrite Hc. reflexivity.
Defined.

Lemma WithContext_changes_only_context_witness :
  db_heap (mem demo_state) !! 0%nat = Some demo_root
  /\ config_heap (mem demo_state) !! DB_Config demo_root = Some demo_config
  /\ DB_Statement demo_root = Some 0%nat
  /\ statement_heap (mem demo_state) !! 0%nat = Some demo_statement
  /\ (exists s',
       DB_WithContext 0 (Some 5%nat) demo_state = Some (1%nat, s')
       /\ config_heap (mem s') = [demo_config; demo_config]
       /\ db_heap (mem s') = [demo_root; mkDB 1%nat None 0 (Some 1%nat) 2]
       /\ statement_heap (mem s')
          = [demo_statement;
             mkStatement (Some 1%nat) (Some (SqlDB 7)) (Some 5%nat) ∅ [] false false ∅]
       /\ DB_statement 0 s' = Some (demo_statement, s'))
  /\ (exists s',
       DB_WithContext 0 None demo_state = Some (1%nat, s')
       /\ config_heap (mem s') = [demo_config; demo_config]
       /\ db_heap (mem s') = [demo_root; mkDB 1%nat None 0 (Some 0%nat) 2]
       /\ statement_heap (mem s') = [demo_statement]
       /\ DB_statement 1 s' = Some (demo_statement, s')).
Proof.
  split; [reflexivity|]. split; [reflexivity|]. split; [reflexivity|].
  split; [reflexivity|]. split.
  - destruct (WithContext_changes_only_context 0 (Some 5%nat) demo_state demo_root demo_config
                0%nat demo_statement eq_refl eq_refl eq_refl eq_refl)
      as (s' & Hrun & Hcfg & [Hdb Hst] & Hparent & _).
    exists s'. split; [exact Hrun|]. split; [exact Hcfg|]. split; [exact Hdb|].
    split; [exact Hst|exact Hparent].
  - destruct (WithContext_changes_only_context 0 None demo_state demo_root demo_config
                0%nat demo_statement eq_refl eq_refl eq_refl eq_refl)
      as (s' & Hrun & Hcfg & (Hdb & Hst & Hshared & _) & _).
    exists s'. split; [exact Hrun|]. split; [exact Hcfg|]. split; [exact Hdb|].
    split; [exact Hst|exact Hshared].
Defined.

Lemma Session_flags_only_switch_on_witness :
  db_heap (mem demo_state) !! 0%nat = Some demo_root
  /\ config_heap (mem demo_state) !! DB_Config demo_root = Some demo_config
  /\ DB_Statement demo_root = Some 0%nat
  /\ statement_heap (mem demo_state) !! 0%nat = Some demo_statement
  /\ cache_heap (mem demo_state) !! cacheStore demo_config = Some ∅
  /\ exists r s' t c,
       DB_Session 0 session_prepare demo_state = Some (r, s')
       /\ db_heap (mem s') !! r = Some t
       /\ config_heap (mem s') !! DB_Config t = Some c
       /\ config_heap (mem s') !! 0%nat = Some demo_config
       /\ PrepareStmt c = true
       /\ DryRun c = false
       /\ Plugins c = 0%nat.
Proof.
  split; [reflexivity|]. split; [reflexivity|]. split; [reflexivity|].
  split; [reflexivity|]. split; [reflexivity|].
  destruct (Session_flags_only_switch_on 0 session_prepare demo_state demo_root demo_config
              0%nat demo_statement ∅ eq_refl eq_refl eq_refl eq_refl
              ltac:(intros _; split; [reflexivity|];
                    intros v H; rewrite lookup_empty in H; discriminate H))
    as (r & s' & t & c & Hrun & Ht & Hc & _ & Hparent & _ & _ & Hdry & Hprep & _ & _ & _ & _
        & _ & _ & _ & _ & _ & Hplug & _).
  exists r, s', t, c. split; [exact Hrun|]. split; [exact Ht|]. split; [exact Hc|].
  split; [exact Hparent|]. split; [exact Hprep|]. split; [exact Hdry|exact Hplug].
Defined.

Lemma Session_shares_plugin_registry_witness :
  plugins_heap (mem demo_state) !! Plugins demo_config = Some ∅
  /\ exists r s1 s2,
       DB_Session 0 session_plain demo_state = Some (r, s1)
       /\ r <> 0%nat
       /\ DB_Use r demo_plugin s1 = Some (None, s2)
       /\ DB_Use 0 demo_plugin s2 = Some (Some ErrRegistered, s2).
Proof.
  split; [reflexivity|].
  destruct (Session_shares_plugin_registry 0 session_plain demo_plugin demo_plugin demo_state
              demo_root demo_config 0%nat demo_statement ∅ ∅
              eq_refl eq_refl eq_refl eq_refl ltac:(discriminate) eq_refl
              ltac:(apply lookup_empty) eq_refl ltac:(reflexivity))
    as (r & s1 & s2 & Hrun & Hne & Huse & Hdup & _).
  exists r, s1, s2. split; [exact Hrun|]. split; [exact Hne|]. split; [exact Huse|exact Hdup].
Defined.

Lemma Set_then_Get_witness :
  db_heap (mem demo_state) !! 0%nat = Some demo_root
  /\ clone demo_root = 1
  /\ exists tx s',
       DB_Set 0 "gorm:table_options" (IString "ENGINE=InnoDB") demo_state = Some (tx, s')
       /\ tx <> 0%nat
       /\ DB_Get tx "gorm:table_options" s' = Some (Some (IString "ENGINE=InnoDB"), s')
       /\ DB_Get 0 "gorm:table_options" s' = Some (None, s').
Proof.
  split; [reflexivity|]. split; [reflexivity|].
  destruct (Set_then_Get 0 "gorm:table_options" (IString "ENGINE=InnoDB") demo_state demo_root
              0%nat demo_statement demo_config eq_refl eq_refl eq_refl eq_refl)
    as (tx & s' & Hrun & Hget & _ & Hparent & _).
  destruct (Hparent ltac:(reflexivity)) as [Hne Hold].
  exists tx, s'. split; [exact Hrun|]. split; [exact Hne|]. split; [exact Hget|].
  rewrite Hold. reflexivity.
Defined.



Lemma AddError_on_instance_keeps_parent_witness :
  db_heap (mem demo_state) !! 0%nat = Some demo_root
  /\ 0 < clone demo_root
  /\ exists tx s1 s2,
       DB_getInstance 0 demo_state = Some (tx, s1)
       /\ tx <> 0%nat
       /\ DB_AddError tx (Some ErrInvalidDB) s1 = Some (Some ErrInvalidDB, s2)
       /\ DB_AddError tx None s2 = Some (Some ErrInvalidDB, s2)
       /\ DB_AddError 0 None s2 = Some (None, s2).
Proof.
  split; [reflexivity|]. split; [reflexivity|].
  destruct (AddError_on_instance_keeps_parent 0 ErrInvalidDB demo_state demo_root 0%nat
              demo_statement demo_config eq_refl eq_refl eq_refl eq_refl ltac:(reflexivity))
    as (tx & s1 & s2 & Hrun & Hne & _ & Hadd & Hown & Hparent).
  exists tx, s1, s2. split; [exact Hrun|]. split; [exact Hne|]. split; [exact Hadd|].
  split; [exact Hown|exact Hparent].
Defined.

Lemma AddError_keeps_earlier_error_as_text_witness :
  DB_Error demo_root = None
  /\ TranslateError demo_config = false
  /\ exists s1 s2 E,
       DB_AddError 0 (Some ErrInvalidDB) demo_state = Some (Some ErrInvalidDB, s1)
       /\ DB_AddError 0 (Some ErrBadConn) s1 = Some (Some E, s2)
       /\ Error_text E = "invalid db; driver: bad connection"
       /\ errors_Is (Some E) ErrBadConn = true
       /\ errors_Is (Some E) ErrInvalidDB = false.
Proof.
  split; [reflexivity|]. split; [reflexivity|].
  destruct (AddError_keeps_earlier_error_as_text 0 ErrInvalidDB ErrBadConn demo_state demo_root
              demo_config eq_refl eq_refl eq_refl eq_refl)
    as (s1 & s2 & H1 & H2 & Htext & Hlast & _ & Hfirst).
  exists s1, s2, (Errorf_v_w ErrInvalidDB (Some ErrBadConn)).
  split; [exact H1|]. split; [exact H2|]. split; [exact Htext|]. split; [exact Hlast|].
  apply Hfirst. reflexivity.
Defined.


Lemma DB_after_prepare_mode_witness :
  Session_PrepareStmt session_prepare = true
  /\ Config_ConnPool demo_config = Some (SqlDB 7)
  /\ exists r s',
       DB_Session 0 session_prepare demo_state = Some (r, s')
       /\ DB_DB demo_Tx_db r s' = Some ((Some 7%nat, None), s').
Proof.
  split; [reflexivity|]. split; [reflexivity|].
  exact (DB_after_prepare_mode demo_Tx_db 0 session_prepare demo_state demo_root demo_config
           0%nat demo_statement ∅ 7%nat eq_refl eq_refl eq_refl eq_refl eq_refl eq_refl
           ltac:(intros v H; rewrite lookup_empty in H; discriminate H) eq_refl
           (or_introl eq_refl)).
Defined.

Lemma Debug_changes_only_logger_witness :
  Logger logging_config = Some 3%nat
  /\ Logger demo_config = None
  /\ DB_Debug demo_LogMode 0 demo_state = None
  /\ exists r s' t,
       DB_Debug demo_LogMode 0 logging_state = Some (r, s')
       /\ db_heap (mem s') !! r = Some t
       /\ clone t = 2
       /\ config_heap (mem s') !! DB_Config t = Some (set_Logger (Some 4%nat) logging_config)
       /\ config_heap (mem s') !! 0%nat = Some logging_config.
Proof.
  split; [reflexivity|]. split; [reflexivity|]. split.
  - apply (Debug_changes_only_logger demo_LogMode 0 demo_state demo_root 0%nat demo_statement
             demo_config eq_refl eq_refl eq_refl eq_refl). reflexivity.
  - destruct (Debug_changes_only_logger demo_LogMode 0 logging_state demo_root 0%nat
                demo_statement logging_config eq_refl eq_refl eq_refl eq_refl) as [_ H].
    destruct (H 3%nat eq_refl)
      as (tx & s1 & r & s' & t & dt & _ & _ & Hrun & Ht & _ & _ & Hclone & _ & Hc & Hparent & _).
    exists r, s', t. split; [exact Hrun|]. split; [exact Ht|]. split; [exact Hclone|].
    split; [exact Hc|exact Hparent].
Defined.

Lemma Select_Build_writes_columns_witness :
  Select_Build text_WriteString text_WriteByte (text_WriteQuoted demo_quote) demo_select
    "SELECT " = "SELECT DISTINCT `id`,`name`"
  /\ Select_Build text_WriteString text_WriteByte (text_WriteQuoted demo_quote)
       (mkSelect true [] (Some "COUNT(id)")) "SELECT " = "SELECT *".
Proof.
  split.
  - exact (eq_trans (Select_Build_writes_columns demo_quote demo_select "SELECT ") eq_refl).
  - exact (eq_trans (Select_Build_writes_columns demo_quote
                       (mkSelect true [] (Some "COUNT(id)")) "SELECT ") eq_refl).
Defined.

Lemma CommaExpression_Build_joins_witness :
  CommaExpression_Build text_WriteString (text_Build demo_quote)
    (mkCommaExpression ["id"; "name"; "age"]) "ORDER BY " = "ORDER BY `id`, `name`, `age`"
  /\ CommaExpression_Build text_WriteString (text_Build demo_quote)
       (mkCommaExpression []) "ORDER BY " = "ORDER BY ".
Proof.
  split.
  - exact (eq_trans (CommaExpression_Build_joins demo_quote
                       (mkCommaExpression ["id"; "name"; "age"]) "ORDER BY ") eq_refl).
  - exact (eq_trans (CommaExpression_Build_joins demo_quote (mkCommaExpression [])
                       "ORDER BY ") eq_refl).
Defined.
